(** * GenAgentX: the agent execution loop and its tool invoker

    A shallow embedding of [src/services/toolExecutor.js] and
    [src/services/agentExecutor.js], and of the caller of the loop in
    [src/services/llmService.js].

    - JavaScript numbers are IEEE 754 binary64 values: Rocq's primitive
      [float].
    - JavaScript strings are sequences of code units; the embedding keeps
      the code units below 256 (Rocq's [ascii]), which covers every literal
      of the two source files.
    - An [async] function that may reject is a computation in the
      [outcome] monad: it either [Returns] a value or [Throws].
    - Whatever the program obtains from its platform (the language model
      behind [fetch], the clock, user supplied tool bodies, [JSON.parse],
      [JSON.stringify], the wording of engine errors) is a field of the
      class [Host]. *)

From Stdlib Require Import ZArith String Ascii List Bool Lia Floats.
Import ListNotations.

Set Implicit Arguments.
Set Warnings "-register-all,-inexact-float".

(* ================================================================== *)
(** * JavaScript values *)
(* ================================================================== *)

Module Js.

Inductive value : Type :=
| VUndefined
| VNull
| VBool (b : bool)
| VNum (n : float)
| VStr (s : string)
| VArr (items : list value)
| VObj (fields : list (string * value)).

(** What a [throw] carries: an [Error] object with its [message]; a value
    that is data ([throw null], [throw 'text'], [throw { code: 7 }]); or an
    object whose [message] cannot be read, because reading it runs a getter
    (or the trap of a proxy) that throws in turn. *)
Inductive exn : Type :=
| Error (message : string)
| Raised (v : value)
| Guarded (inner : exn).

(** Errors the engine itself raises.  Their wording differs between
    engines, so [Host.describe] supplies it. *)
Inductive fault : Type :=
| SyntaxFault (source : string)
| NotCallable
| NotAMethod (method : string)
| NoProperty (property : string)
| BadTimeZone (zone : string).

Inductive outcome (A : Type) : Type :=
| Returns (a : A)
| Throws (e : exn).

Arguments Returns {A} & a.
Arguments Throws {A} e.

(** What a tool body hands back need not be data.  [Opaque thrown] is a
    value on which [JSON.stringify] throws [thrown]: a TypeError for a
    BigInt and for an object that contains itself, or whatever a [toJSON]
    method or a getter of the value throws. *)
Inductive produced : Type :=
| Data (v : value)
| Opaque (thrown : exn).

Coercion Data : value >-> produced.

Definition bind {A B} (m : outcome A) (k : A -> outcome B) : outcome B :=
  match m with
  | Returns a => k a
  | Throws e => Throws e
  end.

(** A call into the platform that can only fail with an [Error] object:
    its value, or the message of that error. *)
Definition lift {A} (answer : string + A) : outcome A :=
  match answer with
  | inl message => Throws (Error message)
  | inr a => Returns a
  end.

(** A computation of data, among those of any value. *)
Definition as_data (m : outcome value) : outcome produced :=
  bind m (fun v => Returns (Data v)).

(** [try { m } catch (error) { handler error }] *)
Definition try_catch {A} (m : outcome A) (handler : exn -> outcome A) : outcome A :=
  match m with
  | Returns a => Returns a
  | Throws e => handler e
  end.

Definition q : string := String "034"%char EmptyString.

(** Source texts below are written with ['] where JavaScript has a double
    quote; [qq] puts the double quotes back. *)
Fixpoint qq (s : string) : string :=
  match s with
  | EmptyString => EmptyString
  | String c rest => String (if Ascii.eqb c "'"%char then "034"%char else c) (qq rest)
  end.

Definition is_nan (n : float) : bool := negb (PrimFloat.eqb n n).

(** ToBoolean *)
Definition truthy (v : value) : bool :=
  match v with
  | VUndefined | VNull => false
  | VBool b => b
  | VNum n => negb (PrimFloat.is_zero n || is_nan n)
  | VStr s => negb (String.eqb s EmptyString)
  | VArr _ | VObj _ => true
  end.

(** [a || b] *)
Definition or_else (a b : value) : value := if truthy a then a else b.

Fixpoint lookup (key : string) (fields : list (string * value)) : option value :=
  match fields with
  | [] => None
  | (k, v) :: rest => if String.eqb k key then Some v else lookup key rest
  end.

(** [o.key] on a value that is neither [undefined] nor [null]; only plain
    objects have own properties here. *)
Definition get (key : string) (o : value) : value :=
  match o with
  | VObj fields => match lookup key fields with Some v => v | None => VUndefined end
  | _ => VUndefined
  end.

Definition nullish (v : value) : bool :=
  match v with
  | VUndefined | VNull => true
  | _ => false
  end.

(** [o[key] = v] on an object literal: an existing key keeps its place. *)
Fixpoint set_field (key : string) (v : value) (fields : list (string * value))
  : list (string * value) :=
  match fields with
  | [] => [(key, v)]
  | (k, old) :: rest =>
      if String.eqb k key then (k, v) :: rest else (k, old) :: set_field key v rest
  end.

(** ** Characters *)

Definition code (c : ascii) : N := N_of_ascii c.

Definition is_digit (c : ascii) : bool := ((48 <=? code c) && (code c <=? 57))%N.

(** The regular expression class [\s], restricted to code units below 256. *)
Definition is_space (c : ascii) : bool :=
  let n := code c in
  ((9 <=? n) && (n <=? 13) || (n =? 32) || (n =? 160))%N.

Definition digit_value (c : ascii) : Z := Z.of_N (code c) - 48.

(** Case mapping of one code unit.  Three code units below 256 have an
    upper case outside that range (181, 223 and 255); they are left as they
    are, and no table of the program has a key with such a character. *)
Definition upper_char (c : ascii) : ascii :=
  let n := code c in
  if ((97 <=? n) && (n <=? 122))%N
     || ((224 <=? n) && (n <=? 254) && negb (n =? 247))%N
  then ascii_of_N (n - 32) else c.

Definition lower_char (c : ascii) : ascii :=
  let n := code c in
  if ((65 <=? n) && (n <=? 90))%N
     || ((192 <=? n) && (n <=? 222) && negb (n =? 215))%N
  then ascii_of_N (n + 32) else c.

Fixpoint map_string (f : ascii -> ascii) (s : string) : string :=
  match s with
  | EmptyString => EmptyString
  | String c rest => String (f c) (map_string f rest)
  end.

Definition toUpperCase : string -> string := map_string upper_char.
Definition toLowerCase : string -> string := map_string lower_char.

Fixpoint filter_string (keep : ascii -> bool) (s : string) : string :=
  match s with
  | EmptyString => EmptyString
  | String c rest =>
      if keep c then String c (filter_string keep rest) else filter_string keep rest
  end.

Fixpoint drop_spaces (s : list ascii) : list ascii :=
  match s with
  | c :: rest => if is_space c then drop_spaces rest else s
  | [] => []
  end.

(** [s.trim()] *)
Definition trim (s : string) : string :=
  let front := drop_spaces (list_ascii_of_string s) in
  string_of_list_ascii (rev (drop_spaces (rev front))).

(** ** Numbers *)

(** The binary64 value nearest to [m * 10 ^ e10] (ties to even), for
    [0 <= m]: the rounding of numeric literals and of [parseFloat]. *)
Definition float_of_decimal (m e10 : Z) : float :=
  if (m =? 0)%Z then PrimFloat.zero
  else if (0 <=? e10)%Z then SF2Prim (binary_normalize prec emax (m * 10 ^ e10) 0 false)
  else
    let den := (10 ^ (- e10))%Z in
    let s := Z.max 0 (Z.log2 den + 70 - Z.log2 m) in
    let num := (m * 2 ^ s)%Z in
    let quo := (num / den)%Z in
    let sticky := if (num mod den =? 0)%Z then 0%Z else 1%Z in
    SF2Prim (binary_normalize prec emax (2 * quo + sticky) (- s - 1) false).

Fixpoint span_digits (acc : Z) (count : Z) (s : list ascii) : Z * Z * list ascii :=
  match s with
  | c :: rest =>
      if is_digit c then span_digits (10 * acc + digit_value c) (count + 1) rest
      else (acc, count, s)
  | [] => (acc, count, [])
  end.

(** An optional exponent part [e], [e+] or [e-] followed by digits. *)
Definition exponent_part (s : list ascii) : Z :=
  match s with
  | c :: rest =>
      if Ascii.eqb (lower_char c) "e"%char then
        let '(negative, digits) :=
          match rest with
          | "-"%char :: r => (true, r)
          | "+"%char :: r => (false, r)
          | _ => (false, rest)
          end in
        let '(e, n, _) := span_digits 0 0 digits in
        if (n =? 0)%Z then 0%Z else if negative then (- e)%Z else e
      else 0%Z
  | [] => 0%Z
  end.

(** The longest prefix of [s] that is an unsigned StrDecimalLiteral. *)
Definition unsigned_prefix (s : list ascii) : option float :=
  if prefix "Infinity" (string_of_list_ascii s) then Some PrimFloat.infinity
  else
    let '(int, n_int, after_int) := span_digits 0 0 s in
    let '(mant, n_frac, after_frac) :=
      match after_int with
      | "."%char :: r => span_digits int 0 r
      | _ => (int, 0%Z, after_int)
      end in
    if ((n_int =? 0) && (n_frac =? 0))%Z then None
    else Some (float_of_decimal mant (exponent_part after_frac - n_frac)).

(** [parseFloat] on a string. *)
Definition parseFloat_string (s : string) : float :=
  let body := drop_spaces (list_ascii_of_string s) in
  let '(negative, digits) :=
    match body with
    | "-"%char :: r => (true, r)
    | "+"%char :: r => (false, r)
    | _ => (false, body)
    end in
  match unsigned_prefix digits with
  | Some n => if negative then PrimFloat.opp n else n
  | None => PrimFloat.nan
  end.

(** [parseFloat] on any value: the argument is first turned into a string.
    A number prints as a text that reads back as the same number (the
    zero loses its sign); an array prints its items separated by commas, so
    only its first item can contribute a numeric prefix; [null], booleans
    and plain objects print as words.  As in [ToString], an object with a
    property [toString] of its own is outside what is modelled: the engine
    throws a TypeError on it where this function gives [NaN]. *)
Fixpoint parseFloat (v : value) : float :=
  match v with
  | VNum n => if PrimFloat.is_zero n then PrimFloat.zero else n
  | VStr s => parseFloat_string s
  | VArr (first :: _) => parseFloat first
  | _ => PrimFloat.nan
  end.

End Js.

(* ================================================================== *)
(** * The platform *)
(* ================================================================== *)

Module Platform.
Import Js.

(** A parameter spec of a tool definition. *)
Record param : Type := {
  param_name : string;
  param_type : string;
  param_required : bool;
  param_description : string
}.

(** A ToolDefinition as the tool store keeps it. *)
Record tool : Type := {
  name : string;
  description : string;
  parameters : list param;
  returnType : string;
  codeImplementation : value
}.

(** What running the wrapped text of a tool body comes to. *)
Inductive loaded : Type :=
| Defines (execute : value -> outcome produced)
    (** the text ran to the check and [typeof execute === 'function'] *)
| DefinesNothing
    (** the text ran to the check and [execute] is not a function *)
| ReturnsEarly (callable : option (value -> outcome produced)).
    (** the text itself returned: a function, or something that cannot be called *)

(** The answer of [fetch] as the program reads it. *)
Record response : Type := {
  ok : bool;
  status : value;
  statusText : value;
  headers : value;
  json : string + value;   (** [await response.json()] *)
  text : string + value    (** [await response.text()] *)
}.

Class Host : Type := {
  (** wording of an engine error *)
  describe : fault -> string;
  (** [String(n)] for a number *)
  numberToString : float -> string;
  (** [JSON.parse]; [None] is its SyntaxError *)
  JSON_parse : string -> option value;
  (** [JSON.stringify(v, null, indent)]: a string, or [undefined] *)
  JSON_stringify : nat -> value -> value;
  (** [Function(source)()] for a source outside the arithmetic fragment
      that [Calculator.run] evaluates itself *)
  evaluate : string -> string + value;
  (** [await new AsyncFunction(wrappedCode)()] for a tool body *)
  run_body : string -> outcome loaded;
  (** [await fetch(url, options)] *)
  fetch : value -> value -> string + response;
  (** the clock and the locale tables *)
  localZone : string;
  isoUtc : string;
  epochSeconds : float;
  localeDate : string -> option string;   (** [None]: RangeError, unknown zone *)
  localeTime : string -> option string;
  (** [crypto.randomUUID()] or its fallback *)
  uuid : string;
  (** the knowledge base: [searchSimilarDocuments] *)
  searchSimilarDocuments : value -> string -> string -> value -> string + list value;
  (** the tool store: [getToolById]; [None] is [null] or [undefined] *)
  getToolById : value -> string + option tool
}.

Section Conversions.
Context `{Host}.
Local Open Scope string_scope.

Definition engine_error {A} (f : fault) : outcome A := Throws (Error (describe f)).

(** Interpolation in a template literal.  The objects printed here are
    the plain ones of parsed JSON and of form inputs, which print through
    [Object.prototype.toString]; an object that hides it behind a property
    [toString] of its own is not printed this way: there the engine
    throws a TypeError. *)
Fixpoint ToString (v : value) : string :=
  match v with
  | VUndefined => "undefined"
  | VNull => "null"
  | VBool true => "true"
  | VBool false => "false"
  | VNum n => numberToString n
  | VStr s => s
  | VArr items =>
      let item x := if nullish x then EmptyString else ToString x in
      String.concat "," (map item items)
  | VObj _ => "[object Object]"
  end.

(** [error.message] inside a [catch] block: the message of an [Error];
    the [message] property of a thrown value that is data, which [null]
    and [undefined] do not have; for an object that guards its message,
    what the getter throws. *)
Definition message_of (error : exn) : outcome value :=
  match error with
  | Error m => Returns (VStr m)
  | Raised v => if nullish v then engine_error (NoProperty "message")
                else Returns (get "message" v)
  | Guarded inner => Throws inner
  end.

(** [const { ... } = args]: fails on [undefined] and [null]. *)
Definition destructure (args : value) : outcome value :=
  if nullish args then engine_error (NoProperty "destructured") else Returns args.

(** A destructured property with a default: [{ key = fallback }]. *)
Definition get_default (key : string) (fallback : value) (o : value) : value :=
  match get key o with
  | VUndefined => fallback
  | v => v
  end.

End Conversions.

End Platform.

(* ================================================================== *)
(** * The arithmetic the calculator hands to [Function] *)
(* ================================================================== *)

(** [executeCalculator] evaluates [Function("'use strict'; return (" +
    sanitized + ")")()], where [sanitized] has only digits, [+ - * / ( ) .]
    and white space.  [Calculator.run] evaluates such a text when it is
    plain arithmetic: decimal literals, unary and binary [+ - * /],
    parentheses, and calls (which always fail: a number is not a function).
    A text with a line break (automatic semicolon insertion), a comment, a
    regular expression literal, [++], [--], [**] or a lone dot is [Beyond],
    and left to the engine of the host. *)

Module Calculator.
Import Js.

Inductive token : Type :=
| TNum (n : float)
| TPlus | TMinus | TStar | TSlash | TOpen | TClose.

Inductive scanned (A : Type) : Type :=
| Scanned (a : A)
| Malformed     (** SyntaxError *)
| Beyond.       (** outside the fragment *)

Arguments Scanned {A} a.
Arguments Malformed {A}.
Arguments Beyond {A}.

Definition is_line_break (c : ascii) : bool := ((code c =? 10) || (code c =? 13))%N.

(** After a number or a closing parenthesis [/] divides; anywhere else it
    would open a regular expression. *)
Definition ends_operand (previous : option token) : bool :=
  match previous with
  | Some (TNum _) | Some TClose => true
  | _ => false
  end.

(** A decimal literal at the head of [s], which starts with a digit or
    with a dot followed by a digit.  Strict mode rejects a leading zero
    followed by another digit. *)
Definition scan_number (s : list ascii) : scanned (float * list ascii) :=
  let '(int, n_int, after_int) := span_digits 0 0 s in
  let leading_zero :=
    match s with
    | "0"%char :: _ => (1 <? n_int)%Z
    | _ => false
    end in
  if leading_zero then Malformed
  else
    let '(mant, n_frac, rest) :=
      match after_int with
      | "."%char :: r => span_digits int 0 r
      | _ => (int, 0%Z, after_int)
      end in
    Scanned (float_of_decimal mant (- n_frac), rest).

Definition starts_with_digit (s : list ascii) : bool :=
  match s with
  | c :: _ => is_digit c
  | [] => false
  end.

Definition starts_with (c : ascii) (s : list ascii) : bool :=
  match s with
  | d :: _ => Ascii.eqb c d
  | [] => false
  end.

Fixpoint scan (fuel : nat) (previous : option token) (s : list ascii)
  : scanned (list token) :=
  match fuel with
  | O => Beyond
  | S fuel =>
      let emit t rest :=
        match scan fuel (Some t) rest with
        | Scanned ts => Scanned (t :: ts)
        | Malformed => Malformed
        | Beyond => Beyond
        end in
      match s with
      | [] => Scanned []
      | c :: rest =>
          if is_line_break c then Beyond
          else if is_space c then scan fuel previous rest
          else if is_digit c || (Ascii.eqb c "."%char && starts_with_digit rest) then
            match scan_number s with
            | Scanned (n, rest') => emit (TNum n) rest'
            | Malformed => Malformed
            | Beyond => Beyond
            end
          else if Ascii.eqb c "."%char then Beyond
          else if Ascii.eqb c "+"%char then
            if starts_with "+"%char rest then Beyond else emit TPlus rest
          else if Ascii.eqb c "-"%char then
            if starts_with "-"%char rest then Beyond else emit TMinus rest
          else if Ascii.eqb c "*"%char then
            if starts_with "*"%char rest then Beyond else emit TStar rest
          else if Ascii.eqb c "/"%char then
            if starts_with "/"%char rest || starts_with "*"%char rest
               || negb (ends_operand previous)
            then Beyond else emit TSlash rest
          else if Ascii.eqb c "("%char then emit TOpen rest
          else if Ascii.eqb c ")"%char then emit TClose rest
          else Malformed
      end
  end.

Inductive expr : Type :=
| ENum (n : float)
| EPos (e : expr)
| ENeg (e : expr)
| EAdd (a b : expr)
| ESub (a b : expr)
| EMul (a b : expr)
| EDiv (a b : expr)
| ECall (callee : expr) (argument : option expr).

(** Recursive descent, with the precedences of the language: a call binds
    tighter than a unary sign, a sign tighter than [*] and [/], these
    tighter than [+] and [-]; binary operators associate to the left. *)
Fixpoint parse_expr (fuel : nat) (ts : list token) : option (expr * list token) :=
  match fuel with
  | O => None
  | S fuel =>
      let primary ts :=
        match ts with
        | TNum n :: rest => Some (ENum n, rest)
        | TOpen :: rest =>
            match parse_expr fuel rest with
            | Some (e, TClose :: rest') => Some (e, rest')
            | _ => None
            end
        | _ => None
        end in
      let fix calls (n : nat) (callee : expr) (ts : list token) :=
        match n, ts with
        | S n, TOpen :: TClose :: rest => calls n (ECall callee None) rest
        | S n, TOpen :: rest =>
            match parse_expr fuel rest with
            | Some (a, TClose :: rest') => calls n (ECall callee (Some a)) rest'
            | _ => None
            end
        | _, _ => Some (callee, ts)
        end in
      let fix unary (n : nat) (ts : list token) :=
        match n, ts with
        | S n, TPlus :: rest =>
            match unary n rest with
            | Some (e, rest') => Some (EPos e, rest')
            | None => None
            end
        | S n, TMinus :: rest =>
            match unary n rest with
            | Some (e, rest') => Some (ENeg e, rest')
            | None => None
            end
        | _, _ =>
            match primary ts with
            | Some (e, rest) => calls fuel e rest
            | None => None
            end
        end in
      let fix factors (n : nat) (left : expr) (ts : list token) :=
        match n, ts with
        | S n, TStar :: rest =>
            match unary fuel rest with
            | Some (r, rest') => factors n (EMul left r) rest'
            | None => None
            end
        | S n, TSlash :: rest =>
            match unary fuel rest with
            | Some (r, rest') => factors n (EDiv left r) rest'
            | None => None
            end
        | _, _ => Some (left, ts)
        end in
      let term ts :=
        match unary fuel ts with
        | Some (l, rest) => factors fuel l rest
        | None => None
        end in
      let fix terms (n : nat) (left : expr) (ts : list token) :=
        match n, ts with
        | S n, TPlus :: rest =>
            match term rest with
            | Some (r, rest') => terms n (EAdd left r) rest'
            | None => None
            end
        | S n, TMinus :: rest =>
            match term rest with
            | Some (r, rest') => terms n (ESub left r) rest'
            | None => None
            end
        | _, _ => Some (left, ts)
        end in
      match term ts with
      | Some (l, rest) => terms fuel l rest
      | None => None
      end
  end.

(** Evaluation, left to right; [None] is the TypeError of a call. *)
Fixpoint eval (e : expr) : option float :=
  let both (op : float -> float -> float) a b :=
    match eval a with
    | Some x => match eval b with Some y => Some (op x y) | None => None end
    | None => None
    end in
  match e with
  | ENum n => Some n
  | EPos a => eval a
  | ENeg a => option_map PrimFloat.opp (eval a)
  | EAdd a b => both PrimFloat.add a b
  | ESub a b => both PrimFloat.sub a b
  | EMul a b => both PrimFloat.mul a b
  | EDiv a b => both PrimFloat.div a b
  | ECall callee argument =>
      match eval callee with
      | Some _ => match argument with Some a => match eval a with _ => None end | None => None end
      | None => None
      end
  end.

Inductive verdict : Type :=
| Value (n : float)
| SyntaxError
| TypeError
| Unknown.

(** The text [sanitized] stands between [return (] and [)]. *)
Definition run (sanitized : string) : verdict :=
  let source := list_ascii_of_string sanitized in
  match scan (S (length source)) None source with
  | Beyond => Unknown
  | Malformed => SyntaxError
  | Scanned ts =>
      let all := (TOpen :: ts ++ [TClose])%list in
      match parse_expr (S (length all)) all with
      | Some (e, []) =>
          match eval e with
          | Some n => Value n
          | None => TypeError
          end
      | _ => SyntaxError
      end
  end.

End Calculator.

(* ================================================================== *)
(** * Regular expressions, as far as the sources use them *)
(* ================================================================== *)

(** A backtracking matcher for sequences of single characters, lazy stars
    and greedy pluses over character classes: the constructs of the
    function-call pattern.  [run r s] follows the priorities of the
    language: a lazy star first tries to stop, a greedy plus first tries to
    go on.  Its answer is the input left after the match. *)

Module Regex.
Import Js.

Inductive piece : Type :=
| One (class : ascii -> bool)
| LazyStar (class : ascii -> bool)
| GreedyPlus (class : ascii -> bool).

Definition regex : Type := list piece.

Section Backtracking.
Variable class : ascii -> bool.
Variable continue : list ascii -> option (list ascii).

Fixpoint lazy_star (s : list ascii) : option (list ascii) :=
  match continue s with
  | Some rest => Some rest
  | None =>
      match s with
      | c :: s' => if class c then lazy_star s' else None
      | [] => None
      end
  end.

Fixpoint greedy_star (s : list ascii) : option (list ascii) :=
  match s with
  | c :: s' =>
      if class c then
        match greedy_star s' with
        | Some rest => Some rest
        | None => continue s
        end
      else continue s
  | [] => continue []
  end.

Definition greedy_plus (s : list ascii) : option (list ascii) :=
  match s with
  | c :: s' => if class c then greedy_star s' else None
  | [] => None
  end.

End Backtracking.

Fixpoint run (r : regex) (s : list ascii) : option (list ascii) :=
  match r with
  | [] => Some s
  | One class :: r' =>
      match s with
      | c :: s' => if class c then run r' s' else None
      | [] => None
      end
  | LazyStar class :: r' => lazy_star class (run r') s
  | GreedyPlus class :: r' => greedy_plus class (run r') s
  end.

(** One call of [exec] on a global pattern: the left-most position at or
    after [lastIndex] where the pattern matches.  [s] is the text from
    [lastIndex] on; the answer has the text skipped before the match, the
    matched text, and the text after it (the new [lastIndex]). *)
Fixpoint exec (r : regex) (s : list ascii)
  : option (list ascii * list ascii * list ascii) :=
  match run r s with
  | Some rest => Some ([], firstn (length s - length rest) s, rest)
  | None =>
      match s with
      | c :: s' =>
          match exec r s' with
          | Some (skipped, matched, rest) => Some (c :: skipped, matched, rest)
          | None => None
          end
      | [] => None
      end
  end.

Definition literal (text : string) : regex :=
  map (fun c => One (Ascii.eqb c)) (list_ascii_of_string text).

Definition anything (c : ascii) : bool := true.

End Regex.

(* ================================================================== *)
(** * src/services/toolExecutor.js: the tool invoker *)
(* ================================================================== *)

Module ToolExecutor.
Import Js Platform.

Section WithHost.
Context `{Host}.
Local Open Scope string_scope.

Definition nl : string := String "010"%char EmptyString.

(** The text handed to [AsyncFunction]: the tool body, then the check
    for an [execute] function. *)
Definition wrappedCode (t : tool) : string :=
  nl ++ "      " ++ ToString (codeImplementation t) ++ nl
  ++ "      " ++ nl
  ++ "      // If execute function is defined, return it" ++ nl
  ++ "      if (typeof execute === 'function') {" ++ nl
  ++ "        return execute;" ++ nl
  ++ "      }" ++ nl
  ++ "      " ++ nl
  ++ "      // Otherwise, the code itself should be a function" ++ nl
  ++ "      throw new Error('Code must define an " ++ q ++ "execute" ++ q ++ " function');" ++ nl
  ++ "    ".

Definition no_execute : string :=
  "Code must define an " ++ q ++ "execute" ++ q ++ " function".

(** [throw new Error(`<prefix>${error.message}`)] *)
Definition rethrow {A} (prefix : string) (error : exn) : outcome A :=
  bind (message_of error) (fun m => Throws (Error (prefix ++ ToString m))).

(** The [try] block of [executeCustomCode]. *)
Definition customCall (t : tool) (args : value) : outcome produced :=
  bind (run_body (wrappedCode t)) (fun executeFunction =>
    match executeFunction with
    | Defines execute => execute args
    | DefinesNothing => Throws (Error no_execute)
    | ReturnsEarly (Some f) => f args
    | ReturnsEarly None => engine_error NotCallable
    end).

Definition executeCustomCode (t : tool) (args : value) : outcome produced :=
  try_catch (customCall t args) (rethrow "Custom code execution failed: ").

(** ** calculator *)

(** The characters that [/[^0-9+\-*/().\s]/g] leaves in place. *)
Definition allowed (c : ascii) : bool :=
  is_digit c
  || existsb (Ascii.eqb c) ["+"; "-"; "*"; "/"; "("; ")"; "."]%char
  || is_space c.

Definition sanitize (expression : string) : string := filter_string allowed expression.

(** [expression.replace(/[^0-9+\-*/().\s]/g, '')] *)
Definition replace_disallowed (expression : value) : outcome string :=
  match expression with
  | VStr s => Returns (sanitize s)
  | VUndefined | VNull => engine_error (NoProperty "replace")
  | _ => engine_error (NotAMethod "replace")
  end.

Definition function_source (sanitized : string) : string :=
  "'use strict'; return (" ++ sanitized ++ ")".

(** [Function(`'use strict'; return (${sanitized})`)()] *)
Definition call_Function (sanitized : string) : outcome value :=
  match Calculator.run sanitized with
  | Calculator.Value n => Returns (VNum n)
  | Calculator.SyntaxError => engine_error (SyntaxFault (function_source sanitized))
  | Calculator.TypeError => engine_error NotCallable
  | Calculator.Unknown => lift (evaluate (function_source sanitized))
  end.

Definition executeCalculator (args : value) : outcome value :=
  bind (destructure args) (fun args =>
  let expression := get "expression" args in
  try_catch
    (bind (replace_disallowed expression) (fun sanitized =>
       if negb (truthy (VStr sanitized)) then
         Throws (Error "Invalid mathematical expression")
       else
         bind (call_Function sanitized) (fun result =>
         Returns (VObj [("success", VBool true);
                        ("expression", expression);
                        ("result", result)]))))
    (rethrow "Calculation failed: ")).

(** ** data_analyzer *)

Definition float_of_nat (n : nat) : float := float_of_decimal (Z.of_nat n) 0.

(** [typeof d === 'number' ? d : parseFloat(d)] *)
Definition coerce (d : value) : float :=
  match d with
  | VNum n => n
  | _ => parseFloat d
  end.

(** [Array.prototype.sort] with the comparator [(a, b) => a - b]: the sort
    is stable, and [x] comes before [y] when [y - x] is positive. *)
Fixpoint insert (x : float) (sorted : list float) : list float :=
  match sorted with
  | [] => [x]
  | y :: rest =>
      if PrimFloat.ltb 0 (PrimFloat.sub y x) then x :: sorted else y :: insert x rest
  end.

Definition sort (numbers : list float) : list float :=
  fold_left (fun sorted x => insert x sorted) numbers [].

(** [sorted[i]] for an index inside the array. *)
Definition at_index (sorted : list float) (i : nat) : float := nth i sorted PrimFloat.nan.

(** [Math.pow(x, 2)] *)
Definition square (x : float) : float := PrimFloat.mul x x.

Definition is_array (v : value) : bool :=
  match v with
  | VArr _ => true
  | _ => false
  end.

Definition items_of (v : value) : list value :=
  match v with
  | VArr items => items
  | _ => []
  end.

Definition executeDataAnalyzer (args : value) : outcome value :=
  bind (destructure args) (fun args =>
  let data := get "data" args in
  let analysis_type := get_default "analysis_type" (VStr "summary") args in
  if negb (is_array data) || (length (items_of data) =? 0)%nat then
    Throws (Error "Data must be a non-empty array")
  else
    let numbers := filter (fun n => negb (is_nan n)) (map coerce (items_of data)) in
    if (length numbers =? 0)%nat then
      Throws (Error "No valid numeric data found")
    else
      let sorted := sort numbers in
      let count := float_of_nat (length numbers) in
      let sum := fold_left PrimFloat.add numbers PrimFloat.zero in
      let mean := PrimFloat.div sum count in
      let n := length sorted in
      let median :=
        if (n mod 2 =? 0)%nat then
          PrimFloat.div
            (PrimFloat.add (at_index sorted (n / 2 - 1)) (at_index sorted (n / 2))) 2
        else at_index sorted (n / 2) in
      let variance :=
        PrimFloat.div
          (fold_left (fun acc val => PrimFloat.add acc (square (PrimFloat.sub val mean)))
                     numbers PrimFloat.zero)
          count in
      let stdDev := PrimFloat.sqrt variance in
      Returns (VObj [("success", VBool true);
                     ("analysis_type", analysis_type);
                     ("count", VNum count);
                     ("sum", VNum sum);
                     ("mean", VNum mean);
                     ("median", VNum median);
                     ("min", VNum (at_index sorted 0));
                     ("max", VNum (at_index sorted (n - 1)));
                     ("range", VNum (PrimFloat.sub (at_index sorted (n - 1)) (at_index sorted 0)));
                     ("variance", VNum variance);
                     ("standardDeviation", VNum stdDev)])).

(** ** api_caller *)

Definition digit_char (n : nat) : ascii := ascii_of_nat (48 + n).

Fixpoint decimal_digits (fuel n : nat) (acc : string) : string :=
  match fuel with
  | O => acc
  | S fuel =>
      let acc := String (digit_char (n mod 10)) acc in
      if (n / 10 =? 0)%nat then acc else decimal_digits fuel (n / 10) acc
  end.

(** An array index as a property key. *)
Definition index_key (n : nat) : string := decimal_digits (S n) n EmptyString.

(** The own enumerable properties that [{ ...v }] copies. *)
Definition own_entries (v : value) : list (string * value) :=
  match v with
  | VObj fields => fields
  | VArr items => combine (map index_key (seq 0 (length items))) items
  | VStr s =>
      let chars := list_ascii_of_string s in
      combine (map index_key (seq 0 (length chars)))
              (map (fun c => VStr (String c EmptyString)) chars)
  | _ => []
  end.

Definition strict_eq_string (v : value) (s : string) : bool :=
  match v with
  | VStr x => String.eqb x s
  | _ => false
  end.

Definition executeApiCaller (args : value) : outcome value :=
  bind (destructure args) (fun args =>
  let url := get "url" args in
  let method := get_default "method" (VStr "GET") args in
  let headers := get_default "headers" (VObj []) args in
  let body := get_default "body" VNull args in
  try_catch
    (let merged :=
       fold_left (fun fields '(k, v) => set_field k v fields) (own_entries headers)
                 [("Content-Type", VStr "application/json")] in
     let options := [("method", method); ("headers", VObj merged)] in
     let options :=
       if truthy body
          && (strict_eq_string method "POST" || strict_eq_string method "PUT"
              || strict_eq_string method "PATCH")
       then set_field "body"
              (match body with VStr _ => body | _ => JSON_stringify 0 body end) options
       else options in
     bind (lift (fetch url (VObj options))) (fun response =>
     bind (try_catch (lift (json response)) (fun _ => lift (text response))) (fun data =>
     Returns (VObj [("success", VBool true);
                    ("status", status response);
                    ("statusText", statusText response);
                    ("headers", Platform.headers response);
                    ("data", data)]))))
    (rethrow "API call failed: ")).

(** ** current_datetime *)

Definition zone_abbreviations : list (string * string) :=
  [("IST", "Asia/Kolkata"); ("EST", "America/New_York"); ("PST", "America/Los_Angeles");
   ("CST", "America/Chicago"); ("MST", "America/Denver"); ("UTC", "UTC");
   ("GMT", "Etc/GMT")].

Fixpoint assoc (key : string) (table : list (string * string)) : option string :=
  match table with
  | [] => None
  | (k, v) :: rest => if String.eqb k key then Some v else assoc key rest
  end.

Definition resolveTimeZone (tzInput : value) : outcome string :=
  if negb (truthy tzInput) then Returns localZone
  else
    match tzInput with
    | VStr s =>
        match assoc (toUpperCase s) zone_abbreviations with
        | Some zone => Returns zone
        | None => Returns s
        end
    | _ => engine_error (NotAMethod "toUpperCase")
    end.

Definition formatFor (tz : string) : outcome value :=
  match localeDate tz with
  | None => engine_error (BadTimeZone tz)
  | Some date =>
      match localeTime tz with
      | None => engine_error (BadTimeZone tz)
      | Some time =>
          Returns (VObj [("date", VStr date); ("time", VStr time); ("timezone", VStr tz)])
      end
  end.

Definition executeCurrentDateTime (args : value) : outcome value :=
  let args := match args with VUndefined => VObj [] | _ => args end in
  bind (destructure args) (fun args =>
  let timezone := get "timezone" args in
  let localTz := localZone in
  bind (resolveTimeZone timezone) (fun targetTz =>
  bind (formatFor localTz) (fun local =>
  bind (formatFor targetTz) (fun requested =>
  Returns (VObj [("success", VBool true);
                 ("isoUtc", VStr isoUtc);
                 ("epochSeconds", VNum epochSeconds);
                 ("local", local);
                 ("requested", requested)]))))).

(** ** uuid_generator *)

Definition executeUuidGenerator : outcome value :=
  Returns (VObj [("success", VBool true); ("uuid", VStr uuid)]).

(** ** executeTool *)

(** [tool.codeImplementation && tool.codeImplementation.trim()], as a
    condition. *)
Definition has_custom_code (t : tool) : outcome bool :=
  let c := codeImplementation t in
  if negb (truthy c) then Returns false
  else
    match c with
    | VStr s => Returns (truthy (VStr (trim s)))
    | _ => engine_error (NotAMethod "trim")
    end.

Definition not_implemented (t : tool) : string :=
  "Tool '" ++ name t ++ "' is not implemented and has no custom code".

(** The [switch] on the tool name.  What a built-in returns is data. *)
Definition builtin (t : tool) (args : value) : outcome produced :=
  if String.eqb (name t) "calculator" then as_data (executeCalculator args)
  else if String.eqb (name t) "data_analyzer" then as_data (executeDataAnalyzer args)
  else if String.eqb (name t) "api_caller" then as_data (executeApiCaller args)
  else if String.eqb (name t) "current_datetime" then as_data (executeCurrentDateTime args)
  else if String.eqb (name t) "uuid_generator" then as_data executeUuidGenerator
  else Throws (Error (not_implemented t)).

(** The structured failure shape [{ error: true, message, toolName }]. *)
Definition failure (message : value) (toolName : string) : value :=
  VObj [("error", VBool true); ("message", message); ("toolName", VStr toolName)].

(** The [try] block of [executeTool]. *)
Definition dispatch (t : tool) (args : value) : outcome produced :=
  bind (has_custom_code t) (fun custom =>
    if custom then executeCustomCode t args else builtin t args).

(** The [catch] reads [error.message], which can throw in turn: then
    [executeTool] itself throws. *)
Definition executeTool (t : tool) (args : value) : outcome produced :=
  try_catch (dispatch t args)
    (fun error =>
       bind (message_of error) (fun message => Returns (Data (failure message (name t))))).

(** ** parseFunctionCalls *)

(** A FunctionCallRequest: [{ name, arguments }]. *)
Record functionCall : Type := {
  called : value;      (** [name] *)
  arguments : value
}.

(** The pattern, written here with ['] for its double quotes:
    [/\{[\s\S]*?'function'[\s\S]*?:[\s\S]*?'([^']+)'[\s\S]*?,[\s\S]*?'arguments'[\s\S]*?:[\s\S]*?\{[\s\S]*?\}[\s\S]*?\}/g] *)
Definition functionCallRegex : Regex.regex :=
  let gap := [Regex.LazyStar Regex.anything] in
  let not_quote c := negb (Ascii.eqb c "034"%char) in
  (Regex.literal "{" ++ gap ++ Regex.literal (qq "'function'") ++ gap
   ++ Regex.literal ":" ++ gap
   ++ Regex.literal q ++ [Regex.GreedyPlus not_quote] ++ Regex.literal q ++ gap
   ++ Regex.literal "," ++ gap ++ Regex.literal (qq "'arguments'") ++ gap
   ++ Regex.literal ":" ++ gap
   ++ Regex.literal "{" ++ gap ++ Regex.literal "}" ++ gap ++ Regex.literal "}")%list.

(** The body of the [try] inside the loop: [JSON.parse(match[0])], then
    the two property reads.  [None] is the [catch]: nothing is pushed. *)
Definition read_call (matched : string) : option functionCall :=
  match JSON_parse matched with
  | Some callData =>
      if nullish callData then None
      else Some {| called := get "function" callData;
                   arguments := get "arguments" callData |}
  | None => None
  end.

(** The [while ((match = functionCallRegex.exec(text)) !== null)] loop;
    [rest] is the text from [lastIndex] on.  Every match is at least one
    character long, so [length rest] passes are enough. *)
Fixpoint scan_calls (passes : nat) (rest : list ascii) (functionCalls : list functionCall)
  : list functionCall :=
  match passes with
  | O => functionCalls
  | S passes =>
      match Regex.exec functionCallRegex rest with
      | None => functionCalls
      | Some (_, matched, rest') =>
          match read_call (string_of_list_ascii matched) with
          | Some call => scan_calls passes rest' (functionCalls ++ [call])%list
          | None => scan_calls passes rest' functionCalls
          end
      end
  end.

Definition parseFunctionCalls (text : string) : list functionCall :=
  let chars := list_ascii_of_string text in
  scan_calls (S (length chars)) chars [].

End WithHost.

End ToolExecutor.

(* ================================================================== *)
(** * src/services/agentExecutor.js: the conversation loop *)
(* ================================================================== *)

Module AgentExecutor.
Import Js Platform ToolExecutor.

(** The Agent, as far as the loop reads it. *)
Record agent : Type := {
  id : value;
  role : string;
  goal : string;
  taskDescription : string;
  expectedOutput : string;
  model : string;
  tools : list value;      (** tool identifiers; an absent list is the empty one *)
  ragEnabled : bool;
  ragTopK : value
}.

Inductive origin : Type := User | Model.

(** A ConversationTurn [{ role, parts: [{ text }] }]. *)
Record turn : Type := {
  source : origin;
  content : string
}.

(** A ToolExecutionRecord [{ iteration, tool, arguments, result }]. *)
Record execution : Type := {
  at_iteration : nat;
  tool_called : value;
  with_arguments : value;
  tool_result : produced
}.

(** What [executeAgentWithTools] resolves to.  [error] is absent from the
    object of a completed run. *)
Record report : Type := {
  success : bool;
  error : option value;
  result : value;
  iterations : nat;
  toolExecutions : list execution;
  conversationHistory : list turn
}.

(** The two arrays the loop mutates. *)
Record state : Type := {
  history : list turn;
  toolExecutionLog : list execution
}.

Section WithHost.
Context `{Host}.
Local Open Scope string_scope.

Definition GEMINI_API_BASE : string := "https://generativelanguage.googleapis.com/v1beta".

Definition MAX_ITERATIONS : nat := 10.

(** ** extractGeminiParameters *)

(** The four entries of the object literal [paramMapping], for an
    already lower-cased key. *)
Definition paramMapping (key : string) : option string :=
  if String.eqb key "temperature" then Some "temperature"
  else if String.eqb key "maxtokens" then Some "maxOutputTokens"
  else if String.eqb key "topp" then Some "topP"
  else if String.eqb key "topk" then Some "topK"
  else None.

(** What the object literal inherits.  Of the properties of
    [Object.prototype] two have a name in small letters, and both are
    truthy: [constructor] is the function [Object] and [__proto__] is the
    prototype itself.  Used as a property key each becomes a text: the
    source of the function as the engines print it (they differ in white
    space only), and ["[object Object]"]. *)
Definition inheritedMapping (key : string) : option string :=
  if String.eqb key "constructor" then Some "function Object() { [native code] }"
  else if String.eqb key "__proto__" then Some "[object Object]"
  else None.

(** [paramMapping[key]], when it is truthy, as the key under which the
    value is stored. *)
Definition mappingAt (key : string) : option string :=
  match paramMapping key with
  | Some geminiKey => Some geminiKey
  | None => inheritedMapping key
  end.

Definition extractGeminiParameters (customParams : list (string * value))
  : list (string * value) :=
  fold_left
    (fun geminiParams '(key, v) =>
       match mappingAt (toLowerCase key) with
       | Some geminiKey => set_field geminiKey (or_else (VNum (parseFloat v)) v) geminiParams
       | None => geminiParams
       end)
    customParams [].

(** The [generationConfig] of the request body. *)
Definition generationConfig (geminiParams : list (string * value)) : value :=
  let read key := get key (VObj geminiParams) in
  VObj [("temperature", or_else (read "temperature") (VNum 0.7));
        ("topK", or_else (read "topK") (VNum 40));
        ("topP", or_else (read "topP") (VNum 0.95));
        ("maxOutputTokens", or_else (read "maxOutputTokens") (VNum 8000))].

(** ** buildSystemPrompt *)

Definition is_generation_key (key : string) : bool :=
  existsb (String.eqb (toLowerCase key)) ["temperature"; "maxtokens"; "topp"; "topk"].

(** The [forEach] over the retrieved documents; reading [content] of a
    [null] document throws into the surrounding [catch], which keeps what
    was appended so far. *)
Fixpoint append_documents (i : nat) (docs : list value) (prompt : string) : string :=
  match docs with
  | [] => prompt
  | doc :: rest =>
      if nullish doc then prompt
      else append_documents (S i) rest
             (prompt ++ nl ++ "[Document " ++ index_key (i + 1) ++ "] "
                     ++ ToString (get "content" doc) ++ nl)
  end.

Definition buildSystemPrompt (a : agent) (customParams : list (string * value))
           (apiKey userInput : string) : string :=
  let prompt :=
    "You are a " ++ role a ++ "." ++ nl ++ nl ++ "Your goal is: " ++ goal a ++ nl ++ nl
    ++ "Task Description:" ++ nl ++ taskDescription a ++ nl ++ nl
    ++ "Expected Output Format:" ++ nl ++ expectedOutput a in
  let contextParams := filter (fun '(key, _) => negb (is_generation_key key)) customParams in
  let prompt :=
    if (0 <? length contextParams)%nat then
      fold_left (fun prompt '(key, v) => prompt ++ nl ++ "- " ++ key ++ ": " ++ ToString v)
                contextParams (prompt ++ nl ++ nl ++ "Context:")
    else prompt in
  if ragEnabled a then
    match searchSimilarDocuments (id a) userInput apiKey (or_else (ragTopK a) (VNum 3)) with
    | inr relevantDocs =>
        if (0 <? length relevantDocs)%nat then
          append_documents 0 relevantDocs
            (prompt ++ nl ++ nl ++ "Relevant Knowledge Base Documents:" ++ nl)
        else prompt
    | inl _ => prompt
    end
  else prompt.

(** ** loadAgentTools *)

Fixpoint loadAgentTools_from (ids : list value) : outcome (list tool) :=
  match ids with
  | [] => Returns []
  | toolId :: rest =>
      bind (lift (getToolById toolId)) (fun found =>
      bind (loadAgentTools_from rest) (fun others =>
      Returns (match found with Some t => t :: others | None => others end)))
  end.

Definition loadAgentTools (a : agent) : outcome (list tool) :=
  if (length (tools a) =? 0)%nat then Returns [] else loadAgentTools_from (tools a).

(** ** callGeminiAPI *)

Definition describe_param (p : param) : string :=
  "  - " ++ param_name p ++ " (" ++ param_type p
  ++ (if param_required p then ", required" else ", optional") ++ "): "
  ++ (if String.eqb (param_description p) EmptyString then "No description"
      else param_description p) ++ nl.

Definition describe_tool (t : tool) : string :=
  "Tool: " ++ name t ++ nl
  ++ "Description: " ++ description t ++ nl
  ++ (if (0 <? length (parameters t))%nat
      then "Parameters:" ++ nl ++ String.concat EmptyString (map describe_param (parameters t))
      else EmptyString)
  ++ "Returns: " ++ returnType t ++ nl ++ nl.

Definition call_format : string :=
  qq "{'function': 'tool_name', 'arguments': {param1: value1, param2: value2}}".

Definition toolsInstruction (agentTools : list tool) : string :=
  if (0 <? length agentTools)%nat then
    nl ++ nl ++ "=== AVAILABLE TOOLS ===" ++ nl
    ++ "You have access to the following tools. When you need to use a tool, output a JSON object in this exact format:" ++ nl
    ++ call_format ++ nl ++ nl
    ++ String.concat EmptyString (map describe_tool agentTools)
    ++ "After receiving tool results, continue your reasoning and use the information to complete the task." ++ nl
    ++ "===================" ++ nl
  else EmptyString.

Definition turn_value (t : turn) : value :=
  VObj [("role", VStr (match source t with User => "user" | Model => "model" end));
        ("parts", VArr [VObj [("text", VStr (content t))]])].

(** [messages]: the transcript, its first turn carrying the tool catalog. *)
Definition messages_for (conversation : list turn) (agentTools : list tool) : list turn :=
  match conversation with
  | first :: rest =>
      if (0 <? length agentTools)%nat
      then {| source := source first;
              content := content first ++ toolsInstruction agentTools |} :: rest
      else conversation
  | [] => []
  end.

Definition requestBody (conversation : list turn) (geminiParams : list (string * value))
           (agentTools : list tool) : value :=
  VObj [("contents", VArr (map turn_value (messages_for conversation agentTools)));
        ("generationConfig", generationConfig geminiParams)].

(** [v[key]] for a [v] that is neither [undefined] nor [null]. *)
Definition property (key : string) (v : value) : value :=
  match v with
  | VObj _ => get key v
  | VArr items =>
      if String.eqb key "length" then VNum (float_of_nat (length items))
      else get key (VObj (own_entries v))
  | VStr s =>
      if String.eqb key "length" then VNum (float_of_nat (String.length s))
      else get key (VObj (own_entries v))
  | _ => VUndefined
  end.

(** [v.key], which throws on [undefined] and [null]. *)
Definition member (key : string) (v : value) : outcome value :=
  if nullish v then engine_error (NoProperty key) else Returns (property key v).

(** [v?.key] *)
Definition optional_member (key : string) (v : value) : value :=
  if nullish v then VUndefined else property key v.

(** [v === 0] *)
Definition is_zero (v : value) : bool :=
  match v with
  | VNum n => PrimFloat.eqb n 0
  | _ => false
  end.

Definition request_url (modelId apiKey : string) : string :=
  GEMINI_API_BASE ++ "/models/" ++ modelId ++ ":generateContent?key=" ++ apiKey.

Definition request_options (body : value) : value :=
  VObj [("method", VStr "POST");
        ("headers", VObj [("Content-Type", VStr "application/json")]);
        ("body", JSON_stringify 0 body)].

(** The answer is the [text] of the object the source returns. *)
Definition callGeminiAPI (modelId : string) (conversation : list turn)
           (geminiParams : list (string * value)) (agentTools : list tool)
           (apiKey : string) : outcome value :=
  let body := requestBody conversation geminiParams agentTools in
  bind (lift (fetch (VStr (request_url modelId apiKey)) (request_options body)))
  (fun response =>
  if negb (ok response) then
    bind (lift (json response)) (fun error =>
    bind (member "error" error) (fun inner =>
    Throws (Error (ToString (or_else (optional_member "message" inner)
                                     (VStr "Gemini API request failed"))))))
  else
    bind (lift (json response)) (fun data =>
    bind (member "candidates" data) (fun candidates =>
    if negb (truthy candidates) || is_zero (property "length" candidates) then
      let blockReason := optional_member "blockReason" (property "promptFeedback" data) in
      if truthy blockReason
      then Throws (Error ("Content blocked: " ++ ToString blockReason))
      else Throws (Error "API returned no candidates")
    else
      bind (member "content" (property "0" candidates)) (fun content =>
      if negb (truthy content) || negb (truthy (property "parts" content))
         || is_zero (property "length" (property "parts" content))
      then Throws (Error "API response missing content")
      else member "text" (property "0" (property "parts" content)))))).

(** ** executeAgentWithTools *)

Definition push_turn (st : state) (t : turn) : state :=
  {| history := history st ++ [t]; toolExecutionLog := toolExecutionLog st |}.

Definition push_execution (st : state) (e : execution) : state :=
  {| history := history st; toolExecutionLog := toolExecutionLog st ++ [e] |}.

(** [agentTools.find(t => t.name === call.name)] *)
Definition find_tool (agentTools : list tool) (call : functionCall) : option tool :=
  find (fun t => strict_eq_string (called call) (name t)) agentTools.

(** [resultMessage] for a result that is data; [JSON.stringify] throws on
    any other, see [run_calls]. *)
Definition resultMessage (call : functionCall) (toolResult : value) : turn :=
  {| source := User;
     content := "Tool " ++ q ++ ToString (called call) ++ q ++ " execution result:" ++ nl
                ++ ToString (JSON_stringify 2 toolResult) ++ nl ++ nl
                ++ "Please continue with the task using this information." |}.

(** [for (const call of functionCalls) { ... }]: the state reached, and
    whether the body threw on the way.  The record is pushed before the
    message is built; [JSON.stringify] throws on a result that is not
    data, and then the record stays without its turn. *)
Fixpoint run_calls (iteration : nat) (agentTools : list tool)
         (functionCalls : list functionCall) (st : state) : state * outcome unit :=
  match functionCalls with
  | [] => (st, Returns tt)
  | call :: rest =>
      match find_tool agentTools call with
      | None => run_calls iteration agentTools rest st
      | Some t =>
          match executeTool t (arguments call) with
          | Throws e => (st, Throws e)
          | Returns toolResult =>
              let st := push_execution st
                          {| at_iteration := iteration;
                             tool_called := called call;
                             with_arguments := arguments call;
                             tool_result := toolResult |} in
              match toolResult with
              | Opaque thrown => (st, Throws thrown)
              | Data serializable =>
                  let st := push_turn st (resultMessage call serializable) in
                  run_calls iteration agentTools rest st
              end
          end
      end
  end.

(** The [try] block of one pass.  [Returns (Some text)] is its [return]
    (the task is complete), [Returns None] runs off its end. *)
Definition attempt (a : agent) (geminiParams : list (string * value))
           (agentTools : list tool) (apiKey : string) (iteration : nat) (st : state)
  : state * outcome (option string) :=
  match callGeminiAPI (model a) (history st) geminiParams agentTools apiKey with
  | Throws e => (st, Throws e)
  | Returns text =>
      if negb (truthy text) then (st, Throws (Error "Invalid response from LLM"))
      else
        match text with
        | VStr reply =>
            let st := push_turn st {| source := Model; content := reply |} in
            let functionCalls := parseFunctionCalls reply in
            if (length functionCalls =? 0)%nat then (st, Returns (Some reply))
            else
              let '(st, ran) := run_calls iteration agentTools functionCalls st in
              (st, bind ran (fun _ => Returns None))
        | _ => (st, engine_error (NotAMethod "substring"))
        end
  end.

Definition done (reply : string) (iteration : nat) (st : state) : report :=
  {| success := true;
     error := None;
     result := VStr reply;
     iterations := iteration;
     toolExecutions := toolExecutionLog st;
     conversationHistory := history st |}.

Definition failed (message : value) (iteration : nat) (st : state) : report :=
  {| success := false;
     error := Some message;
     result := VNull;
     iterations := iteration;
     toolExecutions := toolExecutionLog st;
     conversationHistory := history st |}.

(** [conversationHistory[conversationHistory.length - 1]?.parts[0]?.text || null] *)
Definition last_text (conversation : list turn) : value :=
  match rev conversation with
  | t :: _ => or_else (VStr (content t)) VNull
  | [] => VNull
  end.

Definition exhausted (iteration : nat) (st : state) : report :=
  {| success := false;
     error := Some (VStr "Max iterations reached. Task may be incomplete.");
     result := last_text (history st);
     iterations := iteration;
     toolExecutions := toolExecutionLog st;
     conversationHistory := history st |}.

(** One pass of the [while] body, after [iteration++]: the report the pass
    returns, or the state the next pass starts from.  The [catch] reads
    [error.message]; when that throws, the pass throws and the run
    rejects. *)
Definition pass (a : agent) (geminiParams : list (string * value))
           (agentTools : list tool) (apiKey : string) (iteration : nat) (st : state)
  : outcome (report + state) :=
  match attempt a geminiParams agentTools apiKey iteration st with
  | (st', Returns (Some reply)) => Returns (inl (done reply iteration st'))
  | (st', Returns None) => Returns (inr st')
  | (st', Throws e) =>
      bind (message_of e) (fun message => Returns (inl (failed message iteration st')))
  end.

(** [while (iteration < MAX_ITERATIONS) { iteration++; ... }], with
    [remaining = MAX_ITERATIONS - iteration]. *)
Fixpoint conversation_loop (a : agent) (geminiParams : list (string * value))
         (agentTools : list tool) (apiKey : string)
         (remaining iteration : nat) (st : state) : outcome report :=
  match remaining with
  | O => Returns (exhausted iteration st)
  | S remaining =>
      let iteration := S iteration in
      bind (pass a geminiParams agentTools apiKey iteration st) (fun next =>
      match next with
      | inl final => Returns final
      | inr st' => conversation_loop a geminiParams agentTools apiKey remaining iteration st'
      end)
  end.

Definition initial_state (systemPrompt userInput : string) : state :=
  {| history := [{| source := User;
                    content := systemPrompt ++ nl ++ nl ++ "---" ++ nl ++ nl
                               ++ "User Request: " ++ userInput |}];
     toolExecutionLog := [] |}.

Definition executeAgentWithTools (a : agent) (userInput : string)
           (customParams : list (string * value)) (apiKey : string) : outcome report :=
  let systemPrompt := buildSystemPrompt a customParams apiKey userInput in
  let geminiParams := extractGeminiParameters customParams in
  bind (loadAgentTools a) (fun agentTools =>
  conversation_loop a geminiParams agentTools apiKey (MAX_ITERATIONS - 0) 0
                    (initial_state systemPrompt userInput)).

End WithHost.

End AgentExecutor.

(* ================================================================== *)
(** * A reference platform *)
(* ================================================================== *)

(** The theorems below hold for every [Host].  To run the program on
    concrete inputs this section builds one: [JSON.parse] and
    [JSON.stringify] after ECMA-404 (for code units below 256), and a model
    backend that answers from a fixed script. *)

Module Json.
Import Js.
Local Open Scope string_scope.

Definition is_json_space (c : ascii) : bool :=
  existsb (N.eqb (code c)) [32; 9; 10; 13]%N.

Fixpoint skip (s : list ascii) : list ascii :=
  match s with
  | c :: rest => if is_json_space c then skip rest else s
  | [] => []
  end.

Definition hex_value (c : ascii) : option N :=
  let n := code c in
  if is_digit c then Some (n - 48)%N
  else if ((97 <=? n) && (n <=? 102))%N then Some (n - 87)%N
  else if ((65 <=? n) && (n <=? 70))%N then Some (n - 55)%N
  else None.

Definition unicode_escape (a b c d : ascii) : option ascii :=
  match hex_value a, hex_value b, hex_value c, hex_value d with
  | Some x, Some y, Some z, Some w =>
      let n := (((x * 16 + y) * 16 + z) * 16 + w)%N in
      if (n <? 256)%N then Some (ascii_of_N n) else None
  | _, _, _, _ => None
  end.

(** The characters of a string literal, after its opening quote. *)
Fixpoint parse_chars (s : list ascii) (acc : list ascii) : option (string * list ascii) :=
  match s with
  | [] => None
  | c :: rest =>
      if Ascii.eqb c "034"%char then Some (string_of_list_ascii (rev acc), rest)
      else if (code c <? 32)%N then None
      else if Ascii.eqb c "\"%char then
        match rest with
        | "u"%char :: rest' => parse_unicode rest' acc
        | e :: rest' =>
            let plain x := parse_chars rest' (x :: acc) in
            if Ascii.eqb e "034"%char then plain "034"%char
            else if Ascii.eqb e "\"%char then plain "\"%char
            else if Ascii.eqb e "/"%char then plain "/"%char
            else if Ascii.eqb e "b"%char then plain "008"%char
            else if Ascii.eqb e "f"%char then plain "012"%char
            else if Ascii.eqb e "n"%char then plain "010"%char
            else if Ascii.eqb e "r"%char then plain "013"%char
            else if Ascii.eqb e "t"%char then plain "009"%char
            else None
        | [] => None
        end
      else parse_chars rest (c :: acc)
  end
with parse_unicode (s : list ascii) (acc : list ascii) : option (string * list ascii) :=
  match s with
  | a :: s1 =>
      match s1 with
      | b :: s2 =>
          match s2 with
          | c :: s3 =>
              match s3 with
              | d :: rest =>
                  match unicode_escape a b c d with
                  | Some x => parse_chars rest (x :: acc)
                  | None => None
                  end
              | [] => None
              end
          | [] => None
          end
      | [] => None
      end
  | [] => None
  end.

(** A JSON number at the head of [s]. *)
Definition parse_number (s : list ascii) : option (float * list ascii) :=
  let '(negative, s) :=
    match s with
    | "-"%char :: r => (true, r)
    | _ => (false, s)
    end in
  let '(int, n_int, after_int) := span_digits 0 0 s in
  let leading_zero :=
    match s with
    | "0"%char :: _ => (1 <? n_int)%Z
    | _ => false
    end in
  if (n_int =? 0)%Z || leading_zero then None
  else
    let fraction :=
      match after_int with
      | "."%char :: r =>
          let '(mant, n_frac, rest) := span_digits int 0 r in
          if (n_frac =? 0)%Z then None else Some (mant, n_frac, rest)
      | _ => Some (int, 0%Z, after_int)
      end in
    match fraction with
    | None => None
    | Some (mant, n_frac, rest) =>
        let exponent :=
          match rest with
          | c :: r =>
              if Ascii.eqb (lower_char c) "e"%char then
                let '(minus, digits) :=
                  match r with
                  | "-"%char :: d => (true, d)
                  | "+"%char :: d => (false, d)
                  | _ => (false, r)
                  end in
                let '(e, n, rest') := span_digits 0 0 digits in
                if (n =? 0)%Z then None
                else Some ((if minus then - e else e)%Z, rest')
              else Some (0%Z, rest)
          | [] => Some (0%Z, rest)
          end in
        match exponent with
        | None => None
        | Some (e, rest') =>
            let n := float_of_decimal mant (e - n_frac) in
            Some (if negative then PrimFloat.opp n else n, rest')
        end
    end.

Fixpoint drop_prefix (word : list ascii) (s : list ascii) : option (list ascii) :=
  match word, s with
  | [], _ => Some s
  | w :: word', c :: s' => if Ascii.eqb w c then drop_prefix word' s' else None
  | _ :: _, [] => None
  end.

Definition keyword (word : string) (v : value) (s : list ascii) : option (value * list ascii) :=
  match drop_prefix (list_ascii_of_string word) s with
  | Some rest => Some (v, rest)
  | None => None
  end.

Fixpoint parse_value (fuel : nat) (s : list ascii) : option (value * list ascii) :=
  match fuel with
  | O => None
  | S fuel =>
      let fix elements (n : nat) (s : list ascii) (acc : list value) :=
        match n with
        | O => None
        | S n =>
            match parse_value fuel s with
            | Some (v, rest) =>
                match skip rest with
                | ","%char :: rest' => elements n rest' (v :: acc)
                | "]"%char :: rest' => Some (VArr (rev (v :: acc)), rest')
                | _ => None
                end
            | None => None
            end
        end in
      let fix members (n : nat) (s : list ascii) (acc : list (string * value)) :=
        match n with
        | O => None
        | S n =>
            match skip s with
            | "034"%char :: rest =>
                match parse_chars rest [] with
                | Some (key, rest1) =>
                    match skip rest1 with
                    | ":"%char :: rest2 =>
                        match parse_value fuel rest2 with
                        | Some (v, rest3) =>
                            let acc := set_field key v acc in
                            match skip rest3 with
                            | ","%char :: rest4 => members n rest4 acc
                            | "}"%char :: rest4 => Some (VObj acc, rest4)
                            | _ => None
                            end
                        | None => None
                        end
                    | _ => None
                    end
                | None => None
                end
            | _ => None
            end
        end in
      match skip s with
      | "{"%char :: rest =>
          match skip rest with
          | "}"%char :: rest' => Some (VObj [], rest')
          | _ => members fuel rest []
          end
      | "["%char :: rest =>
          match skip rest with
          | "]"%char :: rest' => Some (VArr [], rest')
          | _ => elements fuel rest []
          end
      | "034"%char :: rest =>
          match parse_chars rest [] with
          | Some (text, rest') => Some (VStr text, rest')
          | None => None
          end
      | "t"%char :: _ => keyword "true" (VBool true) (skip s)
      | "f"%char :: _ => keyword "false" (VBool false) (skip s)
      | "n"%char :: _ => keyword "null" VNull (skip s)
      | _ =>
          match parse_number (skip s) with
          | Some (n, rest) => Some (VNum n, rest)
          | None => None
          end
      end
  end.

Definition parse (text : string) : option value :=
  let s := list_ascii_of_string text in
  match parse_value (S (length s)) s with
  | Some (v, rest) =>
      match skip rest with
      | [] => Some v
      | _ => None
      end
  | None => None
  end.

End Json.

Module Printing.
Import Js.
Local Open Scope string_scope.

Fixpoint digits_of (fuel : nat) (n : Z) (acc : string) : string :=
  match fuel with
  | O => acc
  | S fuel =>
      let acc := String (ascii_of_N (Z.to_N (48 + n mod 10))) acc in
      if (n / 10 =? 0)%Z then acc else digits_of fuel (n / 10) acc
  end.

(** The decimal digits of [n], for [0 <= n]. *)
Definition decimal (n : Z) : string := digits_of (S (Z.to_nat (Z.log2 n))) n EmptyString.

Fixpoint zeros (n : nat) : string :=
  match n with
  | O => EmptyString
  | S n => String "0"%char (zeros n)
  end.

(** [10 ^ k <= m * 2 ^ e], for [0 < m]. *)
Definition at_least_power (m e k : Z) : bool :=
  (2 ^ Z.max (- e) 0 * 10 ^ Z.max k 0 <=? m * 2 ^ Z.max e 0 * 10 ^ Z.max (- k) 0)%Z.

(** The [k] with [10 ^ (k - 1) <= m * 2 ^ e < 10 ^ k]. *)
Definition magnitude (m e : Z) : Z :=
  let guess := ((Z.log2 m + e) * 30103 / 100000 - 2)%Z in
  let fix climb (fuel : nat) (k : Z) : Z :=
    match fuel with
    | O => k
    | S fuel => if at_least_power m e k then climb fuel (k + 1)%Z else k
    end in
  climb 8%nat guess.

(** The shortest digit string [s], with its count [n] of digits and its
    position [k], such that [s * 10 ^ (k - n)] reads back as [x]; among
    several, the one nearest to [x = m * 2 ^ e]. *)
Definition shortest (x : float) (m e : Z) : Z * Z * Z :=
  let k := magnitude m e in
  let reads_back s p := PrimFloat.eqb (float_of_decimal s p) x in
  let fix search (fuel : nat) (n : Z) : Z * Z * Z :=
    match fuel with
    | O => (0, 1, 0)%Z
    | S fuel =>
        let p := (k - n)%Z in
        let num := (m * 2 ^ Z.max e 0 * 10 ^ Z.max (- p) 0)%Z in
        let den := (2 ^ Z.max (- e) 0 * 10 ^ Z.max p 0)%Z in
        let low := (num / den)%Z in
        let high := (low + 1)%Z in
        let low_first := (2 * (num - low * den) <? den)%Z
                         || ((2 * (num - low * den) =? den)%Z && Z.even low) in
        let try s :=
          if reads_back s p then
            if (s =? 10 ^ n)%Z then Some (10 ^ (n - 1), n, k + 1)%Z
            else if (10 ^ (n - 1) <=? s)%Z then Some (s, n, k)
            else None
          else None in
        match (if low_first then try low else try high) with
        | Some found => found
        | None =>
            match (if low_first then try high else try low) with
            | Some found => found
            | None => search fuel (n + 1)%Z
            end
        end
    end in
  search 17%nat 1%Z.

(** Number::toString, radix 10. *)
Definition numberToString (x : float) : string :=
  match Prim2SF x with
  | S754_nan => "NaN"
  | S754_infinity negative => if negative then "-Infinity" else "Infinity"
  | S754_zero _ => "0"
  | S754_finite negative mantissa e =>
      let '(s, n, k) := shortest (PrimFloat.abs x) (Z.pos mantissa) e in
      let digits := decimal s in
      let body :=
        if ((n <=? k) && (k <=? 21))%Z then digits ++ zeros (Z.to_nat (k - n))
        else if ((0 <? k) && (k <=? 21))%Z then
          substring 0 (Z.to_nat k) digits ++ "."
          ++ substring (Z.to_nat k) (Z.to_nat (n - k)) digits
        else if ((-6 <? k) && (k <=? 0))%Z then
          "0." ++ zeros (Z.to_nat (- k)) ++ digits
        else
          let exponent := (if (0 <=? k - 1)%Z then "+" else "-") ++ decimal (Z.abs (k - 1)) in
          if (n =? 1)%Z then digits ++ "e" ++ exponent
          else substring 0 1 digits ++ "." ++ substring 1 (Z.to_nat (n - 1)) digits
               ++ "e" ++ exponent in
      if negative then "-" ++ body else body
  end.

Definition hex_digit (n : N) : ascii :=
  if (n <? 10)%N then ascii_of_N (48 + n) else ascii_of_N (87 + n).

(** QuoteJSONString *)
Fixpoint escape (s : string) : string :=
  match s with
  | EmptyString => EmptyString
  | String c rest =>
      let n := code c in
      let head :=
        if Ascii.eqb c "034"%char then "\" ++ q
        else if Ascii.eqb c "\"%char then "\\"
        else if (n =? 8)%N then "\b"
        else if (n =? 12)%N then "\f"
        else if (n =? 10)%N then "\n"
        else if (n =? 13)%N then "\r"
        else if (n =? 9)%N then "\t"
        else if (n <? 32)%N then
          "\u00" ++ String (hex_digit (n / 16)) (String (hex_digit (n mod 16)) EmptyString)
        else String c EmptyString in
      head ++ escape rest
  end.

Definition quote (s : string) : string := q ++ escape s ++ q.

Definition newline : string := String "010"%char EmptyString.

(** SerializeJSONProperty for a value that is not [undefined]; [gap] is
    the indentation unit and [indent] the current indentation. *)
Fixpoint render (gap indent : string) (v : value) : string :=
  let inner := indent ++ gap in
  let wrap (opening closing : string) (parts : list string) :=
    match parts with
    | [] => opening ++ closing
    | _ =>
        if String.eqb gap EmptyString
        then opening ++ String.concat "," parts ++ closing
        else opening ++ newline ++ inner
             ++ String.concat ("," ++ newline ++ inner) parts
             ++ newline ++ indent ++ closing
    end in
  match v with
  | VUndefined | VNull => "null"
  | VBool true => "true"
  | VBool false => "false"
  | VNum n => if PrimFloat.is_finite n then numberToString n else "null"
  | VStr s => quote s
  | VArr items => wrap "[" "]" (map (render gap inner) items)
  | VObj fields =>
      let separator := if String.eqb gap EmptyString then ":" else ": " in
      let fix members (fields : list (string * value)) : list string :=
        match fields with
        | [] => []
        | (_, VUndefined) :: rest => members rest
        | (key, x) :: rest => (quote key ++ separator ++ render gap inner x) :: members rest
        end in
      wrap "{" "}" (members fields)
  end.

(** [JSON.stringify(v, null, spaces)] *)
Definition stringify (spaces : nat) (v : value) : value :=
  match v with
  | VUndefined => VUndefined
  | _ => VStr (render (string_of_list_ascii (repeat " "%char (Nat.min spaces 10))) EmptyString v)
  end.

End Printing.

Module Demo.
Import Js Platform.
Local Open Scope string_scope.

Definition wording (f : fault) : string :=
  match f with
  | SyntaxFault _ => "Unexpected token"
  | NotCallable => "value is not a function"
  | NotAMethod method => method ++ " is not a function"
  | NoProperty property => "Cannot read properties of undefined (reading '" ++ property ++ "')"
  | BadTimeZone zone => "Invalid time zone specified: " ++ zone
  end.

(** The backend's success answer with one candidate whose first part has
    the given [text]. *)
Definition candidate (reply : value) : response :=
  {| ok := true;
     status := VNum 200;
     statusText := VStr "OK";
     headers := VObj [];
     json := inr (VObj [("candidates",
                         VArr [VObj [("content",
                                      VObj [("parts", VArr [VObj [("text", reply)]])])]])]);
     text := inl "body stream already read" |}.

(** A platform with the given model backend, tool store and tool bodies. *)
Definition host (backend : value -> value -> string + response)
           (store : value -> string + option tool)
           (bodies : string -> outcome loaded) : Host :=
  {| describe := wording;
     numberToString := Printing.numberToString;
     JSON_parse := Json.parse;
     JSON_stringify := Printing.stringify;
     evaluate := fun _ => inl "Unexpected token";
     run_body := bodies;
     fetch := backend;
     localZone := "UTC";
     isoUtc := "2025-01-01T00:00:00.000Z";
     epochSeconds := 1735689600;
     localeDate := fun zone => if String.eqb zone "UTC" then Some "1/1/2025" else None;
     localeTime := fun zone => if String.eqb zone "UTC" then Some "12:00:00 AM" else None;
     uuid := "3f2b8c1e-5d4a-4e6f-9a7b-0c1d2e3f4a5b";
     searchSimilarDocuments := fun _ _ _ _ => inr [];
     getToolById := store |}.

(** The built-in calculator as the default catalog lists it: no body. *)
Definition calculator : tool :=
  {| name := "calculator";
     description := "Perform mathematical calculations and solve equations";
     parameters := [{| param_name := "expression";
                       param_type := "string";
                       param_required := true;
                       param_description := "The mathematical expression to evaluate" |}];
     returnType := "number";
     codeImplementation := VUndefined |}.

Definition data_analyzer : tool :=
  {| name := "data_analyzer";
     description := "Analyze datasets and generate statistical insights";
     parameters := [];
     returnType := "object";
     codeImplementation := VUndefined |}.

(** A descriptive-only custom tool: its body is the empty string. *)
Definition sentiment_analyzer : tool :=
  {| name := "sentiment_analyzer";
     description := "Analyzes text sentiment";
     parameters := [];
     returnType := "object";
     codeImplementation := VStr EmptyString |}.

(** A tool named like a built-in whose body was left blank. *)
Definition blank_calculator : tool :=
  {| name := "calculator";
     description := "Perform mathematical calculations";
     parameters := [];
     returnType := "number";
     codeImplementation := VStr "   " |}.

Definition store (toolId : value) : string + option tool :=
  match toolId with
  | VStr "calculator" => inr (Some calculator)
  | VStr "data_analyzer" => inr (Some data_analyzer)
  | VStr "sentiment_analyzer" => inr (Some sentiment_analyzer)
  | _ => inr None
  end.

(** Two tool bodies: one whose [execute] throws, one that defines no
    [execute] at all. *)
Definition exploding_body : string :=
  "async function execute(args) { throw new Error('boom'); }".

Definition aimless_body : string := "const answer = 42;".

Fixpoint contains (needle : string) (text : string) : bool :=
  prefix needle text
  || match text with
     | EmptyString => false
     | String _ rest => contains needle rest
     end.

(** What running a wrapped body comes to on this platform. *)
Definition bodies (wrapped : string) : outcome loaded :=
  if contains exploding_body wrapped
  then Returns (Defines (fun _ => Throws (Error "boom")))
  else Returns DefinesNothing.

Definition exploding : tool :=
  {| name := "exploder";
     description := "Always fails";
     parameters := [];
     returnType := "object";
     codeImplementation := VStr exploding_body |}.

Definition aimless : tool :=
  {| name := "aimless";
     description := "Defines no entry point";
     parameters := [];
     returnType := "object";
     codeImplementation := VStr aimless_body |}.

(** A backend that gives the same reply to every request. *)
Definition repeating (reply : string) : Host :=
  host (fun _ _ => inr (candidate (VStr reply))) store bodies.

Definition assistant : AgentExecutor.agent :=
  {| AgentExecutor.id := VStr "agent-1";
     AgentExecutor.role := "Math tutor";
     AgentExecutor.goal := "Answer arithmetic questions";
     AgentExecutor.taskDescription := "Compute what the user asks for";
     AgentExecutor.expectedOutput := "A number";
     AgentExecutor.model := "gemini-2.0-flash";
     AgentExecutor.tools := [VStr "calculator"];
     AgentExecutor.ragEnabled := false;
     AgentExecutor.ragTopK := VUndefined |}.

Definition calculator_call : string :=
  qq "{'function': 'calculator', 'arguments': {'expression': '2 + 2'}}".

Definition unknown_call : string :=
  qq "{'function': 'weather', 'arguments': {'city': 'Oslo'}}".

Definition weather_call : ToolExecutor.functionCall :=
  {| ToolExecutor.called := VStr "weather";
     ToolExecutor.arguments := VObj [("city", VStr "Oslo")] |}.

Definition two_plus_two : ToolExecutor.functionCall :=
  {| ToolExecutor.called := VStr "calculator";
     ToolExecutor.arguments := VObj [("expression", VStr "2 + 2")] |}.

(** Four backends: one that answers in prose, one that sends an empty
    text, one that asks for the calculator every time, and one that asks
    for a tool the agent does not have. *)
Definition answering : Host := repeating "The answer is 4.".
Definition silent : Host := repeating EmptyString.
Definition looping : Host := repeating calculator_call.
Definition wandering : Host := repeating unknown_call.

(** A backend that asks for the calculator until the request carries a
    tool result, and then answers. *)
Definition tutoring : Host :=
  host (fun _ options =>
          match get "body" options with
          | VStr body =>
              if contains "execution result:" body
              then inr (candidate (VStr "2 + 2 = 4"))
              else inr (candidate (VStr calculator_call))
          | _ => inl "Failed to fetch"
          end)
       store bodies.

Definition question : string := "What is 2 + 2?".

Definition opening : AgentExecutor.state :=
  AgentExecutor.initial_state "You are a Math tutor." question.

End Demo.

(* ================================================================== *)
(** * The vocabulary of the specification *)
(* ================================================================== *)

(** Notions the specification uses and the sources do not define. *)

Module Vocabulary.
Import Js Platform ToolExecutor.
Local Open Scope string_scope.

(** Everything the computation throws is an [Error] object. *)
Definition only_errors {A} (m : outcome A) : Prop :=
  forall e, m = Throws e -> exists message, e = Error message.

(** A thrown value that does not guard its message: an [Error], or data. *)
Definition plain (e : exn) : bool :=
  match e with
  | Guarded _ => false
  | _ => true
  end.

(** Everything the computation throws is an [Error] or data. *)
Definition throws_plainly {A} (m : outcome A) : Prop :=
  forall e, m = Throws e -> plain e = true.

(** "Empty or absent" executable body: no value, or a text with nothing
    but white space. *)
Definition blank_body (t : tool) : bool :=
  match codeImplementation t with
  | VUndefined | VNull => true
  | VStr s => String.eqb (trim s) EmptyString
  | _ => false
  end.

Definition built_in_names : list string :=
  ["calculator"; "data_analyzer"; "api_caller"; "current_datetime"; "uuid_generator"].

Definition is_built_in (toolName : string) : bool :=
  existsb (String.eqb toolName) built_in_names.

(** The argument bags [{ expression }] and [{ data }]. *)
Definition expression_args (expression : string) : value :=
  VObj [("expression", VStr expression)].

Definition data_args (data : value) : value := VObj [("data", data)].

Fixpoint all_chars (p : ascii -> bool) (s : string) : bool :=
  match s with
  | EmptyString => true
  | String c rest => p c && all_chars p rest
  end.

(** The numeric entries that remain after coercion. *)
Definition numbers_of (items : list value) : list float :=
  filter (fun n => negb (is_nan n)) (map coerce items).

(** The variance by the population formula: the mean of the squared
    deviations, the divisor being the count. *)
Definition population_variance (numbers : list float) : float :=
  let count := float_of_nat (length numbers) in
  let mean := PrimFloat.div (fold_left PrimFloat.add numbers PrimFloat.zero) count in
  PrimFloat.div
    (fold_left (fun acc val => PrimFloat.add acc (square (PrimFloat.sub val mean)))
               numbers PrimFloat.zero)
    count.

Section WithHost.
Context `{Host}.

(** A tool is tame when whatever goes wrong in invoking it, or in
    serializing what it returned, is an [Error]. *)
Definition tame (t : tool) : Prop :=
  forall args,
    match executeTool t args with
    | Returns (Data _) => True
    | Returns (Opaque thrown) => exists message, thrown = Error message
    | Throws e => exists message, e = Error message
    end.


End WithHost.

End Vocabulary.

(** ** The shape of a function call in a text *)

Module Shape.
Import Js Regex.







End Shape.

(** ** Transcripts and runs *)

Module Transcript.
Import Js Platform ToolExecutor AgentExecutor.

Definition model_turn (reply : string) : turn := {| source := Model; content := reply |}.

(** The last model-origin text of a transcript, [null] when it has none. *)
Definition last_model_text (conversation : list turn) : value :=
  match find (fun t => match source t with Model => true | User => false end)
             (rev conversation) with
  | Some t => VStr (content t)
  | None => VNull
  end.

(** The transcript ends with a turn that has some text. *)
Definition ends_with_text (st : state) : Prop :=
  exists earlier t, history st = (earlier ++ [t])%list /\ content t <> EmptyString.

(** The two objects give every [geminiParams.key || fallback] the same
    value. *)
Definition same_reading (p1 p2 : list (string * value)) : Prop :=
  forall key fallback,
    or_else (get key (VObj p1)) fallback = or_else (get key (VObj p2)) fallback.

(** How one entry of the custom parameters changes the object. *)
Definition store_param (geminiParams : list (string * value)) (entry : string * value)
  : list (string * value) :=
  let '(key, v) := entry in
  match mappingAt (toLowerCase key) with
  | Some geminiKey => set_field geminiKey (or_else (VNum (parseFloat v)) v) geminiParams
  | None => geminiParams
  end.

Section WithHost.
Context `{Host}.
Local Open Scope string_scope.

(** A call is served when no tool has its name, or when the invocation
    of the tool that has it returns data. *)
Definition served (agentTools : list tool) (call : functionCall) : Prop :=
  match find_tool agentTools call with
  | None => True
  | Some t => exists toolResult, executeTool t (arguments call) = Returns (Data toolResult)
  end.

(** The data an invocation returns (nothing, when it does not). *)
Definition result_of (t : tool) (args : value) : value :=
  match executeTool t args with
  | Returns (Data v) => v
  | _ => VUndefined
  end.

(** What one served call adds to the log and to the transcript: nothing
    when its name resolves to no tool, one record and one turn when it
    does. *)
Definition contribution (iteration : nat) (agentTools : list tool) (call : functionCall)
  : list (execution * turn) :=
  match find_tool agentTools call with
  | None => []
  | Some t =>
      let toolResult := result_of t (arguments call) in
      [({| at_iteration := iteration;
           tool_called := called call;
           with_arguments := arguments call;
           tool_result := toolResult |},
        resultMessage call toolResult)]
  end.

Definition after_calls (iteration : nat) (agentTools : list tool)
           (calls : list functionCall) (st : state) : state :=
  let added := flat_map (contribution iteration agentTools) calls in
  {| history := (history st ++ map snd added)%list;
     toolExecutionLog := (toolExecutionLog st ++ map fst added)%list |}.

(** The record of an invocation. *)
Definition record_of (iteration : nat) (call : functionCall) (toolResult : produced)
  : execution :=
  {| at_iteration := iteration;
     tool_called := called call;
     with_arguments := arguments call;
     tool_result := toolResult |}.

(** The loop over [calls] from [st] stops at [st'] with a throw: the
    calls before the one that stops it were served; that one resolves to a
    tool, and either the invocation throws, or it returns what
    [JSON.stringify] throws on, and then its record is in the log. *)
Definition halted (iteration : nat) (agentTools : list tool) (calls : list functionCall)
           (st st' : state) (e : exn) : Prop :=
  exists before call after t,
    calls = (before ++ call :: after)%list
    /\ Forall (served agentTools) before
    /\ find_tool agentTools call = Some t
    /\ ((executeTool t (arguments call) = Throws e
         /\ st' = after_calls iteration agentTools before st)
        \/ (executeTool t (arguments call) = Returns (Opaque e)
            /\ st' = push_execution (after_calls iteration agentTools before st)
                                    (record_of iteration call (Opaque e)))).


(** What a pass can come to. *)
Inductive pass_result (agentTools : list tool) (iteration : nat) (st : state)
  : report + state -> Prop :=
| pass_done (reply : string) :
    reply <> EmptyString ->
    pass_result agentTools iteration st
      (inl (done reply iteration (push_turn st (model_turn reply))))
| pass_failed (message : string) (st' : state) :
    pass_result agentTools iteration st (inl (failed (VStr message) iteration st'))
| pass_next (reply : string) :
    reply <> EmptyString ->
    pass_result agentTools iteration st
      (inr (after_calls iteration agentTools (parseFunctionCalls reply)
                        (push_turn st (model_turn reply)))).

End WithHost.

(** What a run of the loop can come to, started after [iteration] passes
    with [remaining] passes left. *)
Inductive run_result (iteration remaining : nat) : report -> Prop :=
| run_done (reply : string) (k : nat) (st : state) :
    iteration < k <= iteration + remaining ->
    run_result iteration remaining (done reply k st)
| run_failed (message : string) (k : nat) (st : state) :
    iteration < k <= iteration + remaining ->
    run_result iteration remaining (failed (VStr message) k st)
| run_exhausted (st : state) :
    ends_with_text st ->
    run_result iteration remaining (exhausted (iteration + remaining) st).

End Transcript.

(* ================================================================== *)
(** * src/services/llmService.js: the caller of the loop *)
(* ================================================================== *)

Module LlmService.
Import Js Platform ToolExecutor AgentExecutor.

(** What [executeAgent] reads from the browser. *)
Class Browser : Type := {
  (** [navigator.onLine]; [undefined] where there is no [navigator] *)
  onLine : value;
  (** [localStorage.getItem('userConfig')]; [None] is [null] *)
  userConfig : option string;
  (** [import.meta.env.VITE_GEMINI_API_KEY], where [import.meta.env] is there *)
  viteKey : option value;
  (** [process.env.REACT_APP_GEMINI_API_KEY], where [process.env] is there *)
  processKey : option value
}.

Section WithHost.
Context `{Host} `{Browser}.
Local Open Scope string_scope.

(** [navigator.onLine === false] *)
Definition offline : bool :=
  match onLine with
  | VBool false => true
  | _ => false
  end.

(** The key of the stored configuration: the [if (userConfig) { try ... }]
    block, [None] when it falls through. *)
Definition storedKey : option value :=
  match userConfig with
  | Some text =>
      if truthy (VStr text) then
        match JSON_parse text with
        | Some config =>
            match member "apiKey" config with
            | Returns key => if truthy key then Some key else None
            | Throws _ => None
            end
        | None => None
        end
      else None
  | None => None
  end.

Definition getApiKey : value :=
  match storedKey with
  | Some key => key
  | None =>
      match viteKey with
      | Some key => key
      | None =>
          match processKey with
          | Some key => key
          | None => VNull
          end
      end
  end.

(** One line of the execution summary; [i] is the index of the record. *)
Definition summaryLine (i : nat) (exec : execution) : string :=
  "  " ++ index_key (i + 1) ++ ". " ++ ToString (tool_called exec)
  ++ " (iteration " ++ index_key (at_iteration exec) ++ ")" ++ nl.

(** [result.toolExecutions.forEach((exec, i) => { response += ... })] *)
Fixpoint summaryLines (i : nat) (execs : list execution) (response : string) : string :=
  match execs with
  | [] => response
  | exec :: rest => summaryLines (S i) rest (response ++ summaryLine i exec)
  end.

(** [response], as it is returned: the result of the run, followed by
    the execution summary when a tool was executed. *)
Definition withSummary (r : report) : value :=
  let response := result r in
  if (0 <? length (toolExecutions r))%nat then
    VStr (summaryLines 0 (toolExecutions r)
            (ToString response ++ nl ++ nl ++ "---" ++ nl ++ "**Execution Summary:**" ++ nl
             ++ "- Iterations: " ++ index_key (iterations r) ++ nl
             ++ "- Tools Used: " ++ index_key (length (toolExecutions r)) ++ nl))
  else response.

(** [result.error], [undefined] when the report has none. *)
Definition errorOf (r : report) : value :=
  match error r with
  | Some message => message
  | None => VUndefined
  end.

(** [executeAgent], lines 36 to 77.  The execution of an agent that has
    no tools (lines 79 to 200) does not go through the loop; it is the
    parameter [simpleExecution], which receives the key.  The key reaches
    the loop as the text a template literal makes of it. *)
Definition executeAgent
           (simpleExecution : agent -> string -> list (string * value) -> value -> outcome value)
           (a : agent) (userInput : string) (customParams : list (string * value))
  : outcome value :=
  if offline then
    Throws (Error "No internet connection (offline). Please reconnect and try again.")
  else
    let apiKey := getApiKey in
    if negb (truthy apiKey) then
      Throws (Error "API Key not found. Please configure your API key in settings or onboarding.")
    else if (0 <? length (tools a))%nat then
      try_catch
        (bind (executeAgentWithTools a userInput customParams (ToString apiKey)) (fun result =>
           if negb (success result) then
             Throws (Error (ToString (or_else (errorOf result) (VStr "Agent execution failed"))))
           else Returns (withSummary result)))
        (rethrow "Failed to execute agent with tools: ")
    else simpleExecution a userInput customParams apiKey.

(** [extractGeminiParameters] of this file, lines 221 to 243: the loop of
    [agentExecutor.js], then a default for [maxOutputTokens]. *)
Definition extractGeminiParameters (customParams : list (string * value))
  : list (string * value) :=
  let geminiParams := AgentExecutor.extractGeminiParameters customParams in
  if negb (truthy (get "maxOutputTokens" (VObj geminiParams)))
  then set_field "maxOutputTokens" (VNum 8192) geminiParams
  else geminiParams.

End WithHost.

End LlmService.

(* ================================================================== *)
(** * More of the vocabulary: what the books of a run show *)
(* ================================================================== *)

Module Books.
Import Js Platform ToolExecutor AgentExecutor Transcript.
Local Open Scope string_scope.

Definition from_user (t : turn) : bool :=
  match source t with
  | User => true
  | Model => false
  end.

Definition from_model (t : turn) : bool := negb (from_user t).

Definition user_turns (conversation : list turn) : nat :=
  length (filter from_user conversation).

Definition model_turns (conversation : list turn) : nat :=
  length (filter from_model conversation).

Definition stamps (log : list execution) : list nat := map at_iteration log.

(** The iteration stamps of a log never go down. *)
Fixpoint ascending (stamps : list nat) : bool :=
  match stamps with
  | first :: rest =>
      match rest with
      | second :: _ => (first <=? second)%nat && ascending rest
      | [] => true
      end
  | [] => true
  end.

(** The same agent with retrieval switched off. *)
Definition without_rag (a : agent) : agent :=
  {| id := id a;
     role := role a;
     goal := goal a;
     taskDescription := taskDescription a;
     expectedOutput := expectedOutput a;
     model := model a;
     tools := tools a;
     ragEnabled := false;
     ragTopK := ragTopK a |}.

(** One property of what a computation answers. *)
Definition field_of (key : string) (m : outcome value) : outcome value :=
  bind m (fun payload => Returns (get key payload)).

(** The methods for which [api_caller] sends a body. *)
Definition writes (method : value) : bool :=
  strict_eq_string method "POST" || strict_eq_string method "PUT"
  || strict_eq_string method "PATCH".

Section WithHost.
Context `{Host}.

(** The tools the store has for a list of identifiers, in their order. *)
Definition found_tools (ids : list value) : list tool :=
  flat_map (fun toolId => match getToolById toolId with
                          | inr (Some t) => [t]
                          | _ => []
                          end) ids.

(** The state a run starts from: the prompt and the request in the
    transcript, nothing in the log. *)
Definition opening_state (a : agent) (customParams : list (string * value))
           (apiKey userInput : string) : state :=
  initial_state (buildSystemPrompt a customParams apiKey userInput) userInput.

(** The books after [k] passes of a run that began with the transcript
    [opening] and an empty log. *)
Definition books_in_order (opening : list turn) (k : nat) (st : state) : Prop :=
  (exists added, history st = (opening ++ added)%list)
  /\ user_turns (history st) = user_turns opening + length (toolExecutionLog st)
  /\ model_turns (history st) = model_turns opening + k
  /\ Forall (fun e => 1 <= at_iteration e <= k) (toolExecutionLog st)
  /\ ascending (stamps (toolExecutionLog st)) = true
  /\ ends_with_text st.

(** The books of a pass that stopped half way: the last record may
    lack its turn. *)
Definition books_halted (opening : list turn) (k : nat) (st : state) : Prop :=
  (exists added, history st = (opening ++ added)%list)
  /\ (user_turns (history st) = user_turns opening + length (toolExecutionLog st)
      \/ S (user_turns (history st)) = user_turns opening + length (toolExecutionLog st))
  /\ model_turns (history st) = model_turns opening + k
  /\ Forall (fun e => 1 <= at_iteration e <= k) (toolExecutionLog st)
  /\ ascending (stamps (toolExecutionLog st)) = true.

(** The same for the report of the run. *)
Definition report_in_order (opening : list turn) (r : report) : Prop :=
  (exists added, conversationHistory r = (opening ++ added)%list)
  /\ (user_turns (conversationHistory r) = user_turns opening + length (toolExecutions r)
      \/ (result r = VNull
          /\ S (user_turns (conversationHistory r))
             = user_turns opening + length (toolExecutions r)))
  /\ (model_turns (conversationHistory r) = model_turns opening + iterations r
      \/ (result r = VNull
          /\ S (model_turns (conversationHistory r)) = model_turns opening + iterations r))
  /\ Forall (fun e => 1 <= at_iteration e <= iterations r) (toolExecutions r)
  /\ ascending (stamps (toolExecutions r)) = true
  /\ (success r = true ->
      exists earlier reply,
        conversationHistory r = (earlier ++ [model_turn reply])%list
        /\ result r = VStr reply
        /\ reply <> EmptyString
        /\ parseFunctionCalls reply = []).

End WithHost.

End Books.

(** ** More platforms *)

Module Scenes.
Import Js Platform LlmService.
Local Open Scope string_scope.

(** A tool store that is out of order. *)
Definition broken_store : Host :=
  Demo.host (fun _ _ => inr (Demo.candidate (VStr "The answer is 4.")))
            (fun _ => inl "Database unavailable") Demo.bodies.

(** A backend that refuses the key. *)
Definition refusal : response :=
  {| ok := false;
     status := VNum 400;
     statusText := VStr "Bad Request";
     headers := VObj [];
     json := inr (VObj [("error", VObj [("code", VNum 400);
                                        ("message", VStr "API key not valid")])]);
     text := inl "body stream already read" |}.

(** A backend that blocks the prompt. *)
Definition blocking : response :=
  {| ok := true;
     status := VNum 200;
     statusText := VStr "OK";
     headers := VObj [];
     json := inr (VObj [("promptFeedback", VObj [("blockReason", VStr "SAFETY")])]);
     text := inl "body stream already read" |}.

(** A server that answers 404. *)
Definition missing_page : response :=
  {| ok := false;
     status := VNum 404;
     statusText := VStr "Not Found";
     headers := VObj [("content-type", VStr "application/json")];
     json := inr (VObj [("detail", VStr "Not found")]);
     text := inl "body stream already read" |}.

(** A network that gives every request the same answer. *)
Definition serving (answer : string + response) : Host :=
  Demo.host (fun _ _ => answer) Demo.store Demo.bodies.

(** A custom tool named like a built-in, with a body that doubles, and
    one whose body throws a text. *)
Definition doubling_body : string :=
  "async function execute(args) { return { doubled: 2 * args.n }; }".

Definition throwing_text_body : string :=
  "async function execute(args) { throw 'out of stock'; }".

Definition custom_calculator : tool :=
  {| name := "calculator";
     description := "Doubles a number";
     parameters := [];
     returnType := "object";
     codeImplementation := VStr doubling_body |}.

Definition text_thrower : tool :=
  {| name := "stock";
     description := "Throws a text";
     parameters := [];
     returnType := "object";
     codeImplementation := VStr throwing_text_body |}.

Definition doubling (args : value) : outcome produced :=
  Returns (Data (VObj [("doubled",
                        match get "n" args with
                        | VNum n => VNum (PrimFloat.mul 2 n)
                        | _ => VNum PrimFloat.nan
                        end)])).

(** A body that throws an object whose [message] is a getter that throws
    [null], and one that returns a BigInt. *)
Definition trap_body : string :=
  "async function execute(args) { throw { get message() { throw null; } }; }".

Definition counting_body : string :=
  "async function execute(args) { return 10n ** 20n; }".

(** A body that throws an object whose [message] is a getter that throws
    such an object again. *)
Definition pit_body : string :=
  "async function execute(args) { throw { get message() { throw { get message() { throw null; } }; } }; }".

Definition trap : tool :=
  {| name := "trap";
     description := "Throws what cannot be read";
     parameters := [];
     returnType := "object";
     codeImplementation := VStr trap_body |}.

Definition counter : tool :=
  {| name := "counter";
     description := "Counts in big integers";
     parameters := [];
     returnType := "bigint";
     codeImplementation := VStr counting_body |}.

Definition pit : tool :=
  {| name := "pit";
     description := "Throws what throws again";
     parameters := [];
     returnType := "object";
     codeImplementation := VStr pit_body |}.

Definition no_bigint : string := "Do not know how to serialize a BigInt".

Definition workshop_bodies (wrapped : string) : outcome loaded :=
  if Demo.contains doubling_body wrapped then Returns (Defines doubling)
  else if Demo.contains throwing_text_body wrapped then
    Returns (Defines (fun _ => Throws (Raised (VStr "out of stock"))))
  else if Demo.contains trap_body wrapped then
    Returns (Defines (fun _ => Throws (Guarded (Raised VNull))))
  else if Demo.contains pit_body wrapped then
    Returns (Defines (fun _ => Throws (Guarded (Guarded (Raised VNull)))))
  else if Demo.contains counting_body wrapped then
    Returns (Defines (fun _ => Returns (Opaque (Error no_bigint))))
  else Returns DefinesNothing.

Definition workshop : Host :=
  Demo.host (fun _ _ => inr (Demo.candidate (VStr "The answer is 4.")))
            Demo.store workshop_bodies.

(** A model that asks for the counter on every pass, and an agent that
    has it. *)
Definition counter_call : string := qq "{'function': 'counter', 'arguments': {}}".


Definition counting_store (toolId : value) : string + option tool :=
  match toolId with
  | VStr "counter" => inr (Some counter)
  | VStr "pit" => inr (Some pit)
  | _ => Demo.store toolId
  end.

Definition counting : Host :=
  Demo.host (fun _ _ => inr (Demo.candidate (VStr counter_call)))
            counting_store workshop_bodies.

Definition accountant : AgentExecutor.agent :=
  {| AgentExecutor.id := VStr "agent-3";
     AgentExecutor.role := "Accountant";
     AgentExecutor.goal := "Count";
     AgentExecutor.taskDescription := "Count what the user asks for";
     AgentExecutor.expectedOutput := "A number";
     AgentExecutor.model := "gemini-2.0-flash";
     AgentExecutor.tools := [VStr "counter"];
     AgentExecutor.ragEnabled := false;
     AgentExecutor.ragTopK := VUndefined |}.

(** A model that asks for the pit on every pass, and an agent that has
    it. *)
Definition pit_call : string := qq "{'function': 'pit', 'arguments': {}}".

Definition digging : Host :=
  Demo.host (fun _ _ => inr (Demo.candidate (VStr pit_call)))
            counting_store workshop_bodies.

Definition digger : AgentExecutor.agent :=
  {| AgentExecutor.id := VStr "agent-4";
     AgentExecutor.role := "Digger";
     AgentExecutor.goal := "Dig";
     AgentExecutor.taskDescription := "Dig where the user asks";
     AgentExecutor.expectedOutput := "A hole";
     AgentExecutor.model := "gemini-2.0-flash";
     AgentExecutor.tools := [VStr "pit"];
     AgentExecutor.ragEnabled := false;
     AgentExecutor.ragTopK := VUndefined |}.

(** A knowledge base that is out of order. *)
Definition forgetful : Host :=
  {| describe := Demo.wording;
     numberToString := Printing.numberToString;
     JSON_parse := Json.parse;
     JSON_stringify := Printing.stringify;
     evaluate := fun _ => inl "Unexpected token";
     run_body := Demo.bodies;
     fetch := fun _ _ => inr (Demo.candidate (VStr "The answer is 4."));
     localZone := "UTC";
     isoUtc := "2025-01-01T00:00:00.000Z";
     epochSeconds := 1735689600;
     localeDate := fun zone => if String.eqb zone "UTC" then Some "1/1/2025" else None;
     localeTime := fun zone => if String.eqb zone "UTC" then Some "12:00:00 AM" else None;
     uuid := "3f2b8c1e-5d4a-4e6f-9a7b-0c1d2e3f4a5b";
     searchSimilarDocuments := fun _ _ _ _ => inl "Embedding request failed";
     getToolById := Demo.store |}.

Definition librarian : AgentExecutor.agent :=
  {| AgentExecutor.id := VStr "agent-2";
     AgentExecutor.role := "Librarian";
     AgentExecutor.goal := "Answer from the knowledge base";
     AgentExecutor.taskDescription := "Look things up";
     AgentExecutor.expectedOutput := "A short answer";
     AgentExecutor.model := "gemini-2.0-flash";
     AgentExecutor.tools := [VStr "calculator"; VStr "nowhere"; VStr "data_analyzer"];
     AgentExecutor.ragEnabled := true;
     AgentExecutor.ragTopK := VUndefined |}.

(** A browser that is on line and went through onboarding. *)
Definition onboarded : Browser :=
  {| onLine := VBool true;
     userConfig := Some (qq "{'name': 'Ada', 'apiKey': 'KEY'}");
     viteKey := Some VUndefined;
     processKey := None |}.

(** One whose stored configuration is damaged, with a development key. *)
Definition developing : Browser :=
  {| onLine := VBool true;
     userConfig := Some "{oops";
     viteKey := Some (VStr "DEV");
     processKey := None |}.

Definition unplugged : Browser :=
  {| onLine := VBool false;
     userConfig := Some (qq "{'apiKey': 'KEY'}");
     viteKey := None;
     processKey := None |}.

(** The branch for agents without tools is not run in these scenes. *)
Definition unused (a : AgentExecutor.agent) (userInput : string)
           (customParams : list (string * value)) (apiKey : value) : outcome value :=
  Returns VUndefined.

End Scenes.

(* ================================================================== *)
(** * Theorems *)
(* ================================================================== *)

(* ================================================================== *)
(** * What the tool invoker guarantees *)
(* ================================================================== *)

Import Vocabulary.

Section Errors.
Import Js.

Lemma only_errors_returns {A} (a : A) : only_errors (Returns a).
Proof. intros e E; discriminate E. Qed.

Lemma only_errors_error {A} (message : string) : only_errors (A := A) (Throws (Error message)).
Proof. intros e E; injection E as <-; eauto. Qed.

Lemma only_errors_lift {A} (answer : string + A) : only_errors (lift answer).
Proof. destruct answer; [apply only_errors_error | apply only_errors_returns]. Qed.

Lemma only_errors_bind {A B} (m : outcome A) (k : A -> outcome B) :
  only_errors m -> (forall a, only_errors (k a)) -> only_errors (bind m k).
Proof.
  intros Hm Hk; destruct m as [a | e]; simpl.
  - apply Hk.
  - intros e' E; injection E as <-; apply (Hm e eq_refl).
Qed.

Lemma only_errors_catch {A} (m : outcome A) (handler : exn -> outcome A) :
  only_errors m ->
  (forall message, only_errors (handler (Error message))) ->
  only_errors (try_catch m handler).
Proof.
  intros Hm Hh; destruct m as [a | e]; simpl.
  - apply only_errors_returns.
  - destruct (Hm e eq_refl) as [message ->]; apply Hh.
Qed.

Lemma only_errors_as_data (m : outcome value) : only_errors m -> only_errors (as_data m).
Proof. intros Hm; apply only_errors_bind; [exact Hm | intros; apply only_errors_returns]. Qed.

End Errors.

Create HintDb errors.

#[global] Hint Resolve only_errors_returns only_errors_error only_errors_lift : errors.

Ltac errors :=
  repeat first
    [ progress auto with errors
    | apply only_errors_bind; [ | intros ? ]
    | apply only_errors_catch; [ | intros ? ]
    | match goal with
      | |- only_errors (if ?c then _ else _) => destruct c
      | |- only_errors (match ?x with _ => _ end) => destruct x
      end ].

Section ToolInvoker.
Import Js Platform ToolExecutor Vocabulary.
Context `{Host}.
Local Open Scope string_scope.

Lemma only_errors_engine {A} (f : fault) : only_errors (A := A) (engine_error f).
Proof. apply only_errors_error. Qed.

Lemma only_errors_message_of (error : exn) :
  plain error = true -> only_errors (message_of error).
Proof.
  destruct error as [m | v | inner]; simpl; intros P.
  - apply only_errors_returns.
  - destruct (nullish v); [apply only_errors_engine | apply only_errors_returns].
  - discriminate P.
Qed.

Lemma only_errors_rethrow_plain {A} (prefix : string) (error : exn) :
  plain error = true -> only_errors (A := A) (rethrow prefix error).
Proof.
  intros P; apply only_errors_bind;
    [apply only_errors_message_of; exact P | intros; apply only_errors_error].
Qed.

Lemma only_errors_rethrow {A} (prefix message : string) :
  only_errors (A := A) (rethrow prefix (Error message)).
Proof. apply only_errors_rethrow_plain; reflexivity. Qed.

Lemma only_errors_destructure (args : value) : only_errors (destructure args).
Proof.
  unfold destructure; destruct (nullish args);
    [apply only_errors_engine | apply only_errors_returns].
Qed.

#[local] Hint Resolve only_errors_engine only_errors_rethrow only_errors_destructure
  only_errors_as_data : errors.

(** A body whose throws are plain cannot make [executeCustomCode] throw
    anything but an [Error]. *)
Lemma only_errors_executeCustomCode (t : tool) (args : value) :
  throws_plainly (customCall t args) -> only_errors (executeCustomCode t args).
Proof.
  intros P; unfold executeCustomCode.
  destruct (customCall t args) as [v | e]; cbn [try_catch].
  - apply only_errors_returns.
  - apply only_errors_rethrow_plain, P; reflexivity.
Qed.

Lemma only_errors_executeCalculator (args : value) : only_errors (executeCalculator args).
Proof.
  unfold executeCalculator.
  apply only_errors_bind; [errors | intros a].
  apply only_errors_catch; [ | errors].
  apply only_errors_bind; [unfold replace_disallowed; errors | intros sanitized].
  destruct (negb (truthy (VStr sanitized))); [errors | ].
  apply only_errors_bind; [unfold call_Function; errors | errors].
Qed.

Lemma only_errors_executeDataAnalyzer (args : value) : only_errors (executeDataAnalyzer args).
Proof. unfold executeDataAnalyzer; errors. Qed.

Lemma only_errors_executeApiCaller (args : value) : only_errors (executeApiCaller args).
Proof. unfold executeApiCaller; errors. Qed.

Lemma only_errors_executeCurrentDateTime (args : value) :
  only_errors (executeCurrentDateTime args).
Proof.
  unfold executeCurrentDateTime, resolveTimeZone, formatFor; errors.
Qed.

Lemma only_errors_builtin (t : tool) (args : value) : only_errors (builtin t args).
Proof.
  unfold builtin, executeUuidGenerator.
  pose proof only_errors_executeCalculator.
  pose proof only_errors_executeDataAnalyzer.
  pose proof only_errors_executeApiCaller.
  pose proof only_errors_executeCurrentDateTime.
  errors.
Qed.

Lemma only_errors_dispatch (t : tool) (args : value) :
  throws_plainly (customCall t args) -> only_errors (dispatch t args).
Proof.
  intros P; unfold dispatch.
  pose proof (only_errors_executeCustomCode t args P).
  pose proof (only_errors_builtin t args).
  unfold has_custom_code; errors.
Qed.

(** When the body's throws are plain, [executeTool] resolves: with what
    its [try] block returned, or with the failure shape built from the
    [Error] the block threw. *)
Lemma executeTool_resolves (t : tool) (args : value) :
  throws_plainly (customCall t args) ->
  exists v, executeTool t args = Returns v
            /\ (dispatch t args = Returns v
                \/ exists message, dispatch t args = Throws (Error message)
                                   /\ v = Data (failure (VStr message) (name t))).
Proof.
  intros P; unfold executeTool.
  pose proof (only_errors_dispatch t args P) as Honly.
  destruct (dispatch t args) as [v | e]; simpl.
  - exists v; auto.
  - destruct (Honly e eq_refl) as [message ->]; simpl.
    eexists; split; [reflexivity | right; eauto].
Qed.

(** A tool without a body of its own resolves whatever its arguments. *)
Lemma executeTool_of_builtin (t : tool) (args : value) :
  has_custom_code t = Returns false ->
  exists v : value, executeTool t args = Returns (Data v).
Proof.
  intros C; unfold executeTool, dispatch; rewrite C; cbn [bind].
  pose proof (only_errors_builtin t args) as Honly.
  destruct (builtin t args) as [v | e] eqn:B; cbn [try_catch].
  - destruct v as [v | thrown]; [eauto | ].
    exfalso; revert B; unfold builtin, as_data.
    repeat match goal with
           | |- context [if ?c then _ else _] => destruct c
           | |- context [bind ?m _] => destruct m; cbn [bind]
           end; discriminate.
  - destruct (Honly e eq_refl) as [message ->]; simpl; eauto.
Qed.

(** The built-in tools are tame. *)
Lemma builtin_is_tame (t : tool) : has_custom_code t = Returns false -> tame t.
Proof.
  intros C args; destruct (executeTool_of_builtin t args C) as [v ->]; exact I.
Qed.

(** The three failing paths the specification names. *)
Lemma throwing_body_is_contained (t : tool) (args : value) execute message :
  has_custom_code t = Returns true ->
  run_body (wrappedCode t) = Returns (Defines execute) ->
  execute args = Throws (Error message) ->
  executeTool t args
  = Returns (failure (VStr ("Custom code execution failed: " ++ message)) (name t)).
Proof.
  intros C L E; unfold executeTool, dispatch, executeCustomCode, customCall.
  rewrite C; simpl; rewrite L; simpl; rewrite E; reflexivity.
Qed.

Lemma body_without_entry_point (t : tool) (args : value) :
  has_custom_code t = Returns true ->
  run_body (wrappedCode t) = Returns DefinesNothing ->
  executeTool t args
  = Returns (failure (VStr ("Custom code execution failed: " ++ no_execute)) (name t)).
Proof.
  intros C L; unfold executeTool, dispatch, executeCustomCode, customCall.
  rewrite C; simpl; rewrite L; reflexivity.
Qed.

Lemma blank_body_has_no_custom_code (t : tool) :
  blank_body t = true -> has_custom_code t = Returns false.
Proof.
  unfold blank_body, has_custom_code.
  destruct (codeImplementation t) as [ | | b | n | s | items | fields ];
    try discriminate; try reflexivity.
  intros E; simpl.
  destruct (String.eqb s EmptyString); simpl; [reflexivity | ].
  rewrite E; reflexivity.
Qed.

Lemma not_built_in_is_not_implemented (t : tool) (args : value) :
  is_built_in (name t) = false -> builtin t args = Throws (Error (not_implemented t)).
Proof.
  unfold is_built_in, built_in_names, builtin; simpl.
  intros E.
  repeat (apply orb_false_elim in E; destruct E as [E0 E]; rewrite E0; clear E0).
  reflexivity.
Qed.

(** C4, as the code has it: a tool whose body is empty or absent never
    reaches the custom path; the [switch] on its name decides.  A name that
    is none of the five built-ins gives the failure shape with the "not
    implemented" message; a built-in name runs that built-in. *)
Theorem blank_body_goes_to_the_switch (t : tool) (args : value) :
  blank_body t = true ->
  dispatch t args = builtin t args
  /\ (is_built_in (name t) = false ->
      executeTool t args = Returns (failure (VStr (not_implemented t)) (name t))).
Proof.
  intros B.
  assert (D : dispatch t args = builtin t args).
  { unfold dispatch; rewrite (blank_body_has_no_custom_code t B); reflexivity. }
  split; [exact D | ].
  intros N; unfold executeTool.
  rewrite D, (not_built_in_is_not_implemented t args N); reflexivity.
Qed.

End ToolInvoker.

#[global] Hint Resolve only_errors_engine only_errors_rethrow only_errors_destructure
  only_errors_as_data : errors.

Section ToolInvokerExamples.
Import Js Platform ToolExecutor Vocabulary.
Local Open Scope string_scope.

(** C4, as stated, fails: a tool named [calculator] with a blank body is
    dispatched to the built-in and answers 4, not a failure. *)
Lemma blank_calculator_is_dispatched :
  blank_body Demo.blank_calculator = true
  /\ executeTool (H := Demo.answering) Demo.blank_calculator (expression_args "2 + 2")
     = Returns (VObj [("success", VBool true);
                      ("expression", VStr "2 + 2");
                      ("result", VNum 4)])
  /\ (forall message,
        executeTool (H := Demo.answering) Demo.blank_calculator (expression_args "2 + 2")
        <> Returns (failure message "calculator")).
Proof. split; [reflexivity | split; [reflexivity | discriminate]]. Qed.

(** The three failing paths the specification names, on the reference
    platform. *)
Example failures_are_contained :
  executeTool (H := Demo.answering) Demo.exploding (VObj [])
  = Returns (failure (VStr "Custom code execution failed: boom") "exploder")
  /\ executeTool (H := Demo.answering) Demo.aimless (VObj [])
     = Returns (failure (VStr ("Custom code execution failed: " ++ no_execute)) "aimless")
  /\ executeTool (H := Demo.answering) Demo.sentiment_analyzer (VObj [])
     = Returns (failure
                  (VStr "Tool 'sentiment_analyzer' is not implemented and has no custom code")
                  "sentiment_analyzer").
Proof. split; [reflexivity | split; reflexivity]. Qed.

(** C3: the invoker can throw.  The body of [Scenes.trap] throws an
    object whose [message] is a getter that throws [null].  The [catch] of
    [executeCustomCode] reads that message, so the custom path rejects with
    [null]; the [catch] of [executeTool] reads the message of [null] and
    throws the engine's TypeError: the caller receives no value. *)
Theorem executeTool_throws_on_a_guarded_message :
  has_custom_code (H := Scenes.workshop) Scenes.trap = Returns true
  /\ customCall (H := Scenes.workshop) Scenes.trap (VObj [])
     = Throws (Guarded (Raised VNull))
  /\ executeCustomCode (H := Scenes.workshop) Scenes.trap (VObj []) = Throws (Raised VNull)
  /\ executeTool (H := Scenes.workshop) Scenes.trap (VObj [])
     = Throws (Error (describe (Host := Scenes.workshop) (NoProperty "message")))
  /\ (forall v, executeTool (H := Scenes.workshop) Scenes.trap (VObj []) <> Returns v).
Proof.
  split; [reflexivity | split; [reflexivity | split; [reflexivity | ]]].
  split; [reflexivity | discriminate].
Qed.

Lemma blank_body_goes_to_the_switch_witness :
  blank_body Demo.sentiment_analyzer = true
  /\ is_built_in (name Demo.sentiment_analyzer) = false
  /\ executeTool (H := Demo.answering) Demo.sentiment_analyzer (expression_args "I love this!")
     = Returns (failure
                  (VStr "Tool 'sentiment_analyzer' is not implemented and has no custom code")
                  "sentiment_analyzer").
Proof.
  split; [reflexivity | split; [reflexivity | ]].
  apply (blank_body_goes_to_the_switch (H := Demo.answering)
           Demo.sentiment_analyzer (expression_args "I love this!")); reflexivity.
Defined.

End ToolInvokerExamples.

Section BuiltIns.
Import Js Platform ToolExecutor Vocabulary.
Context `{Host}.
Local Open Scope string_scope.

Lemma sanitize_keeps_allowed (expression : string) :
  all_chars allowed (sanitize expression) = true.
Proof.
  unfold sanitize.
  induction expression as [ | c rest IH]; cbn [filter_string all_chars]; [reflexivity | ].
  destruct (allowed c) eqn:A; cbn [all_chars]; [rewrite A | ]; exact IH.
Qed.

Lemma sanitize_fixes_allowed (expression : string) :
  all_chars allowed expression = true -> sanitize expression = expression.
Proof.
  unfold sanitize.
  induction expression as [ | c rest IH]; cbn [filter_string all_chars]; [reflexivity | ].
  intros E; apply andb_true_iff in E as [A R].
  rewrite A, (IH R); reflexivity.
Qed.

Lemma calculator_on (expression : string) :
  executeTool Demo.calculator (expression_args expression)
  = try_catch (as_data (executeCalculator (expression_args expression)))
      (fun error => bind (message_of error)
                      (fun message => Returns (Data (failure message "calculator")))).
Proof. reflexivity. Qed.

Lemma calculator_rejects_empty (expression : string) :
  sanitize expression = EmptyString ->
  executeTool Demo.calculator (expression_args expression)
  = Returns (failure (VStr "Calculation failed: Invalid mathematical expression") "calculator").
Proof.
  intros E; rewrite calculator_on.
  unfold executeCalculator, expression_args; simpl.
  rewrite E; reflexivity.
Qed.

(** C5, as the code has it.  On ["2 + 2"] the calculator answers 4 and
    echoes the expression.  Sanitizing keeps exactly the digits, [+ - * / ( ) .]
    and white space: from ["2 + 2; alert(1)"] it keeps ["2 + 2 (1)"], whose
    evaluation calls the number 2 and throws, so the tool answers with the
    failure shape.  An input that is empty after stripping is rejected as
    an invalid expression. *)
Theorem calculator_behaviour :
  executeTool Demo.calculator (expression_args "2 + 2")
  = Returns (VObj [("success", VBool true); ("expression", VStr "2 + 2"); ("result", VNum 4)])
  /\ (forall expression,
        all_chars allowed (sanitize expression) = true
        /\ (all_chars allowed expression = true -> sanitize expression = expression))
  /\ sanitize "2 + 2; alert(1)" = "2 + 2 (1)"
  /\ executeTool Demo.calculator (expression_args "2 + 2; alert(1)")
     = Returns (failure (VStr ("Calculation failed: " ++ describe NotCallable)) "calculator")
  /\ (forall expression,
        sanitize expression = EmptyString ->
        executeTool Demo.calculator (expression_args expression)
        = Returns (failure (VStr "Calculation failed: Invalid mathematical expression")
                           "calculator")).
Proof.
  split; [reflexivity | ].
  split; [intros e; split; [apply sanitize_keeps_allowed | apply sanitize_fixes_allowed] | ].
  split; [reflexivity | ].
  split; [reflexivity | ].
  apply calculator_rejects_empty.
Qed.

(** ** data_analyzer *)

Lemma analyzer_on (args : value) :
  executeTool Demo.data_analyzer args
  = try_catch (as_data (executeDataAnalyzer args))
      (fun error => bind (message_of error)
                      (fun message => Returns (Data (failure message "data_analyzer")))).
Proof. reflexivity. Qed.

Lemma analyzer_rejects_no_array (args : value) :
  nullish args = false ->
  is_array (get "data" args) = false \/ items_of (get "data" args) = [] ->
  executeTool Demo.data_analyzer args
  = Returns (failure (VStr "Data must be a non-empty array") "data_analyzer").
Proof.
  intros N D; rewrite analyzer_on; unfold executeDataAnalyzer, destructure.
  rewrite N; simpl bind.
  assert (C : negb (is_array (get "data" args))
              || (length (items_of (get "data" args)) =? 0)%nat = true).
  { destruct D as [D | D]; rewrite D; [reflexivity | apply orb_true_r]. }
  rewrite C; reflexivity.
Qed.

Lemma analyzer_rejects_no_numbers (args : value) (items : list value) :
  get "data" args = VArr items ->
  items <> [] ->
  numbers_of items = [] ->
  executeTool Demo.data_analyzer args
  = Returns (failure (VStr "No valid numeric data found") "data_analyzer").
Proof.
  intros D I N; rewrite analyzer_on; unfold executeDataAnalyzer, destructure.
  assert (Z : nullish args = false).
  { destruct args; try reflexivity; simpl in D; discriminate D. }
  rewrite Z; simpl bind; rewrite D; simpl is_array; simpl items_of.
  destruct items as [ | d rest]; [contradiction | ].
  simpl negb; simpl orb; cbv iota.
  change (length (d :: rest) =? 0)%nat with false; cbv iota.
  fold (numbers_of (d :: rest)); rewrite N; reflexivity.
Qed.

Lemma analyzer_reports_population_variance (args : value) (items : list value) :
  get "data" args = VArr items ->
  numbers_of items <> [] ->
  exists payload : value,
    executeTool Demo.data_analyzer args = Returns payload
    /\ get "variance" payload = VNum (population_variance (numbers_of items))
    /\ get "standardDeviation" payload
       = VNum (PrimFloat.sqrt (population_variance (numbers_of items))).
Proof.
  intros D N; rewrite analyzer_on; unfold executeDataAnalyzer, destructure.
  assert (Z : nullish args = false).
  { destruct args; try reflexivity; simpl in D; discriminate D. }
  rewrite Z; simpl bind; rewrite D; simpl is_array; simpl items_of.
  destruct items as [ | d rest]; [contradiction N; reflexivity | ].
  simpl negb; simpl orb; cbv iota.
  change (length (d :: rest) =? 0)%nat with false; cbv iota.
  fold (numbers_of (d :: rest)).
  destruct (numbers_of (d :: rest)) as [ | x xs] eqn:E; [contradiction N; reflexivity | ].
  change (length (x :: xs) =? 0)%nat with false; cbv iota.
  eexists; split; [reflexivity | split; reflexivity].
Qed.

(** C7: [data_analyzer] on [[1, 2, 3, 4]], and its validation errors. *)
Theorem data_analyzer_behaviour :
  executeTool Demo.data_analyzer (data_args (VArr [VNum 1; VNum 2; VNum 3; VNum 4]))
  = Returns (VObj [("success", VBool true);
                   ("analysis_type", VStr "summary");
                   ("count", VNum 4);
                   ("sum", VNum 10);
                   ("mean", VNum 2.5);
                   ("median", VNum 2.5);
                   ("min", VNum 1);
                   ("max", VNum 4);
                   ("range", VNum 3);
                   ("variance", VNum 1.25);
                   ("standardDeviation", VNum (PrimFloat.sqrt 1.25))])
  /\ population_variance [1; 2; 3; 4]%float = 1.25%float
  /\ (PrimFloat.leb 1.118 (PrimFloat.sqrt 1.25) && PrimFloat.ltb (PrimFloat.sqrt 1.25) 1.119 = true)
  /\ (forall args items,
        get "data" args = VArr items ->
        numbers_of items <> [] ->
        exists payload : value,
          executeTool Demo.data_analyzer args = Returns payload
          /\ get "variance" payload = VNum (population_variance (numbers_of items))
          /\ get "standardDeviation" payload
             = VNum (PrimFloat.sqrt (population_variance (numbers_of items))))
  /\ (forall args,
        nullish args = false ->
        is_array (get "data" args) = false \/ items_of (get "data" args) = [] ->
        executeTool Demo.data_analyzer args
        = Returns (failure (VStr "Data must be a non-empty array") "data_analyzer"))
  /\ (forall args items,
        get "data" args = VArr items ->
        items <> [] ->
        numbers_of items = [] ->
        executeTool Demo.data_analyzer args
        = Returns (failure (VStr "No valid numeric data found") "data_analyzer")).
Proof.
  split; [vm_compute; reflexivity | ].
  split; [vm_compute; reflexivity | ].
  split; [vm_compute; reflexivity | ].
  split; [exact analyzer_reports_population_variance | ].
  split; [exact analyzer_rejects_no_array | exact analyzer_rejects_no_numbers].
Qed.

End BuiltIns.

Section Matching.
Import Js Regex Shape.























End Matching.

Section Parser.
Import Js Platform Regex ToolExecutor Vocabulary Shape Transcript.
Context `{Host}.
Local Open Scope string_scope.






End Parser.

Section Orchestrator.
Import Js Platform ToolExecutor AgentExecutor Vocabulary Transcript.
Context `{Host}.
Local Open Scope string_scope.

Variable a : agent.
Variable geminiParams : list (string * value).
Variable agentTools : list tool.
Variable apiKey : string.

Lemma served_result (t : tool) (call : functionCall) :
  find_tool agentTools call = Some t ->
  served agentTools call ->
  executeTool t (arguments call) = Returns (Data (result_of t (arguments call))).
Proof.
  intros F Sv; unfold served in Sv; rewrite F in Sv; destruct Sv as [v E].
  unfold result_of; rewrite E; reflexivity.
Qed.

Lemma after_calls_nil (iteration : nat) (st : state) :
  after_calls iteration agentTools [] st = st.
Proof. unfold after_calls; simpl; rewrite !app_nil_r; destruct st; reflexivity. Qed.

Lemma after_calls_unresolved (iteration : nat) call rest (st : state) :
  find_tool agentTools call = None ->
  after_calls iteration agentTools (call :: rest) st
  = after_calls iteration agentTools rest st.
Proof.
  intros F; unfold after_calls; cbn [flat_map]; unfold contribution at 1 3.
  rewrite F; reflexivity.
Qed.

Lemma after_calls_resolved (iteration : nat) call rest (st : state) (t : tool) :
  find_tool agentTools call = Some t ->
  after_calls iteration agentTools (call :: rest) st
  = after_calls iteration agentTools rest
      (push_turn
         (push_execution st
            {| at_iteration := iteration;
               tool_called := called call;
               with_arguments := arguments call;
               tool_result := result_of t (arguments call) |})
         (resultMessage call (result_of t (arguments call)))).
Proof.
  intros F; unfold after_calls; cbn [flat_map]; unfold contribution at 1 3.
  rewrite F; simpl; rewrite <- !app_assoc; reflexivity.
Qed.

(** Calls that are served are folded in, one after the other. *)
Lemma run_calls_served (iteration : nat) : forall calls st,
  Forall (served agentTools) calls ->
  run_calls iteration agentTools calls st
  = (after_calls iteration agentTools calls st, Returns tt).
Proof.
  induction calls as [ | call rest IH]; intros st Sv; cbn [run_calls].
  - rewrite after_calls_nil; reflexivity.
  - inversion Sv as [ | ? ? Sc Sr]; subst.
    destruct (find_tool agentTools call) as [t | ] eqn:F.
    + rewrite (served_result call F Sc), IH by exact Sr.
      erewrite after_calls_resolved by exact F; reflexivity.
    + rewrite IH by exact Sr; erewrite after_calls_unresolved by exact F; reflexivity.
Qed.

(** The loop over the calls either folds all of them in, or stops at the
    first that is not served. *)
Lemma run_calls_cases (iteration : nat) : forall calls st,
  (Forall (served agentTools) calls
   /\ run_calls iteration agentTools calls st
      = (after_calls iteration agentTools calls st, Returns tt))
  \/ (exists st' e,
        run_calls iteration agentTools calls st = (st', Throws e)
        /\ halted iteration agentTools calls st st' e).
Proof.
  induction calls as [ | call rest IH]; intros st.
  - left; split; [constructor | apply run_calls_served; constructor].
  - cbn [run_calls].
    destruct (find_tool agentTools call) as [t | ] eqn:F.
    + destruct (executeTool t (arguments call)) as [[v | thrown] | e] eqn:E.
      * assert (Sc : served agentTools call) by (unfold served; rewrite F; eauto).
        assert (V : result_of t (arguments call) = v)
          by (unfold result_of; rewrite E; reflexivity).
        match goal with
        | |- context [run_calls iteration agentTools rest ?st1] =>
            destruct (IH st1) as [[Sv R] | (st' & e & R & Hh)]
        end.
        -- left; split; [constructor; assumption | ].
           rewrite R; erewrite after_calls_resolved by exact F; rewrite V; reflexivity.
        -- right; exists st', e; split; [exact R | ].
           destruct Hh as (before & c & after & t' & -> & Sb & F' & Alt).
           exists (call :: before), c, after, t'.
           split; [reflexivity | split; [constructor; assumption | split; [exact F' | ]]].
           erewrite !after_calls_resolved by exact F; rewrite V; exact Alt.
      * right; eexists; exists thrown; split; [reflexivity | ].
        exists [], call, rest, t.
        split; [reflexivity | split; [constructor | split; [exact F | ]]].
        right; rewrite after_calls_nil; split; [exact E | reflexivity].
      * right; exists st, e; split; [reflexivity | ].
        exists [], call, rest, t.
        split; [reflexivity | split; [constructor | split; [exact F | ]]].
        left; rewrite after_calls_nil; split; [exact E | reflexivity].
    + assert (Sc : served agentTools call) by (unfold served; rewrite F; exact I).
      destruct (IH st) as [[Sv R] | (st' & e & R & Hh)].
      * left; split; [constructor; assumption | ].
        rewrite R; erewrite after_calls_unresolved by exact F; reflexivity.
      * right; exists st', e; split; [exact R | ].
        destruct Hh as (before & c & after & t' & -> & Sb & F' & Alt).
        exists (call :: before), c, after, t'.
        split; [reflexivity | split; [constructor; assumption | split; [exact F' | ]]].
        erewrite !after_calls_unresolved by exact F; exact Alt.
Qed.

(** What stops the loop over the calls of tame tools is an [Error]. *)
Lemma halted_by_an_error (iteration : nat) calls st st' e :
  Forall tame agentTools ->
  halted iteration agentTools calls st st' e -> exists message, e = Error message.
Proof.
  intros T (before & call & after & t & _ & _ & F & Alt).
  unfold find_tool in F; apply find_some in F as [In_t _].
  rewrite Forall_forall in T; specialize (T t In_t (arguments call)).
  destruct Alt as [[E _] | [E _]]; rewrite E in T; exact T.
Qed.



Lemma text_is_truthy (reply : string) : reply <> EmptyString -> truthy (VStr reply) = true.
Proof. destruct reply; [contradiction | reflexivity]. Qed.

Lemma pass_completes (iteration : nat) (st : state) (reply : string) :
  callGeminiAPI (model a) (history st) geminiParams agentTools apiKey = Returns (VStr reply) ->
  reply <> EmptyString ->
  parseFunctionCalls reply = [] ->
  pass a geminiParams agentTools apiKey iteration st
  = Returns (inl (done reply iteration (push_turn st (model_turn reply)))).
Proof.
  intros G T P; unfold pass, attempt.
  rewrite G, (text_is_truthy T), P; reflexivity.
Qed.


Lemma only_errors_member (key : string) (v : value) : only_errors (member key v).
Proof. unfold member; errors. Qed.

Lemma only_errors_callGeminiAPI (conversation : list turn) :
  only_errors (callGeminiAPI (model a) conversation geminiParams agentTools apiKey).
Proof.
  unfold callGeminiAPI; pose proof only_errors_member; errors.
Qed.

(** What a pass that settles comes to, with the state it leaves. *)
Lemma pass_shapes (iteration : nat) (st : state) (next : report + state) :
  pass a geminiParams agentTools apiKey iteration st = Returns next ->
  (exists reply,
      reply <> EmptyString /\ parseFunctionCalls reply = []
      /\ next = inl (done reply iteration (push_turn st (model_turn reply))))
  \/ (exists message, next = inl (failed (VStr message) iteration st))
  \/ (exists reply st' e message,
        reply <> EmptyString
        /\ halted iteration agentTools (parseFunctionCalls reply)
                  (push_turn st (model_turn reply)) st' e
        /\ message_of e = Returns message
        /\ next = inl (failed message iteration st'))
  \/ (exists reply,
        reply <> EmptyString /\ parseFunctionCalls reply <> []
        /\ Forall (served agentTools) (parseFunctionCalls reply)
        /\ next = inr (after_calls iteration agentTools (parseFunctionCalls reply)
                                   (push_turn st (model_turn reply)))).
Proof.
  unfold pass, attempt.
  pose proof (@only_errors_callGeminiAPI (history st)) as G.
  destruct (callGeminiAPI (model a) (history st) geminiParams agentTools apiKey)
    as [text | e].
  - destruct (truthy text) eqn:T; cbn [negb].
    + destruct text as [ | | b | n | reply | items | fields ];
        try discriminate T;
        try (intros E; injection E as <-; right; left; eexists; reflexivity).
      assert (N : reply <> EmptyString) by (intros ->; discriminate T).
      fold (model_turn reply).
      destruct (parseFunctionCalls reply) as [ | call calls] eqn:P; cbn [length Nat.eqb].
      * intros E; injection E as <-; left; exists reply; rewrite P; auto.
      * destruct (run_calls_cases iteration (call :: calls) (push_turn st (model_turn reply)))
          as [[Sv R] | (st' & e & R & Hh)]; rewrite R; cbn [bind].
        -- intros E; injection E as <-; right; right; right.
           exists reply; rewrite P; repeat split; [exact N | discriminate | exact Sv].
        -- destruct (message_of e) as [message | e'] eqn:M; cbn [bind]; [ | discriminate].
           intros E; injection E as <-; right; right; left.
           exists reply, st', e, message; rewrite P; auto.
    + intros E; injection E as <-; right; left; eexists; reflexivity.
  - destruct (G e eq_refl) as [message ->].
    intros E; injection E as <-; right; left; eexists; reflexivity.
Qed.

(** With tame tools every pass settles. *)
Lemma pass_resolves (iteration : nat) (st : state) :
  Forall tame agentTools ->
  exists next, pass a geminiParams agentTools apiKey iteration st = Returns next
               /\ pass_result agentTools iteration st next.
Proof.
  intros Tame; unfold pass, attempt.
  pose proof (@only_errors_callGeminiAPI (history st)) as G.
  destruct (callGeminiAPI _ _ _ _ _) as [reply | e].
  - destruct (truthy reply) eqn:T; cbn [negb].
    + destruct reply as [ | | b | n | reply | items | fields ];
        try (eexists; split; [reflexivity | apply pass_failed]).
      assert (N : reply <> EmptyString) by (intros ->; discriminate T).
      fold (model_turn reply).
      destruct (parseFunctionCalls reply) as [ | call calls] eqn:P; cbn [length Nat.eqb].
      * eexists; split; [reflexivity | apply pass_done; exact N].
      * destruct (run_calls_cases iteration (call :: calls) (push_turn st (model_turn reply)))
          as [[Sv R] | (st' & e & R & Hh)]; rewrite R; cbn [bind].
        -- eexists; split; [reflexivity | rewrite <- P; apply pass_next; exact N].
        -- destruct (halted_by_an_error Tame Hh) as [message ->].
           eexists; split; [reflexivity | apply pass_failed].
    + eexists; split; [reflexivity | apply pass_failed].
  - destruct (G e eq_refl) as [message ->].
    eexists; split; [reflexivity | apply pass_failed].
Qed.

Lemma loop_unfold (remaining iteration : nat) (st : state) :
  conversation_loop a geminiParams agentTools apiKey (S remaining) iteration st
  = bind (pass a geminiParams agentTools apiKey (S iteration) st) (fun next =>
      match next with
      | inl final => Returns final
      | inr st' =>
          conversation_loop a geminiParams agentTools apiKey remaining (S iteration) st'
      end).
Proof. reflexivity. Qed.

Lemma append_not_empty (s : string) (c : ascii) (t : string) :
  s ++ String c t <> EmptyString.
Proof. destruct s; discriminate. Qed.

Lemma resultMessage_has_text (call : functionCall) (toolResult : value) :
  content (resultMessage call toolResult) <> EmptyString.
Proof. discriminate. Qed.

Lemma ends_with_text_push (st : state) (t : turn) :
  content t <> EmptyString -> ends_with_text (push_turn st t).
Proof. intros N; exists (history st), t; auto. Qed.

Lemma ends_with_text_after_calls (iteration : nat) : forall calls st,
  ends_with_text st -> ends_with_text (after_calls iteration agentTools calls st).
Proof.
  induction calls as [ | call rest IH]; intros st E.
  - rewrite after_calls_nil; exact E.
  - destruct (find_tool agentTools call) as [t | ] eqn:F.
    + erewrite after_calls_resolved by exact F.
      apply IH, ends_with_text_push, resultMessage_has_text.
    + erewrite after_calls_unresolved by exact F; auto.
Qed.

(** With tame tools the loop settles with a report. *)
Lemma loop_resolves :
  Forall tame agentTools ->
  forall remaining iteration st,
    ends_with_text st ->
    exists r, conversation_loop a geminiParams agentTools apiKey remaining iteration st
              = Returns r
              /\ run_result iteration remaining r.
Proof.
  intros Tame; induction remaining as [ | remaining IH]; intros iteration st E.
  - exists (exhausted iteration st); split; [reflexivity | ].
    rewrite <- (Nat.add_0_r iteration) at 2; constructor; exact E.
  - rewrite loop_unfold.
    destruct (pass_resolves (S iteration) st Tame) as (next & -> & R); cbn [bind].
    destruct R as [reply N | message st' | reply N].
    + eexists; split; [reflexivity | constructor; lia].
    + eexists; split; [reflexivity | constructor; lia].
    + destruct (IH (S iteration)
                   (after_calls (S iteration) agentTools (parseFunctionCalls reply)
                                (push_turn st (model_turn reply)))) as (r & -> & R).
      { apply ends_with_text_after_calls, ends_with_text_push; exact N. }
      exists r; split; [reflexivity | ].
      destruct R as [reply' k st' B | message k st' B | st' E'].
      * constructor; lia.
      * constructor; lia.
      * replace (S iteration + remaining) with (iteration + S remaining) by lia.
        constructor; exact E'.
Qed.

Lemma run_result_bound (iteration remaining : nat) (r : report) :
  run_result iteration remaining r -> iterations r <= iteration + remaining.
Proof. intros [reply k st B | message k st B | st E]; simpl; lia. Qed.

(** An invariant of the states between the passes, which may count the
    passes that remain, carries over to every report the loop returns. *)
Lemma loop_invariant (P : nat -> nat -> state -> Prop) (Q : report -> Prop) :
  (forall remaining k st reply,
      P (S remaining) k st -> reply <> EmptyString -> parseFunctionCalls reply = [] ->
      Q (done reply (S k) (push_turn st (model_turn reply)))) ->
  (forall remaining k st message,
      P (S remaining) k st -> Q (failed (VStr message) (S k) st)) ->
  (forall remaining k st reply st' e message,
      P (S remaining) k st -> reply <> EmptyString ->
      halted (S k) agentTools (parseFunctionCalls reply)
             (push_turn st (model_turn reply)) st' e ->
      message_of e = Returns message ->
      Q (failed message (S k) st')) ->
  (forall remaining k st reply,
      P (S remaining) k st -> reply <> EmptyString ->
      parseFunctionCalls reply <> [] ->
      Forall (served agentTools) (parseFunctionCalls reply) ->
      P remaining (S k) (after_calls (S k) agentTools (parseFunctionCalls reply)
                                     (push_turn st (model_turn reply)))) ->
  (forall k st, P 0 k st -> Q (exhausted k st)) ->
  forall remaining k st r,
    P remaining k st ->
    conversation_loop a geminiParams agentTools apiKey remaining k st = Returns r ->
    Q r.
Proof.
  intros Done Early Late Next Exhausted.
  induction remaining as [ | remaining IH]; intros k st r I E.
  - injection E as <-; apply Exhausted; exact I.
  - rewrite loop_unfold in E.
    destruct (pass a geminiParams agentTools apiKey (S k) st) as [next | e] eqn:Pa;
      [ | discriminate E].
    cbn [bind] in E.
    destruct (@pass_shapes _ _ _ Pa)
      as [(reply & N & Pr & ->) | [(message & ->) | [(reply & st' & e & message & N & Hh & M & ->)
                                                     | (reply & N & C & Sv & ->)]]].
    + injection E as <-; eapply Done; eassumption.
    + injection E as <-; eapply Early; eassumption.
    + injection E as <-; eapply Late; eassumption.
    + eapply IH; [ | exact E]; apply Next; assumption.
Qed.




Lemma last_text_of (earlier : list turn) (t : turn) :
  content t <> EmptyString -> last_text (earlier ++ [t]) = VStr (content t).
Proof.
  intros N; unfold last_text; rewrite rev_app_distr; simpl.
  unfold or_else; rewrite (text_is_truthy N); reflexivity.
Qed.

Lemma initial_state_ends_with_text (systemPrompt userInput : string) :
  ends_with_text (initial_state systemPrompt userInput).
Proof.
  exists [], {| source := User;
                content := systemPrompt ++ nl ++ nl ++ "---" ++ nl ++ nl
                           ++ "User Request: " ++ userInput |}.
  split; [reflexivity | apply append_not_empty].
Qed.




End Orchestrator.

Section OrchestratorClaims.
Import Js Platform ToolExecutor AgentExecutor Vocabulary Transcript.
Context `{Host}.
Local Open Scope string_scope.

Variable a : agent.
Variable geminiParams : list (string * value).
Variable agentTools : list tool.
Variable apiKey : string.

(** C1, as the code has it: a reply with some text from which the parser
    extracts no call ends the run on that pass: DONE, with the reply as
    the result, the pass number, the log as it stands and the transcript
    with the reply appended. *)
Theorem reply_without_calls_completes (remaining iteration : nat) (st : state)
        (reply : string) :
  callGeminiAPI (model a) (history st) geminiParams agentTools apiKey = Returns (VStr reply) ->
  reply <> EmptyString ->
  parseFunctionCalls reply = [] ->
  conversation_loop a geminiParams agentTools apiKey (S remaining) iteration st
  = Returns {| success := true;
               error := None;
               result := VStr reply;
               iterations := S iteration;
               toolExecutions := toolExecutionLog st;
               conversationHistory := (history st ++ [model_turn reply])%list |}.
Proof.
  intros G T P; rewrite loop_unfold.
  erewrite pass_completes by eassumption; reflexivity.
Qed.


End OrchestratorClaims.

Section RunClaims.
Import Js Platform ToolExecutor AgentExecutor Vocabulary Transcript.
Context `{Host}.
Local Open Scope string_scope.

Lemma run_unfold (a : agent) (userInput : string) (customParams : list (string * value))
      (apiKey : string) (agentTools : list tool) :
  loadAgentTools a = Returns agentTools ->
  executeAgentWithTools a userInput customParams apiKey
  = conversation_loop a (extractGeminiParameters customParams) agentTools apiKey
      MAX_ITERATIONS 0
      (initial_state (buildSystemPrompt a customParams apiKey userInput) userInput).
Proof. intros L; unfold executeAgentWithTools; rewrite L; reflexivity. Qed.

(** What a report of the loop is, when the transcript it began with ends
    with a text. *)
Lemma report_shapes (a : agent) geminiParams agentTools apiKey :
  forall remaining k st r,
    ends_with_text st ->
    conversation_loop a geminiParams agentTools apiKey remaining k st = Returns r ->
    (exists reply i st', r = done reply i st')
    \/ (exists message i st', r = failed message i st')
    \/ (exists st', r = exhausted (k + remaining) st' /\ ends_with_text st').
Proof.
  intros remaining k st r E0 E.
  refine (@loop_invariant _ a geminiParams agentTools apiKey
            (fun left_over i st' => i + left_over = k + remaining /\ ends_with_text st')
            (fun r => (exists reply i st', r = done reply i st')
                      \/ (exists message i st', r = failed message i st')
                      \/ (exists st', r = exhausted (k + remaining) st' /\ ends_with_text st'))
            _ _ _ _ _ remaining k st r (conj eq_refl E0) E).
  - intros; left; eauto.
  - intros; right; left; eauto.
  - intros; right; left; eauto.
  - intros left_over i st0 reply [C T] N _ _; split; [lia | ].
    apply ends_with_text_after_calls, ends_with_text_push; exact N.
  - intros i st0 [C T]; right; right; exists st0; rewrite <- C, Nat.add_0_r; auto.
Qed.


(** C6, as the code has it.  A report of a run is a completed one, a
    failed one, or the exhausted one.  When all [MAX_ITERATIONS] passes
    went by without a completed or failed report, the report is the
    exhausted one: no success, the "max iterations" error, 10 iterations,
    and as its result the text of the last turn of the transcript, whatever
    its origin.  That text is never [null], so the report differs from
    every failed one.  With tame tools the run settles with such a
    report, and the error of a failed one is a text. *)
Theorem exhausted_run_reports_last_turn (a : agent) (userInput : string)
        (customParams : list (string * value)) (apiKey : string) (agentTools : list tool) :
  loadAgentTools a = Returns agentTools ->
  (forall r,
      executeAgentWithTools a userInput customParams apiKey = Returns r ->
      (exists reply k st, r = done reply k st)
      \/ (exists message k st, r = failed message k st)
      \/ (exists st earlier t,
            r = exhausted MAX_ITERATIONS st
            /\ history st = (earlier ++ [t])%list
            /\ result r = VStr (content t)
            /\ success r = false
            /\ error r = Some (VStr "Max iterations reached. Task may be incomplete.")
            /\ iterations r = 10
            /\ conversationHistory r = history st
            /\ toolExecutions r = toolExecutionLog st
            /\ (forall message k st', r <> failed message k st')))
  /\ (Forall tame agentTools ->
      exists r,
        executeAgentWithTools a userInput customParams apiKey = Returns r
        /\ ((exists reply k st, r = done reply k st)
            \/ (exists message k st, r = failed (VStr message) k st)
            \/ (exists st, r = exhausted MAX_ITERATIONS st))).
Proof.
  intros L; erewrite run_unfold by exact L; split.
  - intros r E.
    pose proof (initial_state_ends_with_text
                  (buildSystemPrompt a customParams apiKey userInput) userInput) as E0.
    destruct (@report_shapes _ _ _ _ _ _ _ _ E0 E)
      as [D | [F | (st & X & earlier & t & Hi & N)]]; [left; exact D | right; left; exact F | ].
    right; right; exists st, earlier, t.
    change (0 + MAX_ITERATIONS) with MAX_ITERATIONS in X.
    assert (R : result r = VStr (content t)).
    { rewrite X; simpl; rewrite Hi; apply last_text_of; exact N. }
    split; [exact X | split; [exact Hi | split; [exact R | ]]].
    rewrite X in *; repeat (split; [reflexivity | ]).
    intros message k st' C.
    apply (f_equal result) in C; rewrite R in C; discriminate C.
  - intros Tame.
    destruct (loop_resolves a (extractGeminiParameters customParams) apiKey Tame
                MAX_ITERATIONS 0
                (initial_state_ends_with_text
                   (buildSystemPrompt a customParams apiKey userInput) userInput))
      as (r & -> & R).
    exists r; split; [reflexivity | ].
    destruct R as [reply k st B | message k st B | st E].
    + left; eauto.
    + right; left; eauto.
    + right; right; eauto.
Qed.

End RunClaims.

Section GenerationParameters.
Import Js Platform ToolExecutor AgentExecutor Transcript.
Context `{Host}.
Local Open Scope string_scope.

Lemma lookup_set_field (g g' : string) (x : value) : forall fields,
  lookup g (set_field g' x fields)
  = if String.eqb g' g then Some x else lookup g fields.
Proof.
  induction fields as [ | [k old] rest IH]; cbn [set_field lookup].
  - reflexivity.
  - destruct (String.eqb k g') eqn:K; cbn [lookup].
    + apply String.eqb_eq in K; rewrite K.
      destruct (String.eqb g' g); reflexivity.
    + rewrite IH.
      destruct (String.eqb k g) eqn:G; [ | reflexivity].
      apply String.eqb_eq in G; rewrite <- G, String.eqb_sym, K; reflexivity.
Qed.

Lemma extract_fold (customParams : list (string * value)) :
  extractGeminiParameters customParams = fold_left store_param customParams [].
Proof. reflexivity. Qed.

(** The keys the object literal has of its own map to the four settings;
    what it inherits maps elsewhere. *)
Lemma mappingAt_own (key geminiKey : string) :
  paramMapping key = Some geminiKey -> mappingAt key = Some geminiKey.
Proof. intros M; unfold mappingAt; rewrite M; reflexivity. Qed.

Lemma own_is_not_inherited (key key' geminiKey : string) :
  paramMapping key = Some geminiKey -> inheritedMapping key' <> Some geminiKey.
Proof.
  unfold paramMapping, inheritedMapping; intros M C.
  destruct (String.eqb key' "constructor");
    [ | destruct (String.eqb key' "__proto__"); [ | discriminate C]];
    injection C as <-;
    repeat (destruct (String.eqb key _) in M; [discriminate M | ]); discriminate M.
Qed.

Lemma mappingAt_other (key key' geminiKey : string) :
  paramMapping key = Some geminiKey ->
  paramMapping key' <> Some geminiKey -> mappingAt key' <> Some geminiKey.
Proof.
  intros M N; unfold mappingAt.
  destruct (paramMapping key'); [exact N | eapply own_is_not_inherited; exact M].
Qed.

Lemma lookup_store_other (g : string) (entry : string * value) fields :
  mappingAt (toLowerCase (fst entry)) <> Some g ->
  lookup g (store_param fields entry) = lookup g fields.
Proof.
  destruct entry as [key v]; unfold store_param; cbn [fst]; intros N.
  destruct (mappingAt (toLowerCase key)) as [g' | ]; [ | reflexivity].
  rewrite lookup_set_field.
  destruct (String.eqb g' g) eqn:E; [ | reflexivity].
  apply String.eqb_eq in E; subst g'; contradiction.
Qed.

Lemma lookup_store_same (g : string) (entry : string * value) fields fields' :
  lookup g fields = lookup g fields' ->
  lookup g (store_param fields entry) = lookup g (store_param fields' entry).
Proof.
  destruct entry as [key v]; unfold store_param; intros E.
  destruct (mappingAt (toLowerCase key)) as [g' | ]; [ | exact E].
  rewrite !lookup_set_field, E; reflexivity.
Qed.

Lemma lookup_fold_same (g : string) : forall entries fields fields',
  lookup g fields = lookup g fields' ->
  lookup g (fold_left store_param entries fields)
  = lookup g (fold_left store_param entries fields').
Proof.
  induction entries as [ | entry rest IH]; intros fields fields' E; [exact E | ].
  apply IH, lookup_store_same, E.
Qed.

Lemma lookup_fold_other (g : string) : forall entries fields,
  (forall entry, In entry entries -> mappingAt (toLowerCase (fst entry)) <> Some g) ->
  lookup g (fold_left store_param entries fields) = lookup g fields.
Proof.
  induction entries as [ | entry rest IH]; intros fields N; [reflexivity | ].
  cbn [fold_left]; rewrite IH by (intros e I; apply N; right; exact I).
  apply lookup_store_other, N; left; reflexivity.
Qed.

Lemma same_reading_config (p1 p2 : list (string * value)) :
  same_reading p1 p2 -> generationConfig p1 = generationConfig p2.
Proof. intros S; unfold generationConfig; rewrite !S; reflexivity. Qed.

Lemma falsy_entry_reads_as_absent (before after : list (string * value))
      (key : string) (v : value) (geminiKey : string) :
  paramMapping (toLowerCase key) = Some geminiKey ->
  truthy (or_else (VNum (parseFloat v)) v) = false ->
  (forall entry, In entry (before ++ after)%list ->
                 paramMapping (toLowerCase (fst entry)) <> Some geminiKey) ->
  same_reading (extractGeminiParameters (before ++ (key, v) :: after)%list)
               (extractGeminiParameters (before ++ after)%list).
Proof.
  intros M F N g fallback; rewrite !extract_fold, !fold_left_app; cbn [fold_left get].
  destruct (String.eqb geminiKey g) eqn:E.
  - apply String.eqb_eq in E; subst g.
    assert (Na : forall entry, In entry after ->
                               mappingAt (toLowerCase (fst entry)) <> Some geminiKey)
      by (intros e I; eapply mappingAt_other; [exact M | ];
          apply N, in_or_app; right; exact I).
    assert (Nb : forall entry, In entry before ->
                               mappingAt (toLowerCase (fst entry)) <> Some geminiKey)
      by (intros e I; eapply mappingAt_other; [exact M | ];
          apply N, in_or_app; left; exact I).
    rewrite !(@lookup_fold_other geminiKey after) by exact Na.
    rewrite (@lookup_fold_other geminiKey before) by exact Nb.
    unfold store_param; rewrite (mappingAt_own _ M), lookup_set_field, String.eqb_refl.
    cbn [lookup]; unfold or_else at 1 3; rewrite F; reflexivity.
  - rewrite (@lookup_fold_same g after
               (store_param (fold_left store_param before []) (key, v))
               (fold_left store_param before [])); [reflexivity | ].
    apply lookup_store_other; cbn [fst]; rewrite (mappingAt_own _ M).
    intros C; injection C as ->; rewrite String.eqb_refl in E; discriminate E.
Qed.

(** The request, and with it the run, reads the parameters only through
    the generation configuration. *)
Lemma callGeminiAPI_config modelId conversation p1 p2 agentTools apiKey :
  generationConfig p1 = generationConfig p2 ->
  callGeminiAPI modelId conversation p1 agentTools apiKey
  = callGeminiAPI modelId conversation p2 agentTools apiKey.
Proof. intros E; unfold callGeminiAPI, requestBody; rewrite E; reflexivity. Qed.

Lemma conversation_loop_config a p1 p2 agentTools apiKey :
  generationConfig p1 = generationConfig p2 ->
  forall remaining iteration st,
    conversation_loop a p1 agentTools apiKey remaining iteration st
    = conversation_loop a p2 agentTools apiKey remaining iteration st.
Proof.
  intros E; induction remaining as [ | remaining IH]; intros iteration st; [reflexivity | ].
  rewrite !loop_unfold.
  assert (P : pass a p1 agentTools apiKey (S iteration) st
              = pass a p2 agentTools apiKey (S iteration) st).
  { unfold pass, attempt; erewrite callGeminiAPI_config by exact E; reflexivity. }
  rewrite P.
  destruct (pass a p2 agentTools apiKey (S iteration) st) as [[final | st'] | e];
    cbn [bind]; auto.
Qed.

Lemma generation_key_is_filtered (key geminiKey : string) :
  paramMapping (toLowerCase key) = Some geminiKey -> is_generation_key key = true.
Proof.
  unfold paramMapping, is_generation_key; cbn [existsb].
  rewrite !(String.eqb_sym (toLowerCase key)).
  destruct (String.eqb "temperature" _); [reflexivity | ].
  destruct (String.eqb "maxtokens" _); [reflexivity | ].
  destruct (String.eqb "topp" _); [reflexivity | ].
  destruct (String.eqb "topk" _); [reflexivity | discriminate].
Qed.

Lemma buildSystemPrompt_ignores (a : agent) before after key v geminiKey apiKey userInput :
  paramMapping (toLowerCase key) = Some geminiKey ->
  buildSystemPrompt a (before ++ (key, v) :: after)%list apiKey userInput
  = buildSystemPrompt a (before ++ after)%list apiKey userInput.
Proof.
  intros M; unfold buildSystemPrompt.
  rewrite !filter_app; cbn [filter].
  erewrite generation_key_is_filtered by exact M; reflexivity.
Qed.

(** C10, as the code has it.  A generation parameter whose stored value
    [parseFloat(value) || value] is falsy (the number 0, [NaN], the empty
    string, [null], [undefined], [false]) leaves the request and the whole
    run as they are without it; the defaults are 0.7, 40, 0.95 and 8000. *)
Theorem falsy_parameter_is_as_absent (a : agent) (userInput apiKey : string)
        (before after : list (string * value)) (key : string) (v : value)
        (geminiKey : string) :
  paramMapping (toLowerCase key) = Some geminiKey ->
  truthy (or_else (VNum (parseFloat v)) v) = false ->
  (forall entry, In entry (before ++ after)%list ->
                 paramMapping (toLowerCase (fst entry)) <> Some geminiKey) ->
  generationConfig (extractGeminiParameters []) 
  = VObj [("temperature", VNum 0.7); ("topK", VNum 40); ("topP", VNum 0.95);
          ("maxOutputTokens", VNum 8000)]
  /\ generationConfig (extractGeminiParameters (before ++ (key, v) :: after)%list)
     = generationConfig (extractGeminiParameters (before ++ after)%list)
  /\ executeAgentWithTools a userInput (before ++ (key, v) :: after)%list apiKey
     = executeAgentWithTools a userInput (before ++ after)%list apiKey.
Proof.
  intros M F N.
  assert (E : generationConfig (extractGeminiParameters (before ++ (key, v) :: after)%list)
              = generationConfig (extractGeminiParameters (before ++ after)%list))
    by (apply same_reading_config, falsy_entry_reads_as_absent with (geminiKey := geminiKey);
        assumption).
  split; [reflexivity | split; [exact E | ]].
  unfold executeAgentWithTools.
  erewrite buildSystemPrompt_ignores by exact M.
  destruct (loadAgentTools a) as [agentTools | e]; [ | reflexivity].
  cbn [bind]; apply conversation_loop_config, E.
Qed.

End GenerationParameters.

(* ================================================================== *)
(** * Runs on the reference platform *)
(* ================================================================== *)

Section Runs.
Import Js Platform Regex ToolExecutor AgentExecutor Vocabulary Shape Transcript.
Local Open Scope string_scope.

Lemma calculator_behaviour_witness :
  sanitize "abc" = EmptyString
  /\ executeTool (H := Demo.answering) Demo.calculator (expression_args "abc")
     = Returns (failure (VStr "Calculation failed: Invalid mathematical expression")
                        "calculator")
  /\ sanitize "12 * (3 + 4)" = "12 * (3 + 4)".
Proof.
  destruct (calculator_behaviour (H := Demo.answering)) as (_ & S & _ & _ & E).
  split; [reflexivity | split].
  - apply (E "abc"); reflexivity.
  - apply (proj2 (S "12 * (3 + 4)")); reflexivity.
Defined.

(** C5, as stated, fails on ["2 + 2; alert(1)"]: the digit and the
    parentheses of [alert(1)] survive the stripping, the text evaluated is
    ["2 + 2 (1)"], and the tool answers with a failure, not with 4. *)
Lemma alert_digits_survive :
  sanitize "2 + 2; alert(1)" = "2 + 2 (1)"
  /\ sanitize "2 + 2; alert(1)" <> "2 + 2"
  /\ Calculator.run "2 + 2 (1)" = Calculator.TypeError
  /\ executeTool (H := Demo.answering) Demo.calculator (expression_args "2 + 2; alert(1)")
     = Returns (failure (VStr "Calculation failed: value is not a function") "calculator")
  /\ executeTool (H := Demo.answering) Demo.calculator (expression_args "2 + 2; alert(1)")
     <> Returns (VObj [("success", VBool true);
                       ("expression", VStr "2 + 2; alert(1)");
                       ("result", VNum 4)]).
Proof.
  split; [reflexivity | split; [discriminate | split; [reflexivity | ]]].
  split; [reflexivity | discriminate].
Qed.

Lemma data_analyzer_behaviour_witness :
  executeTool (H := Demo.answering) Demo.data_analyzer (data_args (VStr "1,2,3"))
  = Returns (failure (VStr "Data must be a non-empty array") "data_analyzer")
  /\ executeTool (H := Demo.answering) Demo.data_analyzer (data_args (VArr []))
     = Returns (failure (VStr "Data must be a non-empty array") "data_analyzer")
  /\ executeTool (H := Demo.answering) Demo.data_analyzer
       (data_args (VArr [VStr "abc"; VNull; VBool true]))
     = Returns (failure (VStr "No valid numeric data found") "data_analyzer")
  /\ exists payload : value,
       executeTool (H := Demo.answering) Demo.data_analyzer
         (data_args (VArr [VStr "3"; VNum 1; VStr "x"; VNum 2]))
       = Returns payload
       /\ get "variance" payload = VNum (population_variance [3; 1; 2]%float).
Proof.
  destruct (data_analyzer_behaviour (H := Demo.answering)) as (_ & _ & _ & V & A & N).
  split; [apply A; [reflexivity | left; reflexivity] | ].
  split; [apply A; [reflexivity | right; reflexivity] | ].
  split.
  - apply (N _ [VStr "abc"; VNull; VBool true]); [reflexivity | discriminate | reflexivity].
  - destruct (V (data_args (VArr [VStr "3"; VNum 1; VStr "x"; VNum 2]))
                [VStr "3"; VNum 1; VStr "x"; VNum 2] eq_refl) as (payload & E & P & _).
    + vm_compute; discriminate.
    + exists payload; split; [exact E | exact P].
Defined.


(** A match that fails to parse is dropped and the scan goes on: the
    first occurrence below starts at a stray brace, the second is a call. *)
Example malformed_match_is_skipped :
  parseFunctionCalls (H := Demo.answering)
    ("{oops " ++ Demo.unknown_call ++ " then " ++ Demo.calculator_call)
  = [Demo.two_plus_two].
Proof. vm_compute; reflexivity. Qed.

Example calls_come_in_text_order :
  parseFunctionCalls (H := Demo.answering)
    ("First " ++ Demo.unknown_call ++ ", then " ++ Demo.calculator_call ++ ".")
  = [Demo.weather_call; Demo.two_plus_two].
Proof. vm_compute; reflexivity. Qed.

Lemma reply_without_calls_completes_witness :
  conversation_loop (H := Demo.answering) Demo.assistant [] [Demo.calculator] "KEY"
    MAX_ITERATIONS 0 Demo.opening
  = Returns {| success := true;
               error := None;
               result := VStr "The answer is 4.";
               iterations := 1;
               toolExecutions := [];
               conversationHistory :=
                 (history Demo.opening ++ [model_turn "The answer is 4."])%list |}.
Proof.
  apply (reply_without_calls_completes (H := Demo.answering) Demo.assistant []
           [Demo.calculator] "KEY" 9 0 Demo.opening (reply := "The answer is 4."));
    [reflexivity | discriminate | vm_compute; reflexivity].
Defined.

(** C1, as stated, fails on the empty reply: the parser extracts no call
    from it, yet the run does not complete; it fails on that pass. *)
Lemma empty_reply_fails :
  parseFunctionCalls (H := Demo.silent) EmptyString = []
  /\ callGeminiAPI (H := Demo.silent) (model Demo.assistant) (history Demo.opening) []
       [Demo.calculator] "KEY"
     = Returns (VStr EmptyString)
  /\ conversation_loop (H := Demo.silent) Demo.assistant [] [Demo.calculator] "KEY"
       MAX_ITERATIONS 0 Demo.opening
     = Returns {| success := false;
                  error := Some (VStr "Invalid response from LLM");
                  result := VNull;
                  iterations := 1;
                  toolExecutions := [];
                  conversationHistory := history Demo.opening |}.
Proof. split; [reflexivity | split; reflexivity]. Qed.



Lemma exhausted_run_reports_last_turn_witness :
  loadAgentTools (H := Demo.looping) Demo.assistant = Returns [Demo.calculator]
  /\ Forall (tame (H := Demo.looping)) [Demo.calculator]
  /\ exists r,
       executeAgentWithTools (H := Demo.looping) Demo.assistant Demo.question [] "KEY"
       = Returns r
       /\ ((exists reply k st, r = done reply k st)
           \/ (exists message k st, r = failed message k st)
           \/ (exists st earlier t,
                 r = exhausted MAX_ITERATIONS st
                 /\ history st = (earlier ++ [t])%list
                 /\ result r = VStr (content t)
                 /\ success r = false
                 /\ error r = Some (VStr "Max iterations reached. Task may be incomplete.")
                 /\ iterations r = 10
                 /\ conversationHistory r = history st
                 /\ toolExecutions r = toolExecutionLog st
                 /\ (forall message k st', r <> failed message k st'))).
Proof.
  assert (T : Forall (tame (H := Demo.looping)) [Demo.calculator])
    by (constructor; [apply builtin_is_tame; reflexivity | constructor]).
  split; [reflexivity | split; [exact T | ]].
  destruct (exhausted_run_reports_last_turn (H := Demo.looping) Demo.assistant Demo.question
              [] "KEY" (agentTools := [Demo.calculator]) eq_refl) as [A R].
  destruct (R T) as (r & E & _).
  exists r; split; [exact E | exact (A r E)].
Defined.

(** C6, as stated, fails: in a run whose last pass invokes a tool, the
    exhausted report carries the tool-result turn (a user-origin turn) as
    its result, not the last text of the model. *)
Lemma exhausted_result_is_a_tool_turn :
  exists r,
    executeAgentWithTools (H := Demo.looping) Demo.assistant Demo.question [] "KEY"
    = Returns r
    /\ error r = Some (VStr "Max iterations reached. Task may be incomplete.")
    /\ iterations r = 10
    /\ last_model_text (conversationHistory r) = VStr Demo.calculator_call
    /\ result r
       = VStr (content (resultMessage (H := Demo.looping) Demo.two_plus_two
                          (VObj [("success", VBool true);
                                 ("expression", VStr "2 + 2");
                                 ("result", VNum 4)])))
    /\ result r <> last_model_text (conversationHistory r).
Proof.
  eexists; split; [vm_compute; reflexivity | ].
  split; [reflexivity | split; [reflexivity | split; [reflexivity | ]]].
  split; [vm_compute; reflexivity | vm_compute; discriminate].
Qed.

(** A run of two passes: the model asks for the calculator, reads the
    result and answers. *)
Example calculator_round_trip :
  exists r,
    executeAgentWithTools (H := Demo.tutoring) Demo.assistant Demo.question [] "KEY"
    = Returns r
    /\ success r = true
    /\ result r = VStr "2 + 2 = 4"
    /\ iterations r = 2
    /\ map tool_result (toolExecutions r)
       = [Data (VObj [("success", VBool true); ("expression", VStr "2 + 2");
                      ("result", VNum 4)])]
    /\ map source (conversationHistory r) = [User; Model; User; Model].
Proof.
  eexists; split; [vm_compute; reflexivity | ].
  repeat split.
Qed.

(** When every call of the last pass is unresolved, the last turn is the
    reply of the model, and the exhausted report carries it. *)
Example exhausted_after_unresolved_calls :
  exists r,
    executeAgentWithTools (H := Demo.wandering) Demo.assistant Demo.question [] "KEY"
    = Returns r
    /\ iterations r = 10
    /\ toolExecutions r = []
    /\ result r = VStr Demo.unknown_call
    /\ result r = last_model_text (conversationHistory r).
Proof.
  eexists; split; [vm_compute; reflexivity | ].
  repeat split.
Qed.



Lemma falsy_parameter_is_as_absent_witness :
  truthy (or_else (VNum (parseFloat (VNum 0))) (VNum 0)) = false
  /\ generationConfig
       (extractGeminiParameters
          [("topic", VStr "algebra"); ("Temperature", VNum 0); ("topK", VStr "20")])
     = generationConfig (extractGeminiParameters [("topic", VStr "algebra"); ("topK", VStr "20")])
  /\ executeAgentWithTools (H := Demo.answering) Demo.assistant Demo.question
       [("topic", VStr "algebra"); ("Temperature", VNum 0); ("topK", VStr "20")] "KEY"
     = executeAgentWithTools (H := Demo.answering) Demo.assistant Demo.question
         [("topic", VStr "algebra"); ("topK", VStr "20")] "KEY".
Proof.
  split; [reflexivity | ].
  apply (falsy_parameter_is_as_absent (H := Demo.answering) Demo.assistant Demo.question "KEY"
           [("topic", VStr "algebra")] [("topK", VStr "20")] "Temperature" (VNum 0)
           (geminiKey := "temperature")).
  - reflexivity.
  - reflexivity.
  - intros entry [<- | [<- | []]]; discriminate.
Defined.

(** C10, as stated, fails for a zero typed as text: [parseFloat("0")] is
    falsy, yet [parseFloat("0") || "0"] stores the text ["0"], which is
    truthy and goes into the request in place of the default. *)
Lemma zero_as_text_is_forwarded :
  truthy (VNum (parseFloat (VStr "0"))) = false
  /\ generationConfig (extractGeminiParameters [("temperature", VStr "0")])
     = VObj [("temperature", VStr "0"); ("topK", VNum 40); ("topP", VNum 0.95);
             ("maxOutputTokens", VNum 8000)]
  /\ generationConfig (extractGeminiParameters [("temperature", VStr "0")])
     <> generationConfig (extractGeminiParameters []).
Proof. split; [reflexivity | split; [reflexivity | discriminate]]. Qed.

End Runs.

(* ================================================================== *)
(** * More of the tool invoker *)
(* ================================================================== *)

Section TimeZones.
Import Js Platform ToolExecutor.
Context `{Host}.
Local Open Scope string_scope.

Lemma abbreviation_is_text (s zone : string) :
  assoc (toUpperCase s) zone_abbreviations = Some zone -> s <> EmptyString.
Proof. intros A ->; discriminate A. Qed.

Lemma zone_name_is_settled (key zone : string) :
  assoc key zone_abbreviations = Some zone -> resolveTimeZone (VStr zone) = Returns zone.
Proof.
  unfold zone_abbreviations; cbn [assoc]; intros A.
  repeat match type of A with
         | (if ?c then _ else _) = _ => destruct c; [injection A as <-; reflexivity | ]
         end.
  discriminate A.
Qed.

(** X1: the zone abbreviations of [resolveTimeZone].  Every spelling of an
    abbreviation, whatever the case of its letters, resolves to the zone of
    the table; any other text is passed on as it is; an absent or empty
    input gives the local zone; and what a text resolves to resolves to
    itself. *)
Theorem abbreviations_resolve_in_any_case :
  (forall s s' zone,
      assoc (toUpperCase s) zone_abbreviations = Some zone ->
      toUpperCase s' = toUpperCase s ->
      resolveTimeZone (VStr s') = Returns zone)
  /\ (forall s,
        s <> EmptyString ->
        assoc (toUpperCase s) zone_abbreviations = None ->
        resolveTimeZone (VStr s) = Returns s)
  /\ (forall tzInput, truthy tzInput = false -> resolveTimeZone tzInput = Returns localZone)
  /\ (forall s zone,
        s <> EmptyString ->
        resolveTimeZone (VStr s) = Returns zone ->
        resolveTimeZone (VStr zone) = Returns zone).
Proof.
  split; [ | split; [ | split]].
  - intros s s' zone A E.
    rewrite <- E in A.
    unfold resolveTimeZone.
    rewrite (text_is_truthy (abbreviation_is_text A)); cbn [negb].
    rewrite A; reflexivity.
  - intros s N A; unfold resolveTimeZone.
    rewrite (text_is_truthy N); cbn [negb]; rewrite A; reflexivity.
  - intros tzInput F; unfold resolveTimeZone; rewrite F; reflexivity.
  - intros s zone N R; unfold resolveTimeZone in R.
    rewrite (text_is_truthy N) in R; cbn [negb] in R.
    destruct (assoc (toUpperCase s) zone_abbreviations) as [found | ] eqn:A;
      injection R as <-.
    + eapply zone_name_is_settled; exact A.
    + unfold resolveTimeZone; rewrite (text_is_truthy N); cbn [negb]; rewrite A; reflexivity.
Qed.

Lemma formatFor_known (tz date time : string) :
  localeDate tz = Some date -> localeTime tz = Some time ->
  formatFor tz
  = Returns (VObj [("date", VStr date); ("time", VStr time); ("timezone", VStr tz)]).
Proof. intros D T; unfold formatFor; rewrite D, T; reflexivity. Qed.

Lemma timezone_of_defaulted (args : value) :
  get "timezone" (match args with VUndefined => VObj [] | _ => args end)
  = get "timezone" args.
Proof. destruct args; reflexivity. Qed.

(** X2: [current_datetime] without a time zone, and with one the locale
    tables do not know.  When the argument bag is absent, or has no
    [timezone], or an empty one, the [requested] entry of the payload is
    the [local] one.  When the zone asked for resolves to a name the
    locale rejects, the built-in throws the engine's error for that
    name. *)
Theorem no_timezone_means_local (args : value) :
  (args <> VNull ->
   truthy (get "timezone" args) = false ->
   forall date time,
     localeDate localZone = Some date ->
     localeTime localZone = Some time ->
     exists payload,
       executeCurrentDateTime args = Returns payload
       /\ get "success" payload = VBool true
       /\ get "local" payload
          = VObj [("date", VStr date); ("time", VStr time); ("timezone", VStr localZone)]
       /\ get "requested" payload = get "local" payload)
  /\ (args <> VNull ->
      forall zone date time,
        resolveTimeZone (get "timezone" args) = Returns zone ->
        localeDate localZone = Some date ->
        localeTime localZone = Some time ->
        localeDate zone = None \/ localeTime zone = None ->
        executeCurrentDateTime args = Throws (Error (describe (BadTimeZone zone)))).
Proof.
  assert (D : args <> VNull ->
              destructure (match args with VUndefined => VObj [] | _ => args end)
              = Returns (match args with VUndefined => VObj [] | _ => args end)).
  { intros N; destruct args; try reflexivity; contradiction. }
  split.
  - intros N F date time LD LT.
    unfold executeCurrentDateTime; rewrite (D N); cbn [bind].
    rewrite timezone_of_defaulted.
    unfold resolveTimeZone; rewrite F; cbn [negb bind].
    rewrite (formatFor_known _ LD LT); cbn [bind].
    eexists; split; [reflexivity | repeat split].
  - intros N zone date time R LD LT Z.
    unfold executeCurrentDateTime; rewrite (D N); cbn [bind].
    rewrite timezone_of_defaulted, R; cbn [bind].
    rewrite (formatFor_known _ LD LT); cbn [bind].
    unfold formatFor; destruct Z as [Z | Z]; rewrite Z; [reflexivity | ].
    destruct (localeDate zone); reflexivity.
Qed.

End TimeZones.

Section Requests.
Import Js Platform ToolExecutor Books.
Context `{Host}.
Local Open Scope string_scope.

Lemma get_set_field_other (key k : string) (v : value) (fields : list (string * value)) :
  key <> k -> get k (VObj (set_field key v fields)) = get k (VObj fields).
Proof.
  intros N; unfold get; rewrite lookup_set_field.
  destruct (String.eqb key k) eqn:E; [ | reflexivity].
  apply String.eqb_eq in E; contradiction.
Qed.

Lemma get_default_set_field_other (key k : string) (v fallback : value)
      (fields : list (string * value)) :
  key <> k ->
  get_default k fallback (VObj (set_field key v fields))
  = get_default k fallback (VObj fields).
Proof. intros N; unfold get_default; rewrite (get_set_field_other v fields N); reflexivity. Qed.

(** X3: [api_caller] sends a body only with POST, PUT or PATCH.  For any
    other method (GET by default, DELETE, or a method written in small
    letters) the [body] argument has no effect at all: the call is the
    same as without it. *)
Theorem body_needs_a_writing_method (fields : list (string * value)) (body : value) :
  writes (get_default "method" (VStr "GET") (VObj fields)) = false ->
  executeApiCaller (VObj (set_field "body" body fields)) = executeApiCaller (VObj fields).
Proof.
  unfold writes; intros W; unfold executeApiCaller.
  cbn [destructure nullish bind].
  rewrite (@get_default_set_field_other "body" "method" body) by discriminate.
  rewrite (@get_default_set_field_other "body" "headers" body) by discriminate.
  rewrite (@get_set_field_other "body" "url" body) by discriminate.
  rewrite W, !andb_false_r; reflexivity.
Qed.

(** X4: what [api_caller] makes of the answer.  The status of the response
    is not examined: any response whose body can be read, as JSON or else
    as text, gives a payload with [success: true] that carries the status,
    also for a 404 or a 500.  Only a request that fails, or a body that can
    be read neither way, throws, with the message prefixed by "API call
    failed: ". *)
Theorem api_caller_reports_any_status (args : value) :
  nullish args = false ->
  (forall resp data,
      (forall options, fetch (get "url" args) options = inr resp) ->
      json resp = inr data \/ (exists m, json resp = inl m) /\ text resp = inr data ->
      executeApiCaller args
      = Returns (VObj [("success", VBool true);
                       ("status", status resp);
                       ("statusText", statusText resp);
                       ("headers", Platform.headers resp);
                       ("data", data)]))
  /\ (forall resp m m',
        (forall options, fetch (get "url" args) options = inr resp) ->
        json resp = inl m -> text resp = inl m' ->
        executeApiCaller args = Throws (Error ("API call failed: " ++ m')))
  /\ (forall m,
        (forall options, fetch (get "url" args) options = inl m) ->
        executeApiCaller args = Throws (Error ("API call failed: " ++ m))).
Proof.
  intros N; unfold executeApiCaller, destructure; rewrite N; cbn [bind].
  split; [ | split].
  - intros resp data F [J | [[m J] T]]; rewrite F; cbn [lift bind]; rewrite J; cbn [lift try_catch bind].
    + reflexivity.
    + rewrite T; reflexivity.
  - intros resp m m' F J T; rewrite F; cbn [lift bind]; rewrite J; cbn [lift try_catch].
    rewrite T; reflexivity.
  - intros m F; rewrite F; reflexivity.
Qed.

End Requests.

Section CustomBodies.
Import Js Platform ToolExecutor Books.
Context `{Host}.
Local Open Scope string_scope.

Lemma trim_of_nothing : trim EmptyString = EmptyString.
Proof. reflexivity. Qed.

Lemma body_text_has_custom_code (t : tool) (s : string) :
  codeImplementation t = VStr s -> trim s <> EmptyString ->
  has_custom_code t = Returns true.
Proof.
  intros C T; unfold has_custom_code; rewrite C.
  assert (N : s <> EmptyString) by (intros ->; apply T, trim_of_nothing).
  rewrite !text_is_truthy by assumption; reflexivity.
Qed.

(** X5: a body comes before the name.  A tool whose body has some text other
    than white space runs that body, also when its name is that of a
    built-in such as [calculator]; and what the body's [execute] returns is
    the result of the invocation, as it is. *)
Theorem custom_body_takes_precedence (t : tool) (args : value) (s : string) :
  codeImplementation t = VStr s ->
  trim s <> EmptyString ->
  dispatch t args = executeCustomCode t args
  /\ (forall execute payload,
        run_body (wrappedCode t) = Returns (Defines execute) ->
        execute args = Returns payload ->
        executeTool t args = Returns payload).
Proof.
  intros C T.
  assert (D : dispatch t args = executeCustomCode t args)
    by (unfold dispatch; rewrite (body_text_has_custom_code t C T); reflexivity).
  split; [exact D | ].
  intros execute payload L E; unfold executeTool; rewrite D.
  unfold executeCustomCode, customCall; rewrite L; cbn [bind]; rewrite E; reflexivity.
Qed.

(** X6: what a body throws that is not an [Error].  The [catch] of
    [executeCustomCode] reads [error.message]: of a thrown text, number or
    array that is [undefined], and the failure says "Custom code execution
    failed: undefined"; of a thrown object it is its [message] property;
    reading it of a thrown [null] or [undefined] throws in turn, and the
    failure carries the engine's message for that, without the prefix. *)
Theorem thrown_value_loses_its_text (t : tool) (args : value) execute (thrown : value) :
  has_custom_code t = Returns true ->
  run_body (wrappedCode t) = Returns (Defines execute) ->
  execute args = Throws (Raised thrown) ->
  executeTool t args
  = Returns (failure
               (VStr (match thrown with
                      | VUndefined | VNull => describe (NoProperty "message")
                      | VObj fields =>
                          "Custom code execution failed: "
                          ++ ToString (match lookup "message" fields with
                                       | Some message => message
                                       | None => VUndefined
                                       end)
                      | _ => "Custom code execution failed: undefined"
                      end))
               (name t)).
Proof.
  intros C L E; unfold executeTool, dispatch, executeCustomCode, customCall.
  rewrite C; cbn [bind]; rewrite L; cbn [bind]; rewrite E.
  destruct thrown; reflexivity.
Qed.

End CustomBodies.

Section MoreBuiltIns.
Import Js Platform ToolExecutor Books.
Context `{Host}.
Local Open Scope string_scope.

(** X7: the calculator reads nothing but the allowed characters.  Two
    expressions that are the same once every character other than digits,
    [+ - * / ( ) .] and white space is stripped give the same result, or
    fail alike: letters, [^] and the like are invisible to the evaluation. *)
Theorem calculator_reads_the_sanitized_text (e1 e2 : string) :
  sanitize e1 = sanitize e2 ->
  field_of "result" (executeCalculator (expression_args e1))
  = field_of "result" (executeCalculator (expression_args e2)).
Proof.
  intros E; unfold executeCalculator, expression_args.
  cbn [destructure nullish bind get lookup String.eqb Ascii.eqb Bool.eqb replace_disallowed].
  rewrite E.
  destruct (truthy (VStr (sanitize e2))); cbn [negb try_catch]; [ | reflexivity].
  destruct (call_Function (sanitize e2)) as [result | e]; cbn [bind try_catch]; reflexivity.
Qed.

(** X8: [analysis_type] is echoed and nothing more.  Whatever kind of
    analysis is asked for ('correlation', 'trend', ...), every other entry
    of the payload, and every failure, is the same as without it. *)
Theorem analysis_type_is_only_echoed (fields : list (string * value)) (kind : value)
        (key : string) :
  key <> "analysis_type" ->
  field_of key (executeDataAnalyzer (VObj (set_field "analysis_type" kind fields)))
  = field_of key (executeDataAnalyzer (VObj fields)).
Proof.
  intros N; unfold executeDataAnalyzer.
  cbn [destructure nullish bind].
  rewrite (@get_set_field_other "analysis_type" "data" kind) by discriminate.
  destruct (negb (is_array (get "data" (VObj fields)))
            || (length (items_of (get "data" (VObj fields))) =? 0)%nat); [reflexivity | ].
  cbv zeta.
  destruct (length (filter (fun n => negb (is_nan n))
                           (map coerce (items_of (get "data" (VObj fields))))) =? 0)%nat;
    [reflexivity | ].
  unfold field_of; cbn [bind get lookup].
  assert (F : String.eqb "analysis_type" key = false).
  { apply String.eqb_neq; intros E; apply N; symmetry; exact E. }
  rewrite F; reflexivity.
Qed.

End MoreBuiltIns.

(* ================================================================== *)
(** * More of the conversation loop *)
(* ================================================================== *)

Section Settings.
Import Js Platform ToolExecutor AgentExecutor Transcript Books.
Context `{Host}.
Local Open Scope string_scope.

Lemma generation_key_has_a_mapping (key : string) :
  is_generation_key key = true <-> paramMapping (toLowerCase key) <> None.
Proof.
  unfold paramMapping, is_generation_key; cbn [existsb].
  destruct (String.eqb (toLowerCase key) "temperature"); [split; [discriminate | reflexivity] | ].
  destruct (String.eqb (toLowerCase key) "maxtokens"); [split; [discriminate | reflexivity] | ].
  destruct (String.eqb (toLowerCase key) "topp"); [split; [discriminate | reflexivity] | ].
  destruct (String.eqb (toLowerCase key) "topk"); [split; [discriminate | reflexivity] | ].
  split; [discriminate | intros N; contradiction N; reflexivity].
Qed.

Lemma not_generation_key (key : string) :
  is_generation_key key = false -> paramMapping (toLowerCase key) = None.
Proof.
  intros G; destruct (paramMapping (toLowerCase key)) eqn:M; [ | reflexivity].
  assert (T : is_generation_key key = true)
    by (apply generation_key_has_a_mapping; rewrite M; discriminate).
  rewrite T in G; discriminate G.
Qed.

(** What is stored under a setting comes from the generation entries. *)
Lemma lookup_fold_generation_only (key0 geminiKey : string) :
  paramMapping key0 = Some geminiKey ->
  forall customParams fields fields',
    lookup geminiKey fields = lookup geminiKey fields' ->
    lookup geminiKey
      (fold_left store_param
         (filter (fun '(key, _) => is_generation_key key) customParams) fields)
    = lookup geminiKey (fold_left store_param customParams fields').
Proof.
  intros M; induction customParams as [ | [key v] rest IH]; intros fields fields' E;
    [exact E | ].
  cbn [filter]; destruct (is_generation_key key) eqn:G; cbn [fold_left].
  - apply IH, lookup_store_same, E.
  - apply IH; rewrite E; symmetry; apply lookup_store_other; cbn [fst].
    eapply mappingAt_other; [exact M | ].
    rewrite (not_generation_key _ G); discriminate.
Qed.

Lemma get_generation_only (key0 geminiKey : string) (customParams : list (string * value)) :
  paramMapping key0 = Some geminiKey ->
  get geminiKey (VObj (extractGeminiParameters customParams))
  = get geminiKey
      (VObj (extractGeminiParameters
               (filter (fun '(key, _) => is_generation_key key) customParams))).
Proof.
  intros M; unfold get; rewrite !extract_fold.
  erewrite <- (@lookup_fold_generation_only key0 geminiKey M) by reflexivity; reflexivity.
Qed.

Lemma filter_again {A} (keep : A -> bool) (l : list A) :
  filter keep (filter keep l) = filter keep l.
Proof.
  induction l as [ | x rest IH]; [reflexivity | ].
  cbn [filter]; destruct (keep x) eqn:K; cbn [filter]; [rewrite K, IH | ]; auto.
Qed.

Lemma inherited_keys (key : string) :
  inheritedMapping key <> None <-> key = "constructor" \/ key = "__proto__".
Proof.
  unfold inheritedMapping.
  destruct (String.eqb key "constructor") eqn:C.
  { apply String.eqb_eq in C; split; [auto | discriminate]. }
  destruct (String.eqb key "__proto__") eqn:P.
  { apply String.eqb_eq in P; split; [auto | discriminate]. }
  split; [intros N; contradiction N; reflexivity | ].
  intros [-> | ->]; [rewrite String.eqb_refl in C | rewrite String.eqb_refl in P];
    discriminate.
Qed.

(** X9: the custom parameters fall into two parts.  A key is left out of the
    prompt exactly when the mapping has it of its own, whatever the case
    of its letters; the settings of the request are read from those
    entries alone, and the prompt is built from the others alone.  Of the
    others, the keys [constructor] and [__proto__] find what the mapping
    inherits: their entries are printed in the prompt and also stored,
    under a key no request reads. *)
Theorem custom_parameters_fall_into_two_parts (a : agent)
        (customParams : list (string * value)) (apiKey userInput : string) :
  (forall key, is_generation_key key = true <-> paramMapping (toLowerCase key) <> None)
  /\ generationConfig (extractGeminiParameters customParams)
     = generationConfig
         (extractGeminiParameters
            (filter (fun '(key, _) => is_generation_key key) customParams))
  /\ buildSystemPrompt a customParams apiKey userInput
     = buildSystemPrompt a (filter (fun '(key, _) => negb (is_generation_key key)) customParams)
                         apiKey userInput
  /\ (forall key,
        is_generation_key key = false ->
        (mappingAt (toLowerCase key) <> None
         <-> toLowerCase key = "constructor" \/ toLowerCase key = "__proto__"))
  /\ (forall key v geminiKey,
        is_generation_key key = false ->
        mappingAt (toLowerCase key) = Some geminiKey ->
        extractGeminiParameters [(key, v)] = [(geminiKey, or_else (VNum (parseFloat v)) v)]
        /\ generationConfig (extractGeminiParameters [(key, v)])
           = generationConfig (extractGeminiParameters [])).
Proof.
  split; [exact generation_key_has_a_mapping | split; [ | split; [ | split]]].
  - unfold generationConfig.
    rewrite (@get_generation_only "temperature" "temperature" customParams eq_refl).
    rewrite (@get_generation_only "topk" "topK" customParams eq_refl).
    rewrite (@get_generation_only "topp" "topP" customParams eq_refl).
    rewrite (@get_generation_only "maxtokens" "maxOutputTokens" customParams eq_refl).
    reflexivity.
  - unfold buildSystemPrompt; rewrite filter_again; reflexivity.
  - intros key G; unfold mappingAt; rewrite (not_generation_key _ G).
    apply inherited_keys.
  - intros key v geminiKey G M; split.
    + rewrite extract_fold; cbn [fold_left]; unfold store_param; rewrite M; reflexivity.
    + unfold generationConfig.
      rewrite (@get_generation_only "temperature" "temperature" [(key, v)] eq_refl).
      rewrite (@get_generation_only "topk" "topK" [(key, v)] eq_refl).
      rewrite (@get_generation_only "topp" "topP" [(key, v)] eq_refl).
      rewrite (@get_generation_only "maxtokens" "maxOutputTokens" [(key, v)] eq_refl).
      cbn [filter]; rewrite G; reflexivity.
Qed.

(** X10: the last entry for a setting decides.  Keys are compared without
    regard to case, so [Temperature] and [temperature] are entries for the
    same setting; what is stored is what the last of them gives,
    [parseFloat(value) || value]. *)
Theorem last_entry_for_a_setting_decides (before after : list (string * value))
        (key : string) (v : value) (geminiKey : string) :
  paramMapping (toLowerCase key) = Some geminiKey ->
  (forall entry, In entry after -> paramMapping (toLowerCase (fst entry)) <> Some geminiKey) ->
  get geminiKey (VObj (extractGeminiParameters (before ++ (key, v) :: after)%list))
  = or_else (VNum (parseFloat v)) v.
Proof.
  intros M N; unfold get.
  rewrite extract_fold, fold_left_app; cbn [fold_left].
  rewrite (@lookup_fold_other geminiKey after)
    by (intros entry I; eapply mappingAt_other; [exact M | exact (N entry I)]).
  unfold store_param; rewrite (mappingAt_own _ M), lookup_set_field, String.eqb_refl.
  reflexivity.
Qed.

End Settings.

Section SettingsExamples.
Import Js Platform ToolExecutor AgentExecutor Transcript.
Local Open Scope string_scope.

Lemma custom_parameters_fall_into_two_parts_witness :
  is_generation_key "Constructor" = false
  /\ mappingAt (toLowerCase "Constructor") = Some "function Object() { [native code] }"
  /\ extractGeminiParameters [("Constructor", VStr "brick")]
     = [("function Object() { [native code] }", VStr "brick")]
  /\ generationConfig (extractGeminiParameters [("Constructor", VStr "brick")])
     = generationConfig (extractGeminiParameters []).
Proof.
  split; [reflexivity | split; [reflexivity | ]].
  destruct (custom_parameters_fall_into_two_parts (H := Demo.answering) Demo.assistant
              [] "KEY" Demo.question) as (_ & _ & _ & _ & J).
  exact (J "Constructor" (VStr "brick") _ eq_refl eq_refl).
Defined.

End SettingsExamples.

Section ToolLoading.
Import Js Platform ToolExecutor AgentExecutor Transcript Books.
Context `{Host}.
Local Open Scope string_scope.

Lemma load_from_found : forall ids,
  (forall toolId, In toolId ids -> exists found, getToolById toolId = inr found) ->
  loadAgentTools_from ids = Returns (found_tools ids).
Proof.
  induction ids as [ | toolId rest IH]; intros A; [reflexivity | ].
  cbn [loadAgentTools_from].
  destruct (A toolId (or_introl eq_refl)) as [found G].
  rewrite IH by (intros i I; apply A; right; exact I).
  unfold found_tools; cbn [flat_map]; rewrite G; cbn [lift bind].
  destruct found; reflexivity.
Qed.

(** X11: the tools of an agent are loaded in the order of its identifiers.
    When every lookup settles, the tools handed to the loop are those the
    store has, in the order of the identifiers; an identifier the store
    does not know is left out without a word. *)
Theorem tools_load_in_order (a : agent) :
  (forall toolId, In toolId (tools a) -> exists found, getToolById toolId = inr found) ->
  loadAgentTools a = Returns (found_tools (tools a))
  /\ length (found_tools (tools a)) <= length (tools a)
  /\ (forall t, In t (found_tools (tools a))
                <-> exists toolId, In toolId (tools a) /\ getToolById toolId = inr (Some t)).
Proof.
  intros A; split; [ | split].
  - unfold loadAgentTools.
    destruct (tools a) as [ | toolId rest] eqn:T; [reflexivity | ].
    cbn [length Nat.eqb]; apply load_from_found; exact A.
  - clear A; induction (tools a) as [ | toolId rest IH]; [apply le_n | ].
    unfold found_tools in *; cbn [flat_map length]; rewrite length_app.
    destruct (getToolById toolId) as [m | [t | ]]; cbn [length]; lia.
  - intros t; unfold found_tools; rewrite in_flat_map; split.
    + intros (toolId & I & F); exists toolId; split; [exact I | ].
      destruct (getToolById toolId) as [m | [t' | ]]; try contradiction.
      destruct F as [-> | []]; reflexivity.
    + intros (toolId & I & G); exists toolId; split; [exact I | ].
      rewrite G; left; reflexivity.
Qed.

Lemma load_from_fails (message : string) : forall ids,
  (exists toolId, In toolId ids /\ getToolById toolId = inl message) ->
  (forall toolId m, In toolId ids -> getToolById toolId = inl m -> m = message) ->
  loadAgentTools_from ids = Throws (Error message).
Proof.
  induction ids as [ | toolId rest IH]; intros (failing & I & F) Same.
  - contradiction.
  - cbn [loadAgentTools_from].
    destruct (getToolById toolId) as [m | found] eqn:G; cbn [lift bind].
    + rewrite (Same toolId m (or_introl eq_refl) G); reflexivity.
    + rewrite IH; [reflexivity | | ].
      * destruct I as [-> | I]; [rewrite G in F; discriminate F | ].
        exists failing; auto.
      * intros i m I' G'; apply (Same i m); [right; exact I' | exact G'].
Qed.

(** X12: a tool store that fails makes the run reject.  When a lookup of one
    of the agent's tools fails, [executeAgentWithTools] gives no report at
    all: it throws the store's error before the first request to the
    model. *)
Theorem store_failure_rejects_the_run (a : agent) (userInput : string)
        (customParams : list (string * value)) (apiKey message : string) :
  (exists toolId, In toolId (tools a) /\ getToolById toolId = inl message) ->
  (forall toolId m, In toolId (tools a) -> getToolById toolId = inl m -> m = message) ->
  loadAgentTools a = Throws (Error message)
  /\ executeAgentWithTools a userInput customParams apiKey = Throws (Error message).
Proof.
  intros F Same.
  assert (L : loadAgentTools a = Throws (Error message)).
  { unfold loadAgentTools.
    destruct (tools a) as [ | toolId rest] eqn:T.
    - destruct F as (failing & [] & _).
    - cbn [length Nat.eqb]; apply load_from_fails; assumption. }
  split; [exact L | ].
  unfold executeAgentWithTools; rewrite L; reflexivity.
Qed.

End ToolLoading.

Section Passes.
Import Js Platform ToolExecutor AgentExecutor Vocabulary Transcript Books.
Context `{Host}.
Local Open Scope string_scope.

Variable a : agent.
Variable geminiParams : list (string * value).
Variable agentTools : list tool.
Variable apiKey : string.

Lemma gateway_error_fails (remaining iteration : nat) (st : state) (message : string) :
  callGeminiAPI (model a) (history st) geminiParams agentTools apiKey
  = Throws (Error message) ->
  conversation_loop a geminiParams agentTools apiKey (S remaining) iteration st
  = Returns (failed (VStr message) (S iteration) st).
Proof. intros C; rewrite loop_unfold; unfold pass, attempt; rewrite C; reflexivity. Qed.

(** X13: a pass that fails leaves the books as they were.  When the request
    to the model throws, or the reply has no text, or its text is no
    string, the run ends on that pass with the FAILED report: the message
    of the error, no result, the number of the pass, and the transcript
    and the log as they stood before the pass. *)
Theorem failed_pass_leaves_the_books (remaining iteration : nat) (st : state) :
  (forall message,
      callGeminiAPI (model a) (history st) geminiParams agentTools apiKey
      = Throws (Error message) ->
      conversation_loop a geminiParams agentTools apiKey (S remaining) iteration st
      = Returns (failed (VStr message) (S iteration) st))
  /\ (forall text,
        callGeminiAPI (model a) (history st) geminiParams agentTools apiKey = Returns text ->
        truthy text = false ->
        conversation_loop a geminiParams agentTools apiKey (S remaining) iteration st
        = Returns (failed (VStr "Invalid response from LLM") (S iteration) st))
  /\ (forall text,
        callGeminiAPI (model a) (history st) geminiParams agentTools apiKey = Returns text ->
        truthy text = true ->
        (forall reply, text <> VStr reply) ->
        conversation_loop a geminiParams agentTools apiKey (S remaining) iteration st
        = Returns (failed (VStr (describe (NotAMethod "substring"))) (S iteration) st)).
Proof.
  split; [ | split].
  - intros message; apply gateway_error_fails.
  - intros text C T; rewrite loop_unfold; unfold pass, attempt; rewrite C, T; reflexivity.
  - intros text C T N; rewrite loop_unfold; unfold pass, attempt; rewrite C, T.
    destruct text; try reflexivity.
    contradiction (N s eq_refl).
Qed.

End Passes.

Section TheBooks.
Import Js Platform ToolExecutor AgentExecutor Vocabulary Transcript Books.
Context `{Host}.
Local Open Scope string_scope.

Lemma filter_all {A} (keep : A -> bool) (l : list A) :
  (forall x, In x l -> keep x = true) -> filter keep l = l.
Proof.
  induction l as [ | x rest IH]; intros K; [reflexivity | ].
  cbn [filter]; rewrite (K x (or_introl eq_refl)), IH; [reflexivity | ].
  intros y I; apply K; right; exact I.
Qed.

Lemma filter_none {A} (keep : A -> bool) (l : list A) :
  (forall x, In x l -> keep x = false) -> filter keep l = [].
Proof.
  induction l as [ | x rest IH]; intros K; [reflexivity | ].
  cbn [filter]; rewrite (K x (or_introl eq_refl)); apply IH.
  intros y I; apply K; right; exact I.
Qed.

Lemma ascending_same (k : nat) : forall l,
  Forall (fun x => x = k) l -> ascending l = true.
Proof.
  induction l as [ | x rest IH]; intros F; [reflexivity | ].
  inversion F as [ | ? ? -> R]; subst; cbn [ascending].
  destruct rest as [ | y rest']; [reflexivity | ].
  inversion R as [ | ? ? -> R']; subst.
  rewrite Nat.leb_refl; apply IH; exact R.
Qed.

Lemma ascending_app (k : nat) : forall l l',
  ascending l = true ->
  Forall (fun x => x <= k) l ->
  Forall (fun x => x = k) l' ->
  ascending (l ++ l') = true.
Proof.
  induction l as [ | x rest IH]; intros l' A B S.
  - apply (ascending_same S).
  - inversion B as [ | ? ? Bx Brest]; subst.
    destruct rest as [ | y rest'].
    + cbn [app ascending].
      destruct l' as [ | z l'']; [reflexivity | ].
      inversion S as [ | ? ? -> _]; subst.
      apply andb_true_iff; split; [apply Nat.leb_le; exact Bx | apply (ascending_same S)].
    + cbn [ascending] in A; apply andb_true_iff in A as [L A].
      change (ascending (x :: y :: (rest' ++ l')%list) = true).
      cbn [ascending]; rewrite L; cbn [andb].
      apply (IH l' A Brest S).
Qed.

Variable agentTools : list tool.

Lemma contribution_shape (k : nat) (call : functionCall) (p : execution * turn) :
  In p (contribution k agentTools call) ->
  at_iteration (fst p) = k /\ from_user (snd p) = true.
Proof.
  unfold contribution; destruct (find_tool agentTools call) as [t | ]; [ | contradiction].
  intros [<- | []]; split; reflexivity.
Qed.

Lemma added_shape (k : nat) (calls : list functionCall) (p : execution * turn) :
  In p (flat_map (contribution k agentTools) calls) ->
  at_iteration (fst p) = k /\ from_user (snd p) = true.
Proof.
  rewrite in_flat_map; intros (call & _ & I); exact (contribution_shape _ _ _ I).
Qed.

Lemma user_turns_app (l l' : list turn) : user_turns (l ++ l') = user_turns l + user_turns l'.
Proof. unfold user_turns; rewrite filter_app, length_app; reflexivity. Qed.

Lemma model_turns_app (l l' : list turn) :
  model_turns (l ++ l') = model_turns l + model_turns l'.
Proof. unfold model_turns; rewrite filter_app, length_app; reflexivity. Qed.

Lemma user_turns_added (k : nat) (calls : list functionCall) :
  user_turns (map snd (flat_map (contribution k agentTools) calls))
  = length (flat_map (contribution k agentTools) calls).
Proof.
  unfold user_turns; rewrite filter_all, length_map; [reflexivity | ].
  intros t I; apply in_map_iff in I as (p & <- & I); apply (added_shape _ _ _ I).
Qed.

Lemma model_turns_added (k : nat) (calls : list functionCall) :
  model_turns (map snd (flat_map (contribution k agentTools) calls)) = 0.
Proof.
  unfold model_turns; rewrite filter_none; [reflexivity | ].
  intros t I; apply in_map_iff in I as (p & <- & I).
  unfold from_model; rewrite (proj2 (added_shape _ _ _ I)); reflexivity.
Qed.

Lemma stamps_added (k : nat) (calls : list functionCall) :
  Forall (fun x => x = k) (stamps (map fst (flat_map (contribution k agentTools) calls))).
Proof.
  apply Forall_forall; intros x I; unfold stamps in I.
  apply in_map_iff in I as (e & <- & I); apply in_map_iff in I as (p & <- & I).
  apply (added_shape _ _ _ I).
Qed.

Lemma books_after_calls (opening : list turn) (k : nat) (st : state) (reply : string)
      (calls : list functionCall) :
  books_in_order opening k st -> reply <> EmptyString ->
  books_in_order opening (S k)
    (after_calls (S k) agentTools calls (push_turn st (model_turn reply))).
Proof.
  intros ((added & A) & U & M & F & Asc & E) N.
  assert (E' : ends_with_text
                 (after_calls (S k) agentTools calls (push_turn st (model_turn reply))))
    by (apply ends_with_text_after_calls, ends_with_text_push; exact N).
  revert E'; unfold books_in_order, after_calls; cbn [history toolExecutionLog push_turn].
  intros E'.
  split; [ | split; [ | split; [ | split; [ | split]]]].
  - rewrite A, <- !app_assoc; eauto.
  - rewrite !user_turns_app, user_turns_added, U, length_app, length_map.
    change (user_turns [model_turn reply]) with 0; lia.
  - rewrite !model_turns_app, model_turns_added, M.
    change (model_turns [model_turn reply]) with 1; lia.
  - apply Forall_app; split.
    + eapply Forall_impl; [ | exact F]; cbn beta; intros e B; lia.
    + apply Forall_forall; intros e I; apply in_map_iff in I as (p & <- & I).
      rewrite (proj1 (added_shape _ _ _ I)); lia.
  - unfold stamps; rewrite map_app; apply (@ascending_app (S k)); [exact Asc | | ].
    + apply Forall_forall; intros x I; apply in_map_iff in I as (e & <- & I).
      rewrite Forall_forall in F; specialize (F e I); lia.
    + apply stamps_added.
  - exact E'.
Qed.

(** Where the loop over the calls stops, the last record may lack its
    turn. *)
Lemma books_where_halted (opening : list turn) (k : nat) (st st' : state) (reply : string)
      (e : exn) :
  books_in_order opening k st -> reply <> EmptyString ->
  halted (S k) agentTools (parseFunctionCalls reply) (push_turn st (model_turn reply)) st' e ->
  books_halted opening (S k) st'.
Proof.
  intros B N (before & call & after & t & _ & _ & _ & Alt).
  destruct (@books_after_calls opening k st reply before B N) as (A & U & M & F & Asc & _).
  destruct Alt as [[_ ->] | [_ ->]].
  - split; [exact A | split; [left; exact U | split; [exact M | split; [exact F | exact Asc]]]].
  - unfold books_halted, push_execution; cbn [history toolExecutionLog].
    split; [exact A | split; [right; rewrite length_app, U; simpl; lia | ]].
    split; [exact M | split].
    + apply Forall_app; split; [exact F | ].
      constructor; [cbn [record_of at_iteration]; lia | constructor].
    + unfold stamps; rewrite map_app; apply (@ascending_app (S k)); [exact Asc | | ].
      * apply Forall_forall; intros x I; apply in_map_iff in I as (r & <- & I).
        rewrite Forall_forall in F; specialize (F r I); lia.
      * constructor; [reflexivity | constructor].
Qed.

Variable a : agent.
Variable geminiParams : list (string * value).
Variable apiKey : string.

(** Every report of the loop has its books in order. *)
Lemma loop_keeps_the_books (opening : list turn) : forall remaining k st r,
  books_in_order opening k st ->
  conversation_loop a geminiParams agentTools apiKey remaining k st = Returns r ->
  report_in_order opening r.
Proof.
  intros remaining k st r B E.
  refine (@loop_invariant _ a geminiParams agentTools apiKey
            (fun _ i st' => books_in_order opening i st')
            (report_in_order opening) _ _ _ _ _ remaining k st r B E); clear.
  - intros _ k st reply ((added & A) & U & M & F & Asc & E) N P.
    unfold report_in_order; cbn [done conversationHistory toolExecutions result iterations
                                 success push_turn history toolExecutionLog].
    split; [rewrite A, <- app_assoc; eauto | ].
    split; [left; rewrite user_turns_app, U; change (user_turns [model_turn reply]) with 0;
            lia | ].
    split; [left; rewrite model_turns_app, M;
            change (model_turns [model_turn reply]) with 1; lia | ].
    split; [eapply Forall_impl; [ | exact F]; cbn beta; intros e B; lia | ].
    split; [exact Asc | ].
    intros _; exists (history st), reply; auto.
  - intros _ k st message ((added & A) & U & M & F & Asc & E).
    unfold report_in_order; cbn [failed conversationHistory toolExecutions result iterations
                                 success].
    split; [eauto | split; [left; exact U | ]].
    split; [right; split; [reflexivity | rewrite M; lia] | ].
    split; [eapply Forall_impl; [ | exact F]; cbn beta; intros e B; lia | ].
    split; [exact Asc | discriminate].
  - intros _ k st reply st' e message B N Hh _.
    destruct (@books_where_halted opening k st st' reply e B N Hh) as (A & U & M & F & Asc).
    unfold report_in_order; cbn [failed conversationHistory toolExecutions result iterations
                                 success].
    split; [exact A | split].
    { destruct U as [U | U]; [left; exact U | right; split; [reflexivity | exact U]]. }
    split; [left; exact M | split; [exact F | split; [exact Asc | discriminate]]].
  - intros _ k st reply B N _ _; apply books_after_calls; assumption.
  - intros k st ((added & A) & U & M & F & Asc & E).
    unfold report_in_order; cbn [exhausted conversationHistory toolExecutions result iterations
                                 success].
    split; [eauto | split; [left; exact U | ]].
    split; [left; exact M | ].
    split; [exact F | split; [exact Asc | discriminate]].
Qed.

End TheBooks.

Section RunBooks.
Import Js Platform ToolExecutor AgentExecutor Vocabulary Transcript Books.
Context `{Host}.
Local Open Scope string_scope.

Variable a : agent.
Variable userInput : string.
Variable customParams : list (string * value).
Variable apiKey : string.

Lemma initial_books (systemPrompt : string) :
  books_in_order (history (initial_state systemPrompt userInput)) 0
                 (initial_state systemPrompt userInput).
Proof.
  split; [exists []; rewrite app_nil_r; reflexivity | ].
  split; [cbn [toolExecutionLog initial_state length]; lia | ].
  split; [lia | split; [constructor | split; [reflexivity | ]]].
  apply initial_state_ends_with_text.
Qed.

Lemma run_keeps_the_books (agentTools : list tool) (r : report) :
  loadAgentTools a = Returns agentTools ->
  executeAgentWithTools a userInput customParams apiKey = Returns r ->
  report_in_order
    (history (initial_state (buildSystemPrompt a customParams apiKey userInput) userInput))
    r.
Proof.
  intros L E; erewrite run_unfold in E by exact L.
  eapply loop_keeps_the_books; [apply initial_books | exact E].
Qed.

(** With tame tools the run settles with a report. *)
Lemma run_settles (agentTools : list tool) :
  loadAgentTools a = Returns agentTools ->
  Forall tame agentTools ->
  exists r, executeAgentWithTools a userInput customParams apiKey = Returns r.
Proof.
  intros L Tame; erewrite run_unfold by exact L.
  destruct (loop_resolves a (extractGeminiParameters customParams) apiKey Tame
              MAX_ITERATIONS 0
              (initial_state_ends_with_text
                 (buildSystemPrompt a customParams apiKey userInput) userInput))
    as (r & E & _).
  exists r; exact E.
Qed.

(** The exhausted report has a text as its result. *)
Lemma report_with_no_result (agentTools : list tool) (r : report) :
  loadAgentTools a = Returns agentTools ->
  executeAgentWithTools a userInput customParams apiKey = Returns r ->
  result r = VNull -> exists message k st, r = failed message k st.
Proof.
  intros L E N; erewrite run_unfold in E by exact L.
  destruct (@report_shapes _ _ _ _ _ _ _ _ _
              (initial_state_ends_with_text
                 (buildSystemPrompt a customParams apiKey userInput) userInput) E)
    as [(reply & k & st & ->) | [F | (st & -> & earlier & t & Hi & T)]].
  - discriminate N.
  - exact F.
  - cbn [exhausted result] in N; rewrite Hi in N.
    erewrite last_text_of in N by exact T; discriminate N.
Qed.

(** X14: the records and their turns.  The transcript of a report begins
    with the opening turn (the prompt and the user's request) and is only
    ever added to.  In a report that has a result (the run completed or
    ran out of passes) the turns of user origin added to it are as many as
    the records of the log: a tool result is folded in exactly when its
    execution is recorded.  In a FAILED report, whose result is [null],
    there may be one turn less than records: the pass that failed may have
    logged an execution whose result could not be written into a turn.
    With tame tools the run settles with a report. *)
Theorem every_record_has_its_turn (agentTools : list tool) :
  loadAgentTools a = Returns agentTools ->
  (forall r,
      executeAgentWithTools a userInput customParams apiKey = Returns r ->
      exists added,
        conversationHistory r
        = (history (initial_state (buildSystemPrompt a customParams apiKey userInput)
                                  userInput)
           ++ added)%list
        /\ (result r <> VNull -> user_turns added = length (toolExecutions r))
        /\ (result r = VNull ->
            (exists message k st, r = failed message k st)
            /\ (user_turns added = length (toolExecutions r)
                \/ S (user_turns added) = length (toolExecutions r))))
  /\ (Forall tame agentTools ->
      exists r, executeAgentWithTools a userInput customParams apiKey = Returns r).
Proof.
  intros L; split; [ | apply run_settles; exact L].
  intros r E; destruct (run_keeps_the_books L E) as ((added & A) & U & _).
  exists added; split; [exact A | ].
  rewrite A, user_turns_app in U.
  change (user_turns (history (initial_state
                                 (buildSystemPrompt a customParams apiKey userInput)
                                 userInput))) with 1 in U.
  split.
  - intros N; destruct U as [U | [Z _]]; [lia | contradiction].
  - intros N; split; [exact (report_with_no_result L E N) | ].
    destruct U as [U | [_ U]]; [left | right]; lia.
Qed.

(** X15: the records of the log are stamped in order.  Every record of a
    report carries the number of a pass between 1 and the number of passes
    the report counts, and the stamps never go down along the log.  With
    tame tools the run settles with a report. *)
Theorem records_are_stamped_in_order (agentTools : list tool) :
  loadAgentTools a = Returns agentTools ->
  (forall r,
      executeAgentWithTools a userInput customParams apiKey = Returns r ->
      Forall (fun e => 1 <= at_iteration e <= iterations r) (toolExecutions r)
      /\ ascending (stamps (toolExecutions r)) = true)
  /\ (Forall tame agentTools ->
      exists r,
        executeAgentWithTools a userInput customParams apiKey = Returns r
        /\ Forall (fun e => 1 <= at_iteration e <= iterations r) (toolExecutions r)
        /\ ascending (stamps (toolExecutions r)) = true).
Proof.
  intros L.
  assert (A : forall r,
             executeAgentWithTools a userInput customParams apiKey = Returns r ->
             Forall (fun e => 1 <= at_iteration e <= iterations r) (toolExecutions r)
             /\ ascending (stamps (toolExecutions r)) = true).
  { intros r E; destruct (run_keeps_the_books L E) as (_ & _ & _ & F & Asc & _); auto. }
  split; [exact A | ].
  intros Tame; destruct (run_settles L Tame) as (r & E).
  exists r; split; [exact E | exact (A r E)].
Qed.

(** X16: the model's turns and the passes.  A report that has a result
    (the run completed or ran out of passes) has one turn of model origin
    for each pass it counts.  A FAILED report, whose result is [null], has
    one less when the pass failed before the reply was taken in, and as
    many when it failed among the calls of the reply.  The result of a
    completed run is the text of the last turn of the transcript, which is
    the model's and holds no call.  With tame tools the run settles with a
    report. *)
Theorem model_turns_count_the_passes (agentTools : list tool) :
  loadAgentTools a = Returns agentTools ->
  (forall r,
      executeAgentWithTools a userInput customParams apiKey = Returns r ->
      (result r <> VNull -> model_turns (conversationHistory r) = iterations r)
      /\ (result r = VNull ->
          (exists message k st, r = failed message k st)
          /\ (model_turns (conversationHistory r) = iterations r
              \/ S (model_turns (conversationHistory r)) = iterations r))
      /\ (success r = true ->
          exists earlier reply,
            conversationHistory r = (earlier ++ [model_turn reply])%list
            /\ result r = VStr reply
            /\ reply <> EmptyString
            /\ parseFunctionCalls reply = []))
  /\ (Forall tame agentTools ->
      exists r, executeAgentWithTools a userInput customParams apiKey = Returns r).
Proof.
  intros L; split; [ | apply run_settles; exact L].
  intros r E; destruct (run_keeps_the_books L E) as (_ & _ & M & _ & _ & D).
  change (model_turns (history (initial_state
                                  (buildSystemPrompt a customParams apiKey userInput)
                                  userInput))) with 0 in M.
  split; [ | split; [ | exact D]].
  - intros N; destruct M as [M | [Z _]]; [exact M | contradiction].
  - intros N; split; [exact (report_with_no_result L E N) | ].
    destruct M as [M | [_ M]]; [left | right]; exact M.
Qed.

End RunBooks.

Section Rejections.
Import Js Platform ToolExecutor AgentExecutor Vocabulary Transcript Books.
Context `{Host}.
Local Open Scope string_scope.

Variable a : agent.
Variable userInput : string.
Variable customParams : list (string * value).
Variable apiKey : string.
Variable agentTools : list tool.
Hypothesis tools_loaded : loadAgentTools a = Returns agentTools.

Lemma first_pass_fails (message : string) :
  callGeminiAPI (model a) (history (opening_state a customParams apiKey userInput)) (extractGeminiParameters customParams)
                agentTools apiKey
  = Throws (Error message) ->
  executeAgentWithTools a userInput customParams apiKey
  = Returns (failed (VStr message) 1 (opening_state a customParams apiKey userInput)).
Proof.
  intros C; erewrite run_unfold by exact tools_loaded.
  apply (gateway_error_fails a (extractGeminiParameters customParams) agentTools apiKey
           9 0 (opening_state a customParams apiKey userInput) C).
Qed.

(** X17: what the user gets when the backend turns the first request down.
    The run ends on its first pass with the FAILED report, whose
    transcript is the opening turn alone and whose log is empty.  Its
    error is: the message of the network failure; for a response that is
    not [ok], the [error.message] of its body, or "Gemini API request
    failed" when the body has no [error], or the parse error when the body
    is no JSON; for an [ok] response without candidates, "Content blocked: "
    and the block reason, or "API returned no candidates". *)
Theorem backend_rejection_fails_the_first_pass :
  (forall m,
      (forall url options, fetch url options = inl m) ->
      executeAgentWithTools a userInput customParams apiKey
      = Returns (failed (VStr m) 1 (opening_state a customParams apiKey userInput)))
  /\ (forall resp,
        (forall url options, fetch url options = inr resp) ->
        ok resp = false ->
        (forall m,
            json resp = inl m ->
            executeAgentWithTools a userInput customParams apiKey
            = Returns (failed (VStr m) 1 (opening_state a customParams apiKey userInput)))
        /\ (forall fields inner m,
              json resp = inr (VObj fields) ->
              lookup "error" fields = Some (VObj inner) ->
              lookup "message" inner = Some (VStr m) ->
              m <> EmptyString ->
              executeAgentWithTools a userInput customParams apiKey
              = Returns (failed (VStr m) 1 (opening_state a customParams apiKey userInput)))
        /\ (forall fields,
              json resp = inr (VObj fields) ->
              lookup "error" fields = None ->
              executeAgentWithTools a userInput customParams apiKey
              = Returns (failed (VStr "Gemini API request failed") 1 (opening_state a customParams apiKey userInput))))
  /\ (forall resp fields,
        (forall url options, fetch url options = inr resp) ->
        ok resp = true ->
        json resp = inr (VObj fields) ->
        lookup "candidates" fields = None \/ lookup "candidates" fields = Some (VArr []) ->
        (forall feedback reason,
            lookup "promptFeedback" fields = Some (VObj feedback) ->
            lookup "blockReason" feedback = Some (VStr reason) ->
            reason <> EmptyString ->
            executeAgentWithTools a userInput customParams apiKey
            = Returns (failed (VStr ("Content blocked: " ++ reason)) 1 (opening_state a customParams apiKey userInput)))
        /\ (lookup "promptFeedback" fields = None ->
            executeAgentWithTools a userInput customParams apiKey
            = Returns (failed (VStr "API returned no candidates") 1 (opening_state a customParams apiKey userInput)))).
Proof.
  split; [ | split].
  - intros m F; apply first_pass_fails; unfold callGeminiAPI; rewrite F; reflexivity.
  - intros resp F O; split; [ | split].
    + intros m J; apply first_pass_fails; unfold callGeminiAPI.
      rewrite F; cbn [lift bind]; rewrite O; cbn [negb]; rewrite J; reflexivity.
    + intros fields inner m J E M N; apply first_pass_fails; unfold callGeminiAPI.
      rewrite F; cbn [lift bind]; rewrite O; cbn [negb]; rewrite J; cbn [lift bind].
      unfold member, optional_member; cbn [nullish property get bind].
      rewrite E; cbn [nullish property get]; rewrite M.
      unfold or_else; rewrite (text_is_truthy N); reflexivity.
    + intros fields J E; apply first_pass_fails; unfold callGeminiAPI.
      rewrite F; cbn [lift bind]; rewrite O; cbn [negb]; rewrite J; cbn [lift bind].
      unfold member, optional_member; cbn [nullish property get bind].
      rewrite E; reflexivity.
  - intros resp fields F O J C; split.
    + intros feedback reason P B N; apply first_pass_fails; unfold callGeminiAPI.
      rewrite F; cbn [lift bind]; rewrite O; cbn [negb]; rewrite J; cbn [lift bind].
      unfold member, optional_member; cbn [nullish property get bind].
      rewrite P; cbn [nullish property get]; rewrite B, (text_is_truthy N).
      destruct C as [C | C]; rewrite C; reflexivity.
    + intros P; apply first_pass_fails; unfold callGeminiAPI.
      rewrite F; cbn [lift bind]; rewrite O; cbn [negb]; rewrite J; cbn [lift bind].
      unfold member, optional_member; cbn [nullish property get bind].
      rewrite P.
      destruct C as [C | C]; rewrite C; reflexivity.
Qed.

End Rejections.

Section Retrieval.
Import Js Platform ToolExecutor AgentExecutor Vocabulary Transcript Books.
Context `{Host}.
Local Open Scope string_scope.

Lemma loop_reads_the_model_only (a a' : agent) geminiParams agentTools apiKey :
  model a = model a' ->
  forall remaining iteration st,
    conversation_loop a geminiParams agentTools apiKey remaining iteration st
    = conversation_loop a' geminiParams agentTools apiKey remaining iteration st.
Proof.
  intros E; induction remaining as [ | remaining IH]; intros iteration st; [reflexivity | ].
  rewrite !loop_unfold.
  assert (P : pass a geminiParams agentTools apiKey (S iteration) st
              = pass a' geminiParams agentTools apiKey (S iteration) st)
    by (unfold pass, attempt; rewrite E; reflexivity).
  rewrite P.
  destruct (pass a' geminiParams agentTools apiKey (S iteration) st) as [[final | st'] | e];
    cbn [bind]; auto.
Qed.

(** X18: a knowledge base that fails, or has nothing to offer, is passed
    over.  When the search for documents throws or finds none, the run of
    an agent with retrieval is the run of the same agent without it: the
    error is swallowed and the prompt has no documents. *)
Theorem retrieval_failure_is_passed_over (a : agent) (userInput : string)
        (customParams : list (string * value)) (apiKey : string) :
  (exists m, searchSimilarDocuments (id a) userInput apiKey (or_else (ragTopK a) (VNum 3))
             = inl m)
  \/ searchSimilarDocuments (id a) userInput apiKey (or_else (ragTopK a) (VNum 3)) = inr [] ->
  buildSystemPrompt a customParams apiKey userInput
  = buildSystemPrompt (without_rag a) customParams apiKey userInput
  /\ executeAgentWithTools a userInput customParams apiKey
     = executeAgentWithTools (without_rag a) userInput customParams apiKey.
Proof.
  intros S.
  assert (B : buildSystemPrompt a customParams apiKey userInput
              = buildSystemPrompt (without_rag a) customParams apiKey userInput).
  { unfold buildSystemPrompt; cbn [without_rag ragEnabled role goal taskDescription
                                   expectedOutput].
    destruct (ragEnabled a); [ | reflexivity].
    destruct S as [[m S] | S]; rewrite S; reflexivity. }
  split; [exact B | ].
  unfold executeAgentWithTools; rewrite B.
  change (loadAgentTools (without_rag a)) with (loadAgentTools a).
  destruct (loadAgentTools a) as [agentTools | e]; [ | reflexivity].
  cbn [bind]; apply loop_reads_the_model_only; reflexivity.
Qed.

End Retrieval.

Section Caller.
Import Js Platform ToolExecutor AgentExecutor Vocabulary Transcript Books LlmService.
Context `{Host} `{Browser}.
Local Open Scope string_scope.

(** X19: the two files do not agree on the output limit.  The parameters
    [llmService.js] extracts always have a truthy [maxOutputTokens], 8192
    when the caller gave none, so the fall-back of the request, 8000, is
    never used there; every other setting is the one [agentExecutor.js]
    extracts.  With no custom parameters the configuration of the loop
    asks for 8000 tokens and that of the execution without tools for
    8192. *)
Theorem output_limit_defaults_differ (customParams : list (string * value)) :
  truthy (get "maxOutputTokens" (VObj (LlmService.extractGeminiParameters customParams)))
  = true
  /\ (forall fallback,
        or_else (get "maxOutputTokens"
                     (VObj (LlmService.extractGeminiParameters customParams))) fallback
        = or_else (get "maxOutputTokens"
                       (VObj (AgentExecutor.extractGeminiParameters customParams)))
                  (VNum 8192))
  /\ (forall key,
        key <> "maxOutputTokens" ->
        get key (VObj (LlmService.extractGeminiParameters customParams))
        = get key (VObj (AgentExecutor.extractGeminiParameters customParams)))
  /\ get "maxOutputTokens" (generationConfig (LlmService.extractGeminiParameters []))
     = VNum 8192
  /\ get "maxOutputTokens" (generationConfig (AgentExecutor.extractGeminiParameters []))
     = VNum 8000.
Proof.
  unfold LlmService.extractGeminiParameters.
  destruct (truthy (get "maxOutputTokens"
                        (VObj (AgentExecutor.extractGeminiParameters customParams)))) eqn:T;
    cbn [negb].
  - split; [exact T | split; [ | split; [reflexivity | split; reflexivity]]].
    intros fallback; unfold or_else; rewrite T; reflexivity.
  - assert (G : get "maxOutputTokens"
                    (VObj (set_field "maxOutputTokens" (VNum 8192)
                                     (AgentExecutor.extractGeminiParameters customParams)))
                = VNum 8192)
      by (unfold get; rewrite lookup_set_field, String.eqb_refl; reflexivity).
    split; [rewrite G; reflexivity | split; [ | split; [ | split; reflexivity]]].
    + intros fallback; rewrite G; unfold or_else; rewrite T; reflexivity.
    + intros key N; apply get_set_field_other; intros E; apply N; symmetry; exact E.
Qed.

Lemma append_assoc (s t u : string) : (s ++ t) ++ u = s ++ (t ++ u).
Proof. induction s as [ | c s IH]; [reflexivity | cbn [append]; rewrite IH; reflexivity]. Qed.

Lemma summaryLines_extends : forall execs i response,
  exists tail, summaryLines i execs response = response ++ tail.
Proof.
  induction execs as [ | exec rest IH]; intros i response; cbn [summaryLines].
  - exists EmptyString; induction response as [ | c s IHs]; [reflexivity | ].
    cbn [append]; rewrite <- IHs; reflexivity.
  - destruct (IH (S i) (response ++ summaryLine i exec)) as [tail ->].
    exists (summaryLine i exec ++ tail); apply append_assoc.
Qed.

Lemma withSummary_of_done (reply : string) (k : nat) (st : state) :
  (toolExecutionLog st = [] -> withSummary (done reply k st) = VStr reply)
  /\ exists tail, withSummary (done reply k st) = VStr (reply ++ tail).
Proof.
  unfold withSummary; cbn [done result toolExecutions iterations]; split.
  - intros ->; reflexivity.
  - destruct (0 <? length (toolExecutionLog st))%nat.
    + cbn [ToString].
      match goal with
      | |- context [summaryLines 0 ?l (reply ++ ?x)] =>
          destruct (summaryLines_extends l 0 (reply ++ x)) as [tail ->];
          exists (x ++ tail); rewrite append_assoc; reflexivity
      end.
    + exists EmptyString; clear; induction reply as [ | c s IHs]; [reflexivity | ].
      cbn [append]; injection IHs as <-; reflexivity.
Qed.

Variable simpleExecution : agent -> string -> list (string * value) -> value -> outcome value.

Lemma executeAgent_with_tools (a : agent) (userInput : string)
      (customParams : list (string * value)) :
  offline = false -> truthy getApiKey = true -> tools a <> [] ->
  executeAgent simpleExecution a userInput customParams
  = try_catch
      (bind (executeAgentWithTools a userInput customParams (ToString getApiKey))
            (fun result =>
               if negb (success result) then
                 Throws (Error (ToString (or_else (errorOf result)
                                                  (VStr "Agent execution failed"))))
               else Returns (withSummary result)))
      (rethrow "Failed to execute agent with tools: ").
Proof.
  intros O K T; unfold executeAgent; rewrite O, K; cbn [negb].
  destruct (tools a); [contradiction T; reflexivity | reflexivity].
Qed.

(** X20: what [executeAgent] makes of a run with tools.  Off line, or without
    a key, it throws before anything is asked of the model.  Otherwise a
    failing tool store, and every report that is not a success (a FAILED
    one as well as one that ran out of passes), reach the caller as an
    error whose message begins with "Failed to execute agent with tools: ";
    only a completed run returns, and what it returns begins with the
    model's last reply and is that reply alone when no tool was executed.
    With tame tools the run settles with a report, and the error of a
    report that is not a success is a text. *)
Theorem executeAgent_returns_completed_runs_only (a : agent) (userInput : string)
        (customParams : list (string * value)) :
  (offline = true ->
   executeAgent simpleExecution a userInput customParams
   = Throws (Error "No internet connection (offline). Please reconnect and try again."))
  /\ (offline = false -> truthy getApiKey = false ->
      executeAgent simpleExecution a userInput customParams
      = Throws (Error
          "API Key not found. Please configure your API key in settings or onboarding."))
  /\ (offline = false -> truthy getApiKey = true -> tools a <> [] ->
      (forall message,
          loadAgentTools a = Throws (Error message) ->
          executeAgent simpleExecution a userInput customParams
          = Throws (Error ("Failed to execute agent with tools: " ++ message)))
      /\ (forall agentTools r,
            loadAgentTools a = Returns agentTools ->
            executeAgentWithTools a userInput customParams (ToString getApiKey) = Returns r ->
            (success r = true
             /\ executeAgent simpleExecution a userInput customParams
                = Returns (withSummary r)
             /\ exists reply tail,
                  result r = VStr reply
                  /\ withSummary r = VStr (reply ++ tail)
                  /\ (toolExecutions r = [] -> tail = EmptyString))
            \/ (success r = false
                /\ exists message,
                     error r = Some message
                     /\ executeAgent simpleExecution a userInput customParams
                        = Throws (Error
                            ("Failed to execute agent with tools: "
                             ++ ToString (or_else message (VStr "Agent execution failed"))))))
      /\ (forall agentTools,
            loadAgentTools a = Returns agentTools ->
            Forall tame agentTools ->
            exists r,
              executeAgentWithTools a userInput customParams (ToString getApiKey) = Returns r
              /\ ((success r = true
                   /\ executeAgent simpleExecution a userInput customParams
                      = Returns (withSummary r)
                   /\ exists reply tail,
                        result r = VStr reply
                        /\ withSummary r = VStr (reply ++ tail)
                        /\ (toolExecutions r = [] -> tail = EmptyString))
                  \/ (success r = false
                      /\ exists message,
                           error r = Some (VStr message)
                           /\ executeAgent simpleExecution a userInput customParams
                              = Throws (Error
                                  ("Failed to execute agent with tools: "
                                   ++ (if String.eqb message EmptyString
                                       then "Agent execution failed" else message))))))).
Proof.
  assert (Completed : forall reply k st,
             exists tail,
               withSummary (done reply k st) = VStr (reply ++ tail)
               /\ (toolExecutions (done reply k st) = [] -> tail = EmptyString)).
  { intros reply k st.
    destruct (withSummary_of_done reply k st) as [Alone [tail W]].
    destruct (toolExecutionLog st) as [ | e log] eqn:Log.
    - exists EmptyString; split; [ | reflexivity].
      rewrite (Alone eq_refl); f_equal.
      clear; induction reply as [ | c s IHs]; [reflexivity | ].
      cbn [append]; rewrite <- IHs; reflexivity.
    - exists tail; split; [exact W | ].
      cbn [done toolExecutions]; rewrite Log; discriminate. }
  split; [ | split].
  - intros O; unfold executeAgent; rewrite O; reflexivity.
  - intros O K; unfold executeAgent; rewrite O, K; reflexivity.
  - intros O K T; rewrite (executeAgent_with_tools a userInput customParams O K T).
    split; [ | split].
    + intros message L; unfold executeAgentWithTools; rewrite L; reflexivity.
    + intros agentTools r L E; rewrite E.
      erewrite run_unfold in E by exact L.
      destruct (@report_shapes _ _ _ _ _ _ _ _ _
                  (initial_state_ends_with_text
                     (buildSystemPrompt a customParams (ToString getApiKey) userInput)
                     userInput) E)
        as [(reply & k & st & ->) | [(message & k & st & ->) | (st & -> & _)]].
      * left; split; [reflexivity | split; [reflexivity | ]].
        destruct (Completed reply k st) as (tail & W & Alone).
        exists reply, tail; split; [reflexivity | split; [exact W | exact Alone]].
      * right; split; [reflexivity | ].
        exists message; split; reflexivity.
      * right; split; [reflexivity | ].
        eexists; split; reflexivity.
    + intros agentTools L Tame; erewrite run_unfold by exact L.
      destruct (loop_resolves a (AgentExecutor.extractGeminiParameters customParams)
                  (ToString getApiKey) Tame MAX_ITERATIONS 0
                  (initial_state_ends_with_text
                     (buildSystemPrompt a customParams (ToString getApiKey) userInput)
                     userInput))
        as (r & -> & R).
      exists r; split; [reflexivity | ].
      destruct R as [reply k st B | message k st B | st E].
      * left; split; [reflexivity | split; [reflexivity | ]].
        destruct (Completed reply k st) as (tail & W & Alone).
        exists reply, tail; split; [reflexivity | split; [exact W | exact Alone]].
      * right; split; [reflexivity | ].
        exists message; split; [reflexivity | ].
        cbn [bind failed success negb errorOf error try_catch].
        unfold or_else; cbn [truthy].
        destruct (String.eqb message EmptyString); reflexivity.
      * right; split; [reflexivity | ].
        eexists; split; [reflexivity | reflexivity].
Qed.


End Caller.

(* ================================================================== *)
(** * More runs on the reference platform *)
(* ================================================================== *)

Section MoreRuns.
Import Js Platform ToolExecutor AgentExecutor Vocabulary Transcript Books LlmService.
Local Open Scope string_scope.

Lemma abbreviations_resolve_in_any_case_witness :
  resolveTimeZone (H := Demo.answering) (VStr "ist") = Returns "Asia/Kolkata"
  /\ resolveTimeZone (H := Demo.answering) (VStr "Europe/Paris") = Returns "Europe/Paris"
  /\ resolveTimeZone (H := Demo.answering) (VStr EmptyString) = Returns "UTC"
  /\ resolveTimeZone (H := Demo.answering) (VStr "Etc/GMT") = Returns "Etc/GMT".
Proof.
  destruct (abbreviations_resolve_in_any_case (H := Demo.answering)) as (A & B & C & D).
  split; [apply (A "IST" "ist" "Asia/Kolkata"); reflexivity | ].
  split; [apply (B "Europe/Paris"); [discriminate | reflexivity] | ].
  split; [apply (C (VStr EmptyString)); reflexivity | ].
  apply (D "gmt" "Etc/GMT"); [discriminate | reflexivity].
Defined.

Lemma no_timezone_means_local_witness :
  (exists payload,
      executeCurrentDateTime (H := Demo.answering) VUndefined = Returns payload
      /\ get "success" payload = VBool true
      /\ get "local" payload
         = VObj [("date", VStr "1/1/2025"); ("time", VStr "12:00:00 AM");
                 ("timezone", VStr "UTC")]
      /\ get "requested" payload = get "local" payload)
  /\ executeCurrentDateTime (H := Demo.answering) (VObj [("timezone", VStr "Mars/Olympus")])
     = Throws (Error "Invalid time zone specified: Mars/Olympus").
Proof.
  split.
  - apply (proj1 (no_timezone_means_local (H := Demo.answering) VUndefined));
      [discriminate | reflexivity | reflexivity | reflexivity].
  - apply (proj2 (no_timezone_means_local (H := Demo.answering)
                    (VObj [("timezone", VStr "Mars/Olympus")]))
             ltac:(discriminate) "Mars/Olympus" "1/1/2025" "12:00:00 AM");
      [reflexivity | reflexivity | reflexivity | left; reflexivity].
Defined.

Lemma body_needs_a_writing_method_witness :
  executeApiCaller (H := Demo.answering)
    (VObj [("url", VStr "https://example.org/items/7"); ("method", VStr "DELETE");
           ("body", VObj [("force", VBool true)])])
  = executeApiCaller (H := Demo.answering)
      (VObj [("url", VStr "https://example.org/items/7"); ("method", VStr "DELETE")]).
Proof.
  apply (body_needs_a_writing_method (H := Demo.answering)
           [("url", VStr "https://example.org/items/7"); ("method", VStr "DELETE")]
           (VObj [("force", VBool true)])).
  reflexivity.
Defined.

Lemma api_caller_reports_any_status_witness :
  executeApiCaller (H := Scenes.serving (inr Scenes.missing_page))
    (VObj [("url", VStr "https://example.org/nothing")])
  = Returns (VObj [("success", VBool true);
                   ("status", VNum 404);
                   ("statusText", VStr "Not Found");
                   ("headers", VObj [("content-type", VStr "application/json")]);
                   ("data", VObj [("detail", VStr "Not found")])]).
Proof.
  apply (proj1 (api_caller_reports_any_status (H := Scenes.serving (inr Scenes.missing_page))
                  (VObj [("url", VStr "https://example.org/nothing")]) eq_refl)
           Scenes.missing_page (VObj [("detail", VStr "Not found")])).
  - reflexivity.
  - left; reflexivity.
Defined.

Lemma custom_body_takes_precedence_witness :
  dispatch (H := Scenes.workshop) Scenes.custom_calculator (VObj [("n", VNum 21)])
  = executeCustomCode (H := Scenes.workshop) Scenes.custom_calculator (VObj [("n", VNum 21)])
  /\ executeTool (H := Scenes.workshop) Scenes.custom_calculator (VObj [("n", VNum 21)])
     = Returns (VObj [("doubled", VNum 42)]).
Proof.
  destruct (custom_body_takes_precedence (H := Scenes.workshop) Scenes.custom_calculator
              (VObj [("n", VNum 21)]) (s := Scenes.doubling_body) eq_refl)
    as [D R].
  - vm_compute; discriminate.
  - split; [exact D | ].
    apply (R Scenes.doubling); reflexivity.
Defined.

Lemma thrown_value_loses_its_text_witness :
  executeTool (H := Scenes.workshop) Scenes.text_thrower (VObj [])
  = Returns (failure (VStr "Custom code execution failed: undefined") "stock").
Proof.
  apply (thrown_value_loses_its_text (H := Scenes.workshop) Scenes.text_thrower (VObj [])
           (execute := fun _ => Throws (Raised (VStr "out of stock")))
           (thrown := VStr "out of stock"));
    reflexivity.
Defined.

Lemma calculator_reads_the_sanitized_text_witness :
  sanitize "sqrt(16)" = sanitize "(16)"
  /\ field_of "result" (executeCalculator (H := Demo.answering) (expression_args "sqrt(16)"))
     = field_of "result" (executeCalculator (H := Demo.answering) (expression_args "(16)")).
Proof.
  split; [reflexivity | ].
  apply (calculator_reads_the_sanitized_text (H := Demo.answering) "sqrt(16)" "(16)").
  reflexivity.
Defined.

(** The calculator of the catalog says it knows square roots and powers;
    their names and the [^] are stripped, and what is left is evaluated. *)
Example function_names_are_stripped :
  field_of "result" (executeCalculator (H := Demo.answering) (expression_args "sqrt(16)"))
  = Returns (VNum 16)
  /\ field_of "result" (executeCalculator (H := Demo.answering) (expression_args "2^3"))
     = Returns (VNum 23).
Proof. split; vm_compute; reflexivity. Qed.

Lemma analysis_type_is_only_echoed_witness :
  field_of "mean"
    (executeDataAnalyzer (H := Demo.answering)
       (VObj [("data", VArr [VNum 1; VNum 2; VNum 6]); ("analysis_type", VStr "trend")]))
  = field_of "mean"
      (executeDataAnalyzer (H := Demo.answering)
         (VObj [("data", VArr [VNum 1; VNum 2; VNum 6])])).
Proof.
  apply (analysis_type_is_only_echoed (H := Demo.answering)
           [("data", VArr [VNum 1; VNum 2; VNum 6])] (VStr "trend") (key := "mean")).
  discriminate.
Defined.

Lemma last_entry_for_a_setting_decides_witness :
  get "temperature"
      (VObj (extractGeminiParameters
               [("temperature", VStr "0.2"); ("Temperature", VStr "0.9");
                ("tone", VStr "formal")]))
  = or_else (VNum (parseFloat (VStr "0.9"))) (VStr "0.9").
Proof.
  apply (last_entry_for_a_setting_decides [("temperature", VStr "0.2")]
           [("tone", VStr "formal")] "Temperature" (VStr "0.9") (geminiKey := "temperature")).
  - reflexivity.
  - intros entry [<- | []]; discriminate.
Defined.

Lemma tools_load_in_order_witness :
  loadAgentTools (H := Demo.answering) Scenes.librarian
  = Returns [Demo.calculator; Demo.data_analyzer].
Proof.
  apply (tools_load_in_order (H := Demo.answering) Scenes.librarian).
  intros toolId [<- | [<- | [<- | []]]]; eexists; reflexivity.
Defined.

Lemma store_failure_rejects_the_run_witness :
  executeAgentWithTools (H := Scenes.broken_store) Demo.assistant Demo.question [] "KEY"
  = Throws (Error "Database unavailable").
Proof.
  apply (store_failure_rejects_the_run (H := Scenes.broken_store) Demo.assistant
           Demo.question [] "KEY" (message := "Database unavailable")).
  - exists (VStr "calculator"); split; [left; reflexivity | reflexivity].
  - intros toolId m _ E; injection E as <-; reflexivity.
Defined.

Lemma failed_pass_leaves_the_books_witness :
  conversation_loop (H := Demo.silent) Demo.assistant [] [Demo.calculator] "KEY"
    MAX_ITERATIONS 0 Demo.opening
  = Returns (failed (VStr "Invalid response from LLM") 1 Demo.opening).
Proof.
  apply (proj1 (proj2 (failed_pass_leaves_the_books (H := Demo.silent) Demo.assistant []
                         [Demo.calculator] "KEY" 9 0 Demo.opening))
           (VStr EmptyString));
    reflexivity.
Defined.

Lemma backend_rejection_fails_the_first_pass_witness :
  executeAgentWithTools (H := Scenes.serving (inr Scenes.refusal)) Demo.assistant
    Demo.question [] "KEY"
  = Returns (failed (VStr "API key not valid") 1
               (opening_state (H := Scenes.serving (inr Scenes.refusal))
                  Demo.assistant [] "KEY" Demo.question))
  /\ executeAgentWithTools (H := Scenes.serving (inr Scenes.blocking)) Demo.assistant
       Demo.question [] "KEY"
     = Returns (failed (VStr "Content blocked: SAFETY") 1
                  (opening_state (H := Scenes.serving (inr Scenes.blocking))
                     Demo.assistant [] "KEY" Demo.question)).
Proof.
  split.
  - destruct (backend_rejection_fails_the_first_pass
                (H := Scenes.serving (inr Scenes.refusal)) Demo.assistant Demo.question []
                "KEY" (agentTools := [Demo.calculator]) eq_refl)
      as (_ & R & _).
    destruct (R Scenes.refusal (fun _ _ => eq_refl) eq_refl) as (_ & M & _).
    apply (M [("error", VObj [("code", VNum 400); ("message", VStr "API key not valid")])]
             [("code", VNum 400); ("message", VStr "API key not valid")]);
      [reflexivity | reflexivity | reflexivity | discriminate].
  - destruct (backend_rejection_fails_the_first_pass
                (H := Scenes.serving (inr Scenes.blocking)) Demo.assistant Demo.question []
                "KEY" (agentTools := [Demo.calculator]) eq_refl)
      as (_ & _ & B).
    destruct (B Scenes.blocking
                [("promptFeedback", VObj [("blockReason", VStr "SAFETY")])]
                (fun _ _ => eq_refl) eq_refl eq_refl (or_introl eq_refl))
      as (C & _).
    apply (C [("blockReason", VStr "SAFETY")]); [reflexivity | reflexivity | discriminate].
Defined.

Lemma every_record_has_its_turn_witness :
  loadAgentTools (H := Demo.tutoring) Demo.assistant = Returns [Demo.calculator]
  /\ exists r added,
       executeAgentWithTools (H := Demo.tutoring) Demo.assistant Demo.question [] "KEY"
       = Returns r
       /\ conversationHistory r
          = (history (initial_state
                        (buildSystemPrompt (H := Demo.tutoring) Demo.assistant [] "KEY"
                           Demo.question)
                        Demo.question)
             ++ added)%list
       /\ user_turns added = length (toolExecutions r).
Proof.
  split; [reflexivity | ].
  destruct (every_record_has_its_turn (H := Demo.tutoring) Demo.assistant Demo.question []
              "KEY" (agentTools := [Demo.calculator]) eq_refl) as [A _].
  assert (X : exists r,
             executeAgentWithTools (H := Demo.tutoring) Demo.assistant Demo.question []
               "KEY" = Returns r
             /\ result r <> VNull)
    by (eexists; split; [vm_compute; reflexivity | discriminate]).
  destruct X as (r & E & N).
  destruct (A r E) as (added & C & U & _).
  exists r, added; split; [exact E | split; [exact C | exact (U N)]].
Defined.

Lemma records_are_stamped_in_order_witness :
  Forall (tame (H := Demo.looping)) [Demo.calculator]
  /\ exists r,
       executeAgentWithTools (H := Demo.looping) Demo.assistant Demo.question [] "KEY"
       = Returns r
       /\ Forall (fun e => 1 <= at_iteration e <= iterations r) (toolExecutions r)
       /\ ascending (stamps (toolExecutions r)) = true.
Proof.
  assert (T : Forall (tame (H := Demo.looping)) [Demo.calculator])
    by (constructor; [apply builtin_is_tame; reflexivity | constructor]).
  split; [exact T | ].
  exact (proj2 (records_are_stamped_in_order (H := Demo.looping) Demo.assistant
                  Demo.question [] "KEY" (agentTools := [Demo.calculator]) eq_refl) T).
Defined.

Lemma model_turns_count_the_passes_witness :
  loadAgentTools (H := Demo.tutoring) Demo.assistant = Returns [Demo.calculator]
  /\ exists r,
       executeAgentWithTools (H := Demo.tutoring) Demo.assistant Demo.question [] "KEY"
       = Returns r
       /\ model_turns (conversationHistory r) = iterations r
       /\ exists earlier reply,
            conversationHistory r = (earlier ++ [model_turn reply])%list
            /\ result r = VStr reply
            /\ reply <> EmptyString
            /\ parseFunctionCalls (H := Demo.tutoring) reply = [].
Proof.
  split; [reflexivity | ].
  destruct (model_turns_count_the_passes (H := Demo.tutoring) Demo.assistant Demo.question []
              "KEY" (agentTools := [Demo.calculator]) eq_refl) as [A _].
  assert (X : exists r,
             executeAgentWithTools (H := Demo.tutoring) Demo.assistant Demo.question []
               "KEY" = Returns r
             /\ result r <> VNull /\ success r = true)
    by (eexists; split; [vm_compute; reflexivity | split; [discriminate | reflexivity]]).
  destruct X as (r & E & N & Y).
  destruct (A r E) as (M & _ & D).
  exists r; split; [exact E | split; [exact (M N) | exact (D Y)]].
Defined.

(** The books of a run that failed among the calls of the first reply:
    the reply is in the transcript, the record is in the log, its turn is
    missing. *)
Example books_of_a_run_failed_among_calls :
  exists r,
    executeAgentWithTools (H := Scenes.counting) Scenes.accountant Demo.question [] "KEY"
    = Returns r
    /\ result r = VNull
    /\ iterations r = 1
    /\ model_turns (conversationHistory r) = 1
    /\ user_turns (conversationHistory r) = 1
    /\ length (toolExecutions r) = 1.
Proof.
  eexists; split; [vm_compute; reflexivity | ].
  repeat split.
Qed.

(** A run whose tool is not tame may give no report at all: what the tool
    throws guards its message twice, and reading it throws in the
    invoker, in the invoker's caller and in the loop. *)
Example untamed_tool_rejects_the_run :
  customCall (H := Scenes.digging) Scenes.pit (VObj [])
  = Throws (Guarded (Guarded (Raised VNull)))
  /\ executeTool (H := Scenes.digging) Scenes.pit (VObj []) = Throws (Raised VNull)
  /\ executeAgentWithTools (H := Scenes.digging) Scenes.digger Demo.question [] "KEY"
     = Throws (Error (describe (Host := Scenes.digging) (NoProperty "message"))).
Proof. split; [reflexivity | split; [reflexivity | vm_compute; reflexivity]]. Qed.

(** The books of the run in which the calculator is asked for on every
    pass: ten model turns, ten records stamped 1 to 10, eleven user turns. *)
Example books_of_an_exhausted_run :
  exists r,
    executeAgentWithTools (H := Demo.looping) Demo.assistant Demo.question [] "KEY"
    = Returns r
    /\ stamps (toolExecutions r) = [1; 2; 3; 4; 5; 6; 7; 8; 9; 10]
    /\ user_turns (conversationHistory r) = 11
    /\ model_turns (conversationHistory r) = 10.
Proof.
  eexists; split; [vm_compute; reflexivity | ].
  repeat split.
Qed.

Lemma retrieval_failure_is_passed_over_witness :
  executeAgentWithTools (H := Scenes.forgetful) Scenes.librarian Demo.question [] "KEY"
  = executeAgentWithTools (H := Scenes.forgetful) (without_rag Scenes.librarian)
      Demo.question [] "KEY".
Proof.
  apply (retrieval_failure_is_passed_over (H := Scenes.forgetful) Scenes.librarian
           Demo.question [] "KEY").
  left; exists "Embedding request failed"; reflexivity.
Defined.

Lemma output_limit_defaults_differ_witness :
  get "topK" (VObj (LlmService.extractGeminiParameters [("topK", VStr "20")]))
  = get "topK" (VObj (AgentExecutor.extractGeminiParameters [("topK", VStr "20")])).
Proof.
  destruct (output_limit_defaults_differ [("topK", VStr "20")]) as (_ & _ & K & _).
  apply (K "topK"); discriminate.
Defined.

Lemma executeAgent_returns_completed_runs_only_witness :
  executeAgent (H := Demo.tutoring) (H0 := Scenes.unplugged) Scenes.unused Demo.assistant
    Demo.question []
  = Throws (Error "No internet connection (offline). Please reconnect and try again.")
  /\ executeAgent (H := Scenes.broken_store) (H0 := Scenes.onboarded) Scenes.unused
       Demo.assistant Demo.question []
     = Throws (Error "Failed to execute agent with tools: Database unavailable")
  /\ exists r,
       executeAgentWithTools (H := Demo.tutoring) Demo.assistant Demo.question [] "KEY"
       = Returns r
       /\ (success r = true \/ success r = false).
Proof.
  split; [ | split].
  - apply (proj1 (executeAgent_returns_completed_runs_only (H := Demo.tutoring)
                    (H0 := Scenes.unplugged) Scenes.unused Demo.assistant Demo.question [])).
    reflexivity.
  - destruct (executeAgent_returns_completed_runs_only (H := Scenes.broken_store)
                (H0 := Scenes.onboarded) Scenes.unused Demo.assistant Demo.question [])
      as (_ & _ & T).
    destruct T as [F _]; [reflexivity | reflexivity | discriminate | ].
    apply (F "Database unavailable"); reflexivity.
  - destruct (executeAgent_returns_completed_runs_only (H := Demo.tutoring)
                (H0 := Scenes.onboarded) Scenes.unused Demo.assistant Demo.question [])
      as (_ & _ & T).
    destruct T as (_ & _ & R); [reflexivity | reflexivity | discriminate | ].
    destruct (R [Demo.calculator] eq_refl) as (r & E & [[Y _] | [N _]]).
    + constructor; [apply builtin_is_tame; reflexivity | constructor].
    + exists r; split; [exact E | left; exact Y].
    + exists r; split; [exact E | right; exact N].
Defined.

(** The two passes of the calculator run, as the caller gets them. *)
Example answer_with_its_summary :
  executeAgent (H := Demo.tutoring) (H0 := Scenes.onboarded) Scenes.unused Demo.assistant
    Demo.question []
  = Returns (VStr ("2 + 2 = 4" ++ nl ++ nl ++ "---" ++ nl ++ "**Execution Summary:**" ++ nl
                   ++ "- Iterations: 2" ++ nl ++ "- Tools Used: 1" ++ nl
                   ++ "  1. calculator (iteration 1)" ++ nl)).
Proof. vm_compute; reflexivity. Qed.


End MoreRuns.
